(** * SageMaker text-to-speech provider: model and properties

    A shallow embedding of [model_provider/sagemaker/tts/tts.py]:
    the payload builder, the credential check, the [_invoke] entry point
    and the streaming synthesizer, with the properties the specification
    states about them.

    How the Python is read:
    - a method is a computation over a world made of the instance
      attributes, a heap of dictionaries and the trace of what the run
      did; it returns, raises an [Exception], raises something that is
      not an [Exception] ([KeyboardInterrupt], [SystemExit]), or waits
      for ever;
    - a name that the file uses and never binds ([logger], [boto3],
      [json], and [model], [credentials], [content_text] in the
      synthesizer) is looked up in the module namespace when its statement
      runs, and raises [NameError] if nobody has put it there;
    - the generator [_tts_invoke_streaming] returns is consumed to its
      end, each [yield] being an event of the trace;
    - the thread pool is the order in which its calls are run, and a
      future is a slot that the call fills when it comes back;
    - what the host application and the network do (sentence splitting,
      JSON, the endpoint, the download, the client factory) is a parameter
      of the development: a platform, each of whose calls returns, raises
      either kind of exception, or never comes back.  A host is a
      platform whose calls always come back, with a value or with an
      [Exception]. *)

From Stdlib Require Import Strings.Byte.
From stdpp Require Import base gmap strings list pretty.

Local Open Scope string_scope.
Local Open Scope list_scope.

(** ** Python values *)

(** The values the module handles outside of dictionaries and byte strings:
    [None], a [str], or some other object (a module, a logger, a client)
    known only by a name. *)
Inductive PyVal :=
| VNone
| VStr (s : string)
| VObj (name : string).

#[global] Instance PyVal_eq_dec : EqDecision PyVal.
Proof. solve_decision. Defined.

(** [if v:] *)
Definition truthy (v : PyVal) : bool :=
  match v with
  | VNone => false
  | VStr s => negb (bool_decide (s = ""))
  | VObj _ => true
  end.

(** [v == w] *)
Definition py_eq (v w : PyVal) : bool := bool_decide (v = w).

(** [str(v)], as an f-string formats it *)
Definition py_str (v : PyVal) : string :=
  match v with
  | VNone => "None"
  | VStr s => s
  | VObj name => name
  end.

(** A [dict] with string keys. *)
Abbreviation Dict := (gmap string PyVal).

(** [d.get(k)] and [d.get(k, dflt)] *)
Definition dict_get (d : Dict) (k : string) : PyVal := default VNone (d !! k).
Definition dict_get_default (d : Dict) (k : string) (dflt : PyVal) : PyVal :=
  default dflt (d !! k).

(** ** Exceptions and results *)

Inductive ExnClass :=
| NameError
| TypeError
| AttributeError
| IndexError
| ValueError
| RuntimeError
| InvokeBadRequestError
| OtherError (cls : string).

#[global] Instance ExnClass_eq_dec : EqDecision ExnClass.
Proof. solve_decision. Defined.

(** An exception object that is an instance of [Exception]: its class
    and [str(ex)]. *)
Record Exn := mkExn { exn_class : ExnClass; exn_str : string }.

#[global] Instance Exn_eq_dec : EqDecision Exn.
Proof. solve_decision. Defined.

(** An exception object whose class derives from [BaseException] and
    not from [Exception], such as [KeyboardInterrupt], [SystemExit] or
    [GeneratorExit]: the name of its class and [str(ex)]. *)
Record BaseExn := mkBase { base_class : string; base_str : string }.

#[global] Instance BaseExn_eq_dec : EqDecision BaseExn.
Proof. solve_decision. Defined.

(** The result of a call that comes back with a value or with an
    [Exception]. *)
Inductive Res (A : Type) :=
| Ok (a : A)
| Raise (e : Exn).
Arguments Ok {A} a.
Arguments Raise {A} e.

(** How a computation or a call ends: it returns, raises an
    [Exception], raises an exception that is not an [Exception], or
    never returns (it hangs, or waits on a future that never
    completes). *)
Inductive Outcome (A : Type) :=
| Returned (a : A)
| Raised (e : Exn)
| RaisedBase (b : BaseExn)
| Blocked.
Arguments Returned {A} a.
Arguments Raised {A} e.
Arguments RaisedBase {A} b.
Arguments Blocked {A}.

Definition outcome_of {A} (r : Res A) : Outcome A :=
  match r with
  | Ok a => Returned a
  | Raise e => Raised e
  end.

(** ** The voice modes *)

Inductive TTSModelType :=
| PresetVoice
| CloneVoice
| CloneVoice_CrossLingual
| InstructVoice.

Definition value (m : TTSModelType) : string :=
  match m with
  | PresetVoice => "PresetVoice"
  | CloneVoice => "CloneVoice"
  | CloneVoice_CrossLingual => "CloneVoice_CrossLingual"
  | InstructVoice => "InstructVoice"
  end.

(** ** [_build_tts_payload] *)

Definition _build_tts_payload
    (content_text model_type model_role prompt_text prompt_audio
     lang_tag instruct_text : PyVal) : Res Dict :=
  if py_eq model_type (VStr (value PresetVoice)) && truthy model_role then
    Ok {[ "tts_text" := content_text; "role" := model_role ]}
  else if py_eq model_type (VStr (value CloneVoice))
          && truthy prompt_text && truthy prompt_audio then
    Ok {[ "tts_text" := content_text; "prompt_text" := prompt_text;
          "prompt_audio" := prompt_audio ]}
  else if py_eq model_type (VStr (value CloneVoice_CrossLingual))
          && truthy prompt_audio && truthy lang_tag then
    Ok {[ "tts_text" := content_text; "prompt_audio" := prompt_audio;
          "lang_tag" := lang_tag ]}
  else if py_eq model_type (VStr (value InstructVoice))
          && truthy instruct_text && truthy model_role then
    Ok {[ "tts_text" := content_text; "role" := model_role;
          "instruct_text" := instruct_text ]}
  else
    Raise (mkExn RuntimeError ("Invalid params for " +:+ py_str model_type)).

(** The documented table of the payload builder, in the specification's
    words: the companion fields each mode requires, under the keys the
    endpoint expects. *)
Definition required_fields (m : TTSModelType) : list string :=
  match m with
  | PresetVoice => ["role"]
  | CloneVoice => ["prompt_text"; "prompt_audio"]
  | CloneVoice_CrossLingual => ["prompt_audio"; "lang_tag"]
  | InstructVoice => ["role"; "instruct_text"]
  end.

(** The argument of the builder that a field key stands for. *)
Definition companion
    (model_role prompt_text prompt_audio lang_tag instruct_text : PyVal)
    (field : string) : PyVal :=
  if bool_decide (field = "role") then model_role
  else if bool_decide (field = "prompt_text") then prompt_text
  else if bool_decide (field = "prompt_audio") then prompt_audio
  else if bool_decide (field = "lang_tag") then lang_tag
  else if bool_decide (field = "instruct_text") then instruct_text
  else VNone.

(** The mode a mode string names, if it is a supported one. *)
Definition mode_of (model_type : PyVal) : option TTSModelType :=
  List.find (fun m => py_eq model_type (VStr (value m)))
    [PresetVoice; CloneVoice; CloneVoice_CrossLingual; InstructVoice].

(** A supported mode with every companion field it requires present. *)
Definition documented_combination
    (model_type model_role prompt_text prompt_audio lang_tag
     instruct_text : PyVal) : bool :=
  match mode_of model_type with
  | Some m =>
      forallb
        (fun f => truthy (companion model_role prompt_text prompt_audio
                            lang_tag instruct_text f))
        (required_fields m)
  | None => false
  end.

(** ** The world the methods run in *)

(** A client handle, as [boto3.client(service, **kwargs)] builds it. *)
Record Client := mkClient { service : string; kwargs : list (string * PyVal) }.

(** The instance attributes [self.sagemaker_client] and [self.s3_client];
    both start as [None]. *)
Record Self := mkSelf {
  sagemaker_client : option Client;
  s3_client : option Client
}.

Definition fresh_self : Self := mkSelf None None.

(** A decoded JSON document: an object, or a value of another type. *)
Inductive Json :=
| JDict (d : Dict)
| JOther (type_name : string).

(** What a run does that is visible from outside, in order.  The [index]
    of an event is the position of the segment it belongs to (the variable
    [index] of the collection loop); the short path uses 0. *)
Inductive Event :=
| EvLog (msg : string)
| EvLogResp (resp : Json)
| EvBoto3Client (c : Client)
| EvSubmit (index : nat) (payload : nat)
| EvInvokeEndpoint (index : nat) (endpoint : PyVal) (payload : Dict)
| EvHttpGet (index : nat) (url : PyVal)
| EvYield (index : nat) (chunk : list byte).

(** Dictionaries are objects: a payload is a reference into the heap, so
    that two references to one dictionary see each other's updates. *)
Record World := mkWorld {
  w_self : Self;
  w_heap : gmap nat Dict;
  w_trace : list Event
}.

Definition M (A : Type) : Type := World -> World * Outcome A.

#[global] Instance M_ret : MRet M := fun A a w => (w, Returned a).

#[global] Instance M_bind : MBind M := fun A B k m w =>
  match m w with
  | (w', Returned a) => k a w'
  | (w', Raised e) => (w', Raised e)
  | (w', RaisedBase b) => (w', RaisedBase b)
  | (w', Blocked) => (w', Blocked)
  end.

Definition raise {A} (e : Exn) : M A := fun w => (w, Raised e).

(** An operation of the interpreter that has no effect on the world. *)
Definition lift {A} (r : Res A) : M A :=
  match r with
  | Ok a => mret a
  | Raise e => raise e
  end.

(** A call into the platform: it ends as the platform says. *)
Definition call {A} (o : Outcome A) : M A := fun w => (w, o).

Definition emit (ev : Event) : M unit :=
  fun w => (mkWorld (w_self w) (w_heap w) (w_trace w ++ [ev]), Returned tt).

Definition get_self : M Self := fun w => (w, Returned (w_self w)).

Definition set_self (s : Self) : M unit :=
  fun w => (mkWorld s (w_heap w) (w_trace w), Returned tt).

(** [try: body except Exception as ex: handler(ex)].  The clause
    matches instances of [Exception] only: an exception that is not one
    leaves the statement as it is, like a return or a wait. *)
Definition try_except {A} (body : M A) (handler : Exn -> M A) : M A :=
  fun w =>
    match body w with
    | (w', Raised ex) => handler ex w'
    | r => r
    end.

(** [for x in l: body(x)] *)
Fixpoint for_each {A} (l : list A) (body : A -> M unit) : M unit :=
  match l with
  | [] => mret tt
  | x :: l' => body x ;; for_each l' body
  end.

(** [enumerate(l)] *)
Definition enumerate {A} (l : list A) : list (nat * A) := zip (seq 0 (length l)) l.

(** [range(start, stop, step)] for a positive step *)
Definition py_range (start stop step : nat) : list nat :=
  (fun k => start + k * step) <$> seq 0 ((stop - start + (step - 1)) / step).

(** [l[i:j]] *)
Definition slice {A} (l : list A) (i j : nat) : list A := take (j - i) (drop i l).

(** [l[i]] *)
Definition list_index {A} (l : list A) (i : nat) : Res A :=
  match l !! i with
  | Some x => Ok x
  | None => Raise (mkExn IndexError "list index out of range")
  end.

(** [len(v)] *)
Definition py_len (v : PyVal) : Res nat :=
  match v with
  | VStr s => Ok (String.length s)
  | VNone => Raise (mkExn TypeError "object of type 'NoneType' has no len()")
  | VObj name =>
      Raise (mkExn TypeError ("object of type '" +:+ name +:+ "' has no len()"))
  end.

(** The dictionary behind a reference (the receiver of [payload.get]). *)
Definition deref (p : nat) : M Dict :=
  fun w =>
    match w_heap w !! p with
    | Some d => (w, Returned d)
    | None =>
        (w, Raised (mkExn AttributeError "object has no attribute 'get'"))
    end.

(** [p[k] = v] *)
Definition setitem (p : nat) (k : string) (v : PyVal) : M unit :=
  fun w =>
    match w_heap w !! p with
    | Some d =>
        (mkWorld (w_self w) (<[p := <[k := v]> d]> (w_heap w)) (w_trace w),
         Returned tt)
    | None =>
        (w, Raised (mkExn TypeError "object does not support item assignment"))
    end.

(** [resp.get(k)] *)
Definition json_get (resp : Json) (k : string) : Res PyVal :=
  match resp with
  | JDict d => Ok (dict_get d k)
  | JOther type_name =>
      Raise (mkExn AttributeError
               ("'" +:+ type_name +:+ "' object has no attribute 'get'"))
  end.

(** ** The module namespace *)

(** The global names of the module at the time of a call.  A name the
    file uses without binding it is looked up here when the statement
    runs, and raises [NameError] when it is absent. *)
Abbreviation Namespace := (gmap string PyVal).

(** What the file itself binds: its imports and its two classes. *)
Definition module_globals : Namespace :=
  list_to_map ((fun n => (n, VObj n)) <$>
    ["concurrent"; "IO"; "Optional"; "Any"; "Enum"; "I18nObject";
     "AIModelEntity"; "FetchFrom"; "ModelType"; "InvokeAuthorizationError";
     "InvokeBadRequestError"; "InvokeConnectionError"; "InvokeError";
     "InvokeRateLimitError"; "InvokeServerUnavailableError";
     "CredentialsValidateFailedError"; "TTSModel"; "requests";
     "TTSModelType"; "SageMakerText2SpeechModel"]).

Definition load_global (g : Namespace) (name : string) : M PyVal :=
  match g !! name with
  | Some v => mret v
  | None => raise (mkExn NameError ("name '" +:+ name +:+ "' is not defined"))
  end.

(** [logger.warning(msg)] *)
Definition logger_warning (g : Namespace) (msg : string) : M unit :=
  load_global g "logger" ;; emit (EvLog msg).

(** ** The platform, and the hosts among the platforms *)

(** What the module calls and does not define: the sentence splitter of
    the [TTSModel] base class, the JSON codec, the inference endpoint, the
    HTTP client and the client factory.  The endpoint and the download
    are told which segment they serve, so that equal requests may get
    different answers.  Each call ends in one of the four ways of
    [Outcome]: [json.dumps] raises on a value that has no JSON form, any
    call may be interrupted, and a call over the network may hang. *)
Module Py.

Class Platform := {
  _split_text_into_sentences : PyVal -> nat -> Outcome (list string);
  json_dumps : Dict -> Outcome string;
  invoke_endpoint : Client -> nat -> PyVal -> string -> Outcome string;
  json_loads : string -> Outcome Json;
  requests_get_content : nat -> PyVal -> Outcome (list byte);
  boto3_client : string -> list (string * PyVal) -> Outcome Client
}.

End Py.

(** A host: a platform on which every payload has a JSON form and every
    other call comes back with a value or with an [Exception]. *)
Class Host := {
  _split_text_into_sentences : PyVal -> nat -> Res (list string);
  json_dumps : Dict -> string;
  invoke_endpoint : Client -> nat -> PyVal -> string -> Res string;
  json_loads : string -> Res Json;
  requests_get_content : nat -> PyVal -> Res (list byte);
  boto3_client : string -> list (string * PyVal) -> Res Client
}.

#[global] Instance platform_of_host (host : Host) : Py.Platform := {|
  Py._split_text_into_sentences := fun org_text max_length =>
    outcome_of (_split_text_into_sentences org_text max_length);
  Py.json_dumps := fun d => Returned (json_dumps d);
  Py.invoke_endpoint := fun client index endpoint body =>
    outcome_of (invoke_endpoint client index endpoint body);
  Py.json_loads := fun json_str => outcome_of (json_loads json_str);
  Py.requests_get_content := fun index url =>
    outcome_of (requests_get_content index url);
  Py.boto3_client := fun service kwargs =>
    outcome_of (boto3_client service kwargs)
|}.

Coercion platform_of_host : Host >-> Py.Platform.

Section Methods.
Context {host : Py.Platform}.

(** ** [validate_credentials] *)

(** The body is [pass]: the call returns [None]. *)
Definition validate_credentials (model : PyVal) (credentials : Dict) : M PyVal :=
  mret VNone.

(** ** The capability accessors *)

Definition _get_model_word_limit (model credentials : PyVal) : nat := 600.
Definition _get_model_workers_limit (model credentials : PyVal) : nat := 5.
Definition _get_model_audio_type (model credentials : PyVal) : string := "mp3".
Definition _get_model_default_voice (model credentials : PyVal) : string := "".

(** ** [_invoke_sagemaker] *)

(** [index] tells the platform which segment the call serves; the source
    has no such argument.  The event records that the call has been
    made, whether or not it comes back: the arguments are evaluated
    first, so a payload that [json.dumps] refuses is never sent. *)
Definition _invoke_sagemaker (g : Namespace) (index : nat)
    (payload : Dict) (endpoint : PyVal) : M Json :=
  self ← get_self;
  match sagemaker_client self with
  | None =>
      raise (mkExn AttributeError
               "'NoneType' object has no attribute 'invoke_endpoint'")
  | Some client =>
      load_global g "json" ;;
      body ← call (Py.json_dumps payload);
      emit (EvInvokeEndpoint index endpoint payload) ;;
      json_str ← call (Py.invoke_endpoint client index endpoint body);
      call (Py.json_loads json_str)
  end.

(** ** [_tts_invoke_streaming] *)

(** [ThreadPoolExecutor(max_workers=n)] *)
Definition ThreadPoolExecutor (max_workers : nat) : Res unit :=
  if bool_decide (max_workers = 0) then
    Raise (mkExn ValueError "max_workers must be greater than 0")
  else Ok tt.

(** The workers of the pool.  [tasks] are the submitted payload
    references by position and [sched] is the order in which the pool
    runs its calls.  On a host every call that is run comes back, so
    there [sched] is the order in which the calls complete; on a
    platform a call that is run may hang, which leaves its request made
    and its future empty for ever.  A position that [sched] never names
    is a call the pool does not get to run, as when all its workers are
    held by calls that hang.  Each worker reads its payload when it
    runs, which is after the submitting thread has stopped writing to
    it.  The outcome of a call is kept in its future, whatever it is,
    an exception that is not an [Exception] included. *)
Fixpoint run_pool (g : Namespace) (endpoint : PyVal) (tasks : list nat)
    (sched : list nat) (done : gmap nat (Outcome Json)) (w : World)
    : World * gmap nat (Outcome Json) :=
  match sched with
  | [] => (w, done)
  | i :: sched' =>
      match done !! i, tasks !! i with
      | None, Some p =>
          let '(w', r) := (payload ← deref p;
                           _invoke_sagemaker g i payload endpoint) w in
          run_pool g endpoint tasks sched' (<[i := r]> done) w'
      | _, _ => run_pool g endpoint tasks sched' done w
      end
  end.

(** The pool at work, from the first [submit] on: the outcomes of the
    calls that the pool has run, by position. *)
Definition run_workers (g : Namespace) (endpoint : PyVal) (tasks : list nat)
    (sched : list nat) : M (gmap nat (Outcome Json)) :=
  fun w => let '(w', done) := run_pool g endpoint tasks sched ∅ w in
           (w', Returned done).

(** [[executor.submit(...) for payload in payloads]]: a future is the
    position of its call in the pool. *)
Definition submit_all (payloads : list nat) : M (list nat) :=
  for_each (enumerate payloads) (fun '(index, p) => emit (EvSubmit index p)) ;;
  mret (seq 0 (length payloads)).

(** [future.result()] *)
Definition future_result (done : gmap nat (Outcome Json)) (index : nat) : M Json :=
  fun w =>
    match done !! index with
    | Some r => (w, r)
    | None => (w, Blocked)
    end.

(** [for i in range(0, len(audio_bytes), 1024): yield audio_bytes[i:i + 1024]] *)
Definition emit_chunks (index : nat) (audio_bytes : list byte) : M unit :=
  for_each (py_range 0 (length audio_bytes) 1024)
    (fun i => emit (EvYield index (slice audio_bytes i (i + 1024)))).

(** The three statements both paths run on a response: log it, download
    the audio its URL points to, and yield the audio in chunks. *)
Definition fetch_and_emit (g : Namespace) (index : nat) (resp : Json) : M unit :=
  load_global g "logger" ;;
  emit (EvLogResp resp) ;;
  url ← lift (json_get resp "s3_presign_url");
  emit (EvHttpGet index url) ;;
  audio_bytes ← call (Py.requests_get_content index url);
  emit_chunks index audio_bytes.

(** The body of the [try].  The generator is run to its end: every
    [yield] is an [EvYield] of the trace. *)
Definition tts_try_body (g : Namespace) (sched : list nat)
    (payload : nat) (sagemaker_endpoint : PyVal) : M unit :=
  model ← load_global g "model";
  credentials ← load_global g "credentials";
  let word_limit := _get_model_word_limit model credentials in
  content_text ← load_global g "content_text";
  n ← lift (py_len content_text);
  if bool_decide (word_limit < n) then
    d ← deref payload;
    sentences ← call (Py._split_text_into_sentences (dict_get d "content_text")
                        word_limit);
    let len_sent := length sentences in
    lift (ThreadPoolExecutor (min 4 len_sent)) ;;
    let payloads := replicate len_sent payload in
    for_each (seq 0 len_sent) (fun idx =>
      p ← lift (list_index payloads idx);
      s ← lift (list_index sentences idx);
      setitem p "tts_text" (VStr s)) ;;
    futures ← submit_all payloads;
    pool ← run_workers g sagemaker_endpoint payloads sched;
    for_each (enumerate futures) (fun '(index, future) =>
      resp ← future_result pool future;
      fetch_and_emit g index resp)
  else
    d ← deref payload;
    resp ← _invoke_sagemaker g 0 d sagemaker_endpoint;
    fetch_and_emit g 0 resp.

(** The method; [g] is the module namespace at the time of the run and
    [sched] the order in which the pool runs its calls, which on a host
    is the order in which they complete.  Neither is an argument of the
    source. *)
Definition _tts_invoke_streaming (g : Namespace) (sched : list nat)
    (payload : nat) (sagemaker_endpoint : PyVal) : M unit :=
  try_except (tts_try_body g sched payload sagemaker_endpoint)
    (fun ex => raise (mkExn InvokeBadRequestError (exn_str ex))).

(** ** [_invoke] *)

(** An argument of a call. *)
Inductive PyArg :=
| AVal (v : PyVal)
| ADict (d : Dict).

(** The parameters of [_tts_invoke_streaming] after [self]. *)
Definition tts_invoke_streaming_params : list string :=
  ["payload"; "sagemaker_endpoint"].

(** Binding positional arguments to the parameters of a method; the
    counts of the first message include [self]. *)
Definition bind_positional (fname : string) (params : list string)
    (args : list PyArg) : Res (list (string * PyArg)) :=
  if bool_decide (length args = length params) then Ok (zip params args)
  else if bool_decide (length params < length args) then
    Raise (mkExn TypeError
      (fname +:+ "() takes " +:+ pretty (S (length params))
       +:+ " positional arguments but " +:+ pretty (S (length args))
       +:+ " were given"))
  else
    Raise (mkExn TypeError
      (fname +:+ "() missing " +:+ pretty (length params - length args)
       +:+ " required positional arguments")).

(** [boto3.client(service, **kwargs)] *)
Definition new_client (g : Namespace) (service : string)
    (kwargs : list (string * PyVal)) : M Client :=
  load_global g "boto3" ;;
  c ← call (Py.boto3_client service kwargs);
  emit (EvBoto3Client c) ;;
  mret c.

Definition set_sagemaker_client (c : Client) : M unit :=
  self ← get_self; set_self (mkSelf (Some c) (s3_client self)).

Definition set_s3_client (c : Client) : M unit :=
  self ← get_self; set_self (mkSelf (sagemaker_client self) (Some c)).

(** The value is the generator the last line returns, given as the
    arguments it was bound to; its body has not started. *)
Definition _invoke (g : Namespace) (model tenant_id : PyVal)
    (credentials : Dict) (content_text voice user : PyVal)
    : M (list (string * PyArg)) :=
  logger_warning g ("model: " +:+ py_str model +:+ ".") ;;
  logger_warning g ("tenant_id: " +:+ py_str tenant_id +:+ ".") ;;
  logger_warning g ("content_text: " +:+ py_str content_text +:+ ".") ;;
  logger_warning g ("voice: " +:+ py_str voice +:+ ".") ;;
  logger_warning g ("user: " +:+ py_str user +:+ ".") ;;
  self ← get_self;
  (if negb (bool_decide (is_Some (sagemaker_client self))) then
     let access_key := dict_get credentials "aws_access_key_id" in
     let secret_key := dict_get credentials "aws_secret_access_key" in
     let aws_region := dict_get credentials "aws_region" in
     if truthy aws_region then
       if truthy access_key && truthy secret_key then
         c ← new_client g "sagemaker-runtime"
               [("aws_access_key_id", access_key);
                ("aws_secret_access_key", secret_key);
                ("region_name", aws_region)];
         set_sagemaker_client c ;;
         c ← new_client g "s3"
               [("aws_access_key_id", access_key);
                ("aws_secret_access_key", secret_key);
                ("region_name", aws_region)];
         set_s3_client c
       else
         c ← new_client g "sagemaker-runtime" [("region_name", aws_region)];
         set_sagemaker_client c ;;
         c ← new_client g "s3" [("region_name", aws_region)];
         set_s3_client c
     else
       c ← new_client g "sagemaker-runtime" [];
       set_sagemaker_client c ;;
       c ← new_client g "s3" [];
       set_s3_client c
   else mret tt) ;;
  let model_type := dict_get_default credentials "model_type" (VStr "PresetVoice") in
  let model_role := dict_get credentials "model_role" in
  let prompt_text := dict_get credentials "prompt_text" in
  let prompt_audio := dict_get credentials "prompt_audio" in
  let instruct_text := dict_get credentials "instruct_text" in
  let lang_tag := dict_get credentials "lang_tag" in
  let sagemaker_endpoint := dict_get credentials "sagemaker_endpoint" in
  payload ← lift (_build_tts_payload content_text model_type model_role
                    prompt_text prompt_audio lang_tag instruct_text);
  lift (bind_positional "SageMakerText2SpeechModel._tts_invoke_streaming"
          tts_invoke_streaming_params
          [AVal model; ADict credentials; AVal content_text; AVal voice]).

End Methods.

(** ** A concrete host and concrete calls *)

(** A splitter in the manner of a sentence splitter: it cuts the text
    after each full stop and packs whole sentences, in order, into
    segments of at most [max_length] characters; it refuses [None]. *)
Definition full_stop : Ascii.ascii := Ascii.ascii_of_nat 46.

Fixpoint cut_after_stops (cur l : list Ascii.ascii) : list string :=
  match l with
  | [] => if decide (cur = []) then [] else [String.string_of_list_ascii cur]
  | c :: l' =>
      if decide (c = full_stop) then
        String.string_of_list_ascii (cur ++ [c]) :: cut_after_stops [] l'
      else cut_after_stops (cur ++ [c]) l'
  end.

Fixpoint pack (max_length : nat) (one_sentence : string) (pieces : list string)
    : list string :=
  match pieces with
  | [] => if decide (one_sentence = "") then [] else [one_sentence]
  | tmp :: rest =>
      if decide (max_length < String.length (one_sentence +:+ tmp)) then
        (if decide (one_sentence = "") then [] else [one_sentence])
        ++ pack max_length tmp rest
      else pack max_length (one_sentence +:+ tmp) rest
  end.

Definition sentence_split (org_text : PyVal) (max_length : nat)
    : Res (list string) :=
  match org_text with
  | VStr s =>
      Ok (pack max_length "" (cut_after_stops [] (String.list_ascii_of_string s)))
  | _ => Raise (mkExn TypeError "expected string or bytes-like object")
  end.

(** A rendering of a dictionary in the manner of [json.dumps]. *)
Definition render (d : Dict) : string :=
  "{" +:+ String.concat ", "
            ((fun '(k, v) => "'" +:+ k +:+ "': '" +:+ py_str v +:+ "'")
               <$> map_to_list d)
      +:+ "}".

(** A host whose endpoint answers the call for segment [i] with the
    address ["s3://audio/i"], except at the positions of [failing] where
    it raises, and whose storage holds [audio i] at that address. *)
Definition example_host (failing : list nat) (audio : nat -> list byte) : Host := {|
  _split_text_into_sentences := sentence_split;
  json_dumps := render;
  invoke_endpoint := fun _ index _ _ =>
    if bool_decide (index ∈ failing) then
      Raise (mkExn (OtherError "ClientError") "endpoint unavailable")
    else Ok ("s3://audio/" +:+ pretty index);
  json_loads := fun s => Ok (JDict {[ "s3_presign_url" := VStr s ]});
  requests_get_content := fun index _ => Ok (audio index);
  boto3_client := fun service kwargs => Ok (mkClient service kwargs)
|}.

(** The module namespace after a caller has bound the five names the
    synthesizer uses and the file never binds. *)
Definition patched_globals (content_text : string) : Namespace :=
  <["model" := VStr "cosyvoice"]>
  (<["credentials" := VObj "dict"]>
  (<["content_text" := VStr content_text]>
  (<["logger" := VObj "Logger"]>
  (<["json" := VObj "json"]> module_globals)))).

Definition a_client : Client := mkClient "sagemaker-runtime" [].

Definition ready_self : Self := mkSelf (Some a_client) (Some (mkClient "s3" [])).

(** Sentence [i]: 400 times one letter ([a] for 0, [b] for 1, ...) and a
    full stop; and the text made of the first [k] such sentences. *)
Definition sentence_of (i : nat) : string :=
  String.string_of_list_ascii
    (replicate 400 (Ascii.ascii_of_nat (97 + i)) ++ [full_stop]).

Definition text_of_sentences (k : nat) : string :=
  String.concat "" (sentence_of <$> seq 0 k).

(** A world holding one payload, at reference 0. *)
Definition world_with (self : Self) (payload : Dict) : World :=
  mkWorld self {[ 0 := payload ]} [].

(** The payload of the specification's first example. *)
Definition hello_payload : Dict :=
  {[ "tts_text" := VStr "Hello world."; "role" := VStr "r1" ]}.

(** A payload for the text of [k] sentences, under both the key the
    builder uses and the key the synthesizer reads. *)
Definition long_payload (k : nat) : Dict :=
  {[ "tts_text" := VStr (text_of_sentences k);
     "content_text" := VStr (text_of_sentences k);
     "role" := VStr "r1" ]}.

(** Audio of [n] bytes, of a different byte for each of the first
    segments. *)
Definition tone (index : nat) : byte :=
  match index with
  | 0 => x01
  | 1 => x02
  | _ => x03
  end.

Definition audio_of_size (n : nat) (index : nat) : list byte :=
  replicate n (tone index).

(** The yields of a trace, and the calls and downloads it records. *)
Definition yields (t : list Event) : list (nat * list byte) :=
  omap (fun ev => match ev with EvYield i c => Some (i, c) | _ => None end) t.

Definition endpoint_calls (t : list Event) : list (nat * Dict) :=
  omap (fun ev => match ev with EvInvokeEndpoint i _ d => Some (i, d) | _ => None end) t.

Definition downloads (t : list Event) : list nat :=
  omap (fun ev => match ev with EvHttpGet i _ => Some i | _ => None end) t.

Definition submissions (t : list Event) : list (nat * nat) :=
  omap (fun ev => match ev with EvSubmit i p => Some (i, p) | _ => None end) t.

(** A text of two sentences (802 characters), cut into two segments
    whose calls complete in the order 1, 0; every download has 3 bytes. *)
Definition two_segment_world : World :=
  world_with ready_self (long_payload 2).

Definition two_segment_run : World * Outcome unit :=
  _tts_invoke_streaming (host := example_host [] (audio_of_size 3))
    (patched_globals (text_of_sentences 2)) [1; 0] 0 (VStr "tts-endpoint")
    two_segment_world.

(** A text of three sentences (1203 characters), cut into three
    segments whose calls complete in the order 2, 1, 0; the endpoint
    fails for segment 1. *)
Definition three_segment_world : World :=
  world_with ready_self (long_payload 3).

Definition three_segment_run : World * Outcome unit :=
  _tts_invoke_streaming (host := example_host [1] (audio_of_size 3))
    (patched_globals (text_of_sentences 3)) [2; 1; 0] 0 (VStr "tts-endpoint")
    three_segment_world.

(** The specification's first example, in the module as the file leaves
    it, in the module with the stale names bound but [json] still not
    imported, and in the module with every name bound; the audio has
    2050 bytes. *)
Definition hello_world : World := world_with ready_self hello_payload.

Definition hello_run (g : Namespace) : World * Outcome unit :=
  _tts_invoke_streaming (host := example_host [] (audio_of_size 2050))
    g [] 0 (VStr "tts-endpoint") hello_world.

(** A platform like [example_host] without failures, except that the
    download is interrupted from the keyboard; and the specification's
    first example on it, in the module with every name bound. *)
Definition interrupted_platform : Py.Platform := {|
  Py._split_text_into_sentences := fun org_text max_length =>
    outcome_of (sentence_split org_text max_length);
  Py.json_dumps := fun d => Returned (render d);
  Py.invoke_endpoint := fun _ index _ _ =>
    Returned ("s3://audio/" +:+ pretty index);
  Py.json_loads := fun s => Returned (JDict {[ "s3_presign_url" := VStr s ]});
  Py.requests_get_content := fun _ _ =>
    RaisedBase (mkBase "KeyboardInterrupt" "");
  Py.boto3_client := fun service kwargs => Returned (mkClient service kwargs)
|}.

Definition interrupted_run : World * Outcome unit :=
  _tts_invoke_streaming (host := interrupted_platform)
    (patched_globals "Hello world.") [] 0 (VStr "tts-endpoint") hello_world.

(** ** What a run leaves behind, in closed form *)

(** A world after more events. *)
Definition add_trace (w : World) (t : list Event) : World :=
  mkWorld (w_self w) (w_heap w) (w_trace w ++ t).

(** The chunks of one audio object, for a chunk size [n]. *)
Definition chunks_of (n : nat) (audio_bytes : list byte) : list (list byte) :=
  (fun i => slice audio_bytes i (i + n)) <$> py_range 0 (length audio_bytes) n.

Definition chunks (audio_bytes : list byte) : list (list byte) :=
  chunks_of 1024 audio_bytes.

(** An outcome followed by what is done with the value returned. *)
Definition and_then {A B} (o : Outcome A) (k : A -> Outcome B) : Outcome B :=
  match o with
  | Returned a => k a
  | Raised e => Raised e
  | RaisedBase b => RaisedBase b
  | Blocked => Blocked
  end.

(** What the handler of line 220 makes of the outcome of the [try]
    body. *)
Definition surfaced {A} (o : Outcome A) : Outcome A :=
  match o with
  | Raised ex => Raised (mkExn InvokeBadRequestError (exn_str ex))
  | o => o
  end.

Section ClosedOnPlatform.
Context {host : Py.Platform}.

(** The body of the collection loop. *)
Definition collect_body (g : Namespace) (pool : gmap nat (Outcome Json))
    : nat * nat -> M unit :=
  fun '(index, future) =>
    resp ← future_result pool future;
    fetch_and_emit g index resp.

(** The first step on a segment, the endpoint invocation: what
    [_invoke_sagemaker] comes to and records on a platform, for a given
    instance. *)
Definition call_outcome (g : Namespace) (self : Self) (index : nat)
    (payload : Dict) (endpoint : PyVal) : Outcome Json :=
  match sagemaker_client self with
  | None =>
      Raised (mkExn AttributeError
                "'NoneType' object has no attribute 'invoke_endpoint'")
  | Some client =>
      match g !! "json" with
      | None => Raised (mkExn NameError "name 'json' is not defined")
      | Some _ =>
          and_then (Py.json_dumps payload) (fun body =>
          and_then (Py.invoke_endpoint client index endpoint body)
            Py.json_loads)
      end
  end.

Definition call_events (g : Namespace) (self : Self) (index : nat)
    (payload : Dict) (endpoint : PyVal) : list Event :=
  match sagemaker_client self, g !! "json", Py.json_dumps payload with
  | Some _, Some _, Returned _ => [EvInvokeEndpoint index endpoint payload]
  | _, _, _ => []
  end.

(** The steps on the response of a segment: the log line, the read of
    the field ["s3_presign_url"], and the audio retrieval. *)
Definition fetch_outcome (g : Namespace) (index : nat) (resp : Json)
    : Outcome (list byte) :=
  match g !! "logger" with
  | None => Raised (mkExn NameError "name 'logger' is not defined")
  | Some _ =>
      match json_get resp "s3_presign_url" with
      | Ok url => Py.requests_get_content index url
      | Raise e => Raised e
      end
  end.

Definition fetch_events (g : Namespace) (index : nat) (resp : Json)
    : list Event :=
  match g !! "logger" with
  | None => []
  | Some _ =>
      EvLogResp resp ::
      match json_get resp "s3_presign_url" with
      | Raise _ => []
      | Ok url =>
          EvHttpGet index url ::
          match Py.requests_get_content index url with
          | Returned audio_bytes => EvYield index <$> chunks audio_bytes
          | _ => []
          end
      end
  end.

(** All the steps on one segment, in order: the audio they give, or
    how the first step that does not return ends. *)
Definition segment_try (g : Namespace) (self : Self) (index : nat)
    (payload : Dict) (endpoint : PyVal) : Outcome (list byte) :=
  and_then (call_outcome g self index payload endpoint) (fetch_outcome g index).

(** How the collection loop fares at one position of the pool. *)
Definition step_outcome (g : Namespace) (pool : gmap nat (Outcome Json))
    (index : nat) : Outcome (list byte) :=
  match pool !! index with
  | Some o => and_then o (fetch_outcome g index)
  | None => Blocked
  end.

(** The futures of [n] calls on the payload [d] once the pool has run
    the calls named by [sched]. *)
Definition futures_of (g : Namespace) (self : Self) (d : Dict)
    (endpoint : PyVal) (n : nat) (sched : list nat) : gmap nat (Outcome Json) :=
  list_to_map
    ((fun i => (i, call_outcome g self i d endpoint))
       <$> filter (fun i => i < n) sched).

End ClosedOnPlatform.

(** The same on a host, where a call ends with a result. *)

Section Closed.
Context {host : Host}.

(** What one endpoint call returns and records, for a given instance. *)
Definition worker_result (g : Namespace) (self : Self) (index : nat)
    (payload : Dict) (endpoint : PyVal) : Res Json :=
  match sagemaker_client self with
  | None =>
      Raise (mkExn AttributeError
               "'NoneType' object has no attribute 'invoke_endpoint'")
  | Some client =>
      match g !! "json" with
      | None => Raise (mkExn NameError "name 'json' is not defined")
      | Some _ =>
          match invoke_endpoint client index endpoint (json_dumps payload) with
          | Ok json_str => json_loads json_str
          | Raise e => Raise e
          end
      end
  end.

Definition worker_events (g : Namespace) (self : Self) (index : nat)
    (payload : Dict) (endpoint : PyVal) : list Event :=
  match sagemaker_client self, g !! "json" with
  | Some _, Some _ => [EvInvokeEndpoint index endpoint payload]
  | _, _ => []
  end.

(** The audio a response leads to, and what getting it records. *)
Definition segment_audio (g : Namespace) (index : nat) (resp : Json)
    : Res (list byte) :=
  match g !! "logger" with
  | None => Raise (mkExn NameError "name 'logger' is not defined")
  | Some _ =>
      match json_get resp "s3_presign_url" with
      | Ok url => requests_get_content index url
      | Raise e => Raise e
      end
  end.

Definition segment_events (g : Namespace) (index : nat) (resp : Json)
    : list Event :=
  match g !! "logger" with
  | None => []
  | Some _ =>
      EvLogResp resp ::
      match json_get resp "s3_presign_url" with
      | Raise _ => []
      | Ok url =>
          EvHttpGet index url ::
          match requests_get_content index url with
          | Raise _ => []
          | Ok audio_bytes => EvYield index <$> chunks audio_bytes
          end
      end
  end.

(** How the collection loop fares at one position of the pool: it
    waits for the call, then downloads what the response points to. *)
Definition segment_outcome (g : Namespace) (pool : gmap nat (Outcome Json))
    (index : nat) : Outcome (list byte) :=
  match pool !! index with
  | Some (Returned resp) => outcome_of (segment_audio g index resp)
  | Some (Raised e) => Raised e
  | Some (RaisedBase b) => RaisedBase b
  | Some Blocked | None => Blocked
  end.

(** The futures of [n] calls on the payload [d] once the calls named by
    [sched] have completed. *)
Definition completed (g : Namespace) (self : Self) (d : Dict)
    (endpoint : PyVal) (n : nat) (sched : list nat) : gmap nat (Outcome Json) :=
  list_to_map
    ((fun i => (i, outcome_of (worker_result g self i d endpoint)))
       <$> filter (fun i => i < n) sched).

End Closed.

(** The events a run from [w] to [w'] has added. *)
Definition new_events (w w' : World) : list Event :=
  drop (length (w_trace w)) (w_trace w').

(** The payload dictionary after the loop that writes each sentence into
    it in turn. *)
Definition written (d : Dict) (sentences : list string) : Dict :=
  foldl (fun d s => <["tts_text" := VStr s]> d) d sentences.

(** The yields of the segments [audios], numbered from [start]. *)
Definition segment_yields (start : nat) (audios : list (list byte))
    : list (nat * list byte) :=
  concat (imap (fun j audio_bytes => (fun c => (start + j, c)) <$> chunks audio_bytes)
               audios).

(** An outcome that is a return or an [Exception]. *)
Definition came_back {A} (o : Outcome A) : Prop :=
  match o with
  | Returned _ | Raised _ => True
  | RaisedBase _ | Blocked => False
  end.

(** A computation that touches neither the endpoint nor the storage and
    yields nothing, whatever the world it starts in, and that ends by
    returning or by raising an [Exception]. *)
Definition offline {A} (m : M A) : Prop :=
  forall w, exists t,
    (m w).1 = mkWorld (w_self (m w).1) (w_heap (m w).1) (w_trace w ++ t)
    /\ endpoint_calls t = [] /\ downloads t = [] /\ yields t = []
    /\ came_back (m w).2.

(** A computation that never hands a value back. *)
Definition never_returns {A} (m : M A) : Prop :=
  forall w a, (m w).2 <> Returned a.

(** The statement on errors as the specification words it: a run that
    does not end normally ends with one [InvokeBadRequestError], and no
    other error type escapes. *)
Definition only_bad_requests_escape {A} (o : Outcome A) : Prop :=
  match o with
  | Returned _ | Blocked => True
  | Raised e => exn_class e = InvokeBadRequestError
  | RaisedBase _ => False
  end.

(** The statement on chunk sizes as the specification words it: every
    chunk of a run has 1024 bytes, except possibly the last one of all. *)
Definition full_except_final (ys : list (nat * list byte)) : Prop :=
  forall k i c, ys !! k = Some (i, c) -> S k < length ys -> length c = 1024.

(** One payload per segment, as the specification words it: the payload
    references dispatched are pairwise distinct. *)
Definition own_payload_each (subs : list (nat * nat)) : Prop :=
  NoDup (snd <$> subs).

(** ** The error table *)

(** [_invoke_error_mapping]: for each unified error of the host, in the
    order of the dictionary, the classes raised by the model that are to
    be converted into it.  The host's other error classes and [KeyError]
    are named through [OtherError]. *)
Definition _invoke_error_mapping : list (ExnClass * list ExnClass) :=
  [ (OtherError "InvokeConnectionError", [OtherError "InvokeConnectionError"]);
    (OtherError "InvokeServerUnavailableError",
       [OtherError "InvokeServerUnavailableError"]);
    (OtherError "InvokeRateLimitError", [OtherError "InvokeRateLimitError"]);
    (OtherError "InvokeAuthorizationError",
       [OtherError "InvokeAuthorizationError"]);
    (InvokeBadRequestError,
       [InvokeBadRequestError; OtherError "KeyError"; ValueError]) ].

(** The unified errors under which the table lists a class. *)
Definition listed_under (cls : ExnClass) : list ExnClass :=
  (filter (fun entry => cls ∈ entry.2) _invoke_error_mapping).*1.

(** ** More readings of a trace, and more concrete calls *)

(** The clients a trace records as built, and its log lines. *)
Definition clients_built (t : list Event) : list Client :=
  omap (fun ev => match ev with EvBoto3Client c => Some c | _ => None end) t.

Definition log_lines (t : list Event) : list string :=
  omap (fun ev => match ev with EvLog msg => Some msg | _ => None end) t.

(** The keyword arguments [_invoke] gives to [boto3.client], for both
    clients: the keys and the region, the region alone, or nothing. *)
Definition client_kwargs (credentials : Dict) : list (string * PyVal) :=
  let access_key := dict_get credentials "aws_access_key_id" in
  let secret_key := dict_get credentials "aws_secret_access_key" in
  let aws_region := dict_get credentials "aws_region" in
  if truthy aws_region then
    if truthy access_key && truthy secret_key then
      [("aws_access_key_id", access_key);
       ("aws_secret_access_key", secret_key);
       ("region_name", aws_region)]
    else [("region_name", aws_region)]
  else [].

(** The module namespace with the names of [patched_globals] and [boto3]. *)
Definition full_globals (content_text : string) : Namespace :=
  <["boto3" := VObj "boto3"]> (patched_globals content_text).

(** Three segments of which the second call never completes. *)
Definition stalled_run : World * Outcome unit :=
  _tts_invoke_streaming (host := example_host [] (audio_of_size 3))
    (patched_globals (text_of_sentences 3)) [2; 0] 0 (VStr "tts-endpoint")
    three_segment_world.

(** A host like [example_host] whose endpoint always answers with the
    document [resp], and whose HTTP client refuses [None] as an address
    and finds 5 bytes at any other. *)
Definition answering_host (resp : Json) : Host := {|
  _split_text_into_sentences := sentence_split;
  json_dumps := render;
  invoke_endpoint := fun _ _ _ _ => Ok "the body";
  json_loads := fun _ => Ok resp;
  requests_get_content := fun _ url =>
    match url with
    | VNone =>
        Raise (mkExn (OtherError "MissingSchema")
                 "Invalid URL 'None': No scheme supplied")
    | _ => Ok (replicate 5 x04)
    end;
  boto3_client := fun service kwargs => Ok (mkClient service kwargs)
|}.

(** A world whose payload is what [_build_tts_payload] returns in mode
    PresetVoice for the text of two sentences: it has no key
    ["content_text"]. *)
Definition built_payload : Dict :=
  {[ "tts_text" := VStr (text_of_sentences 2); "role" := VStr "r1" ]}.

Definition built_world : World := world_with ready_self built_payload.

(** A world whose payload has an empty ["content_text"]. *)
Definition blank_world : World :=
  world_with ready_self
    {[ "tts_text" := VStr (text_of_sentences 2); "content_text" := VStr "";
       "role" := VStr "r1" ]}.

(** Credentials with keys and no region, and with keys and a region. *)
Definition keys_only : Dict :=
  {[ "aws_access_key_id" := VStr "AKIA"; "aws_secret_access_key" := VStr "s3cr3t";
     "model_role" := VStr "r1" ]}.

Definition keys_and_region : Dict :=
  <["aws_region" := VStr "us-east-1"]> keys_only.

(** The five lines [_invoke] logs first. *)
Definition invoke_log_lines (model tenant_id content_text voice user : PyVal)
    : list string :=
  ["model: " +:+ py_str model +:+ ".";
   "tenant_id: " +:+ py_str tenant_id +:+ ".";
   "content_text: " +:+ py_str content_text +:+ ".";
   "voice: " +:+ py_str voice +:+ ".";
   "user: " +:+ py_str user +:+ "."].

(** A text of [n] letters and no full stop. *)
Definition text_of_length (n : nat) : string :=
  String.string_of_list_ascii (replicate n (Ascii.ascii_of_nat 97)).

(** A payload holding the text of three sentences, in a module whose
    [content_text] has exactly 600 characters. *)
Definition boundary_run : World * Outcome unit :=
  _tts_invoke_streaming (host := example_host [] (audio_of_size 3))
    (patched_globals (text_of_length 600)) [] 0 (VStr "tts-endpoint")
    three_segment_world.

(** Long texts in the module, over the payload with an empty
    ["content_text"] and over the payload as the builder makes it. *)
Definition blank_run : World * Outcome unit :=
  _tts_invoke_streaming (host := example_host [] (audio_of_size 3))
    (patched_globals (text_of_sentences 2)) [1; 0] 0 (VStr "tts-endpoint")
    blank_world.

Definition built_run : World * Outcome unit :=
  _tts_invoke_streaming (host := example_host [] (audio_of_size 3))
    (patched_globals (text_of_sentences 2)) [1; 0] 0 (VStr "tts-endpoint")
    built_world.

(** The specification's first example against an endpoint that answers
    with [resp]. *)
Definition answering_run (resp : Json) : World * Outcome unit :=
  _tts_invoke_streaming (host := answering_host resp)
    (patched_globals "Hello world.") [] 0 (VStr "tts-endpoint") hello_world.

(** The exception [_invoke] ends with once the instance has its clients:
    the error of the payload builder, or the [TypeError] of the call in
    its last line. *)
Definition invoke_ending (credentials : Dict) (content_text : PyVal) : Exn :=
  match _build_tts_payload content_text
          (dict_get_default credentials "model_type" (VStr "PresetVoice"))
          (dict_get credentials "model_role")
          (dict_get credentials "prompt_text")
          (dict_get credentials "prompt_audio")
          (dict_get credentials "lang_tag")
          (dict_get credentials "instruct_text") with
  | Ok _ =>
      mkExn TypeError
        "SageMakerText2SpeechModel._tts_invoke_streaming() takes 3 positional arguments but 5 were given"
  | Raise e => e
  end.

(** A host like [example_host] where no storage client can be built. *)
Definition storage_denied_host : Host := {|
  _split_text_into_sentences := sentence_split;
  json_dumps := render;
  invoke_endpoint := fun _ index _ _ => Ok ("s3://audio/" +:+ pretty index);
  json_loads := fun s => Ok (JDict {[ "s3_presign_url" := VStr s ]});
  requests_get_content := fun index _ => Ok (audio_of_size 3 index);
  boto3_client := fun service kwargs =>
    if bool_decide (service = "s3") then
      Raise (mkExn (OtherError "NoCredentialsError") "Unable to locate credentials")
    else Ok (mkClient service kwargs)
|}.

(** A world whose instance has no client yet. *)
Definition bare_world : World := world_with fresh_self hello_payload.

(** [_invoke] for the specification's example with the credentials
    [credentials], in the module with every name bound, on the example
    host and on the host that denies the storage client. *)
Definition invoke_run (credentials : Dict) (w : World)
    : World * Outcome (list (string * PyArg)) :=
  _invoke (host := example_host [] (audio_of_size 3)) (full_globals "Hello world.")
    (VStr "cosyvoice") (VStr "tenant") credentials (VStr "Hello world.")
    (VStr "") VNone w.

Definition denied_run (credentials : Dict) (w : World)
    : World * Outcome (list (string * PyArg)) :=
  _invoke (host := storage_denied_host) (full_globals "Hello world.")
    (VStr "cosyvoice") (VStr "tenant") credentials (VStr "Hello world.")
    (VStr "") VNone w.

(** The module with the names of [patched_globals] except [logger]. *)
Definition unlogged_globals (content_text : string) : Namespace :=
  delete "logger" (patched_globals content_text).

(** The specification's first example on an instance without a client,
    and in the module without [logger]. *)
Definition bare_run : World * Outcome unit :=
  _tts_invoke_streaming (host := example_host [] (audio_of_size 3))
    (patched_globals "Hello world.") [] 0 (VStr "tts-endpoint") bare_world.

Definition unlogged_run : World * Outcome unit :=
  _tts_invoke_streaming (host := example_host [] (audio_of_size 3))
    (unlogged_globals "Hello world.") [] 0 (VStr "tts-endpoint") hello_world.

(** * Properties *)

(** ** Running the monad *)

Lemma bind_run {A B} (m : M A) (k : A -> M B) (w : World) :
  (m ≫= k) w =
  match m w with
  | (w', Returned a) => k a w'
  | (w', Raised e) => (w', Raised e)
  | (w', RaisedBase b) => (w', RaisedBase b)
  | (w', Blocked) => (w', Blocked)
  end.
Proof. reflexivity. Qed.

Lemma call_run {A} (o : Outcome A) (w : World) : call o w = (w, o).
Proof. reflexivity. Qed.

Lemma lift_run {A} (r : Res A) (w : World) : lift r w = (w, outcome_of r).
Proof. destruct r; reflexivity. Qed.

Lemma add_trace_nil (w : World) : add_trace w [] = w.
Proof. destruct w; unfold add_trace; simpl. by rewrite app_nil_r. Qed.

Lemma add_trace_app (w : World) (t1 t2 : list Event) :
  add_trace (add_trace w t1) t2 = add_trace w (t1 ++ t2).
Proof. unfold add_trace; simpl. by rewrite app_assoc. Qed.

Lemma emit_run (ev : Event) (w : World) : emit ev w = (add_trace w [ev], Returned tt).
Proof. reflexivity. Qed.

Lemma load_global_run (g : Namespace) (name : string) (w : World) :
  load_global g name w =
  (w, match g !! name with
      | Some v => Returned v
      | None => Raised (mkExn NameError ("name '" +:+ name +:+ "' is not defined"))
      end).
Proof. unfold load_global. destruct (g !! name); reflexivity. Qed.

Lemma for_each_emit {A} (f : A -> Event) (l : list A) (w : World) :
  for_each l (fun x => emit (f x)) w = (add_trace w (f <$> l), Returned tt).
Proof.
  revert w. induction l as [|x l IH]; intros w; simpl.
  - by rewrite add_trace_nil.
  - rewrite bind_run, emit_run, IH, add_trace_app. reflexivity.
Qed.

Section RunLemmas.
Context {host : Host}.

Lemma emit_chunks_run (index : nat) (audio_bytes : list byte) (w : World) :
  emit_chunks index audio_bytes w
  = (add_trace w (EvYield index <$> chunks audio_bytes), Returned tt).
Proof.
  unfold emit_chunks, chunks, chunks_of.
  rewrite (for_each_emit (fun i => EvYield index (slice audio_bytes i (i + 1024)))).
  by rewrite <- list_fmap_compose.
Qed.

Lemma invoke_sagemaker_run (g : Namespace) (index : nat) (payload : Dict)
    (endpoint : PyVal) (w : World) :
  _invoke_sagemaker g index payload endpoint w
  = (add_trace w (worker_events g (w_self w) index payload endpoint),
     outcome_of (worker_result g (w_self w) index payload endpoint)).
Proof.
  unfold _invoke_sagemaker, worker_events, worker_result.
  rewrite bind_run. simpl.
  destruct (sagemaker_client (w_self w)) as [client|]; simpl.
  2: { by rewrite add_trace_nil. }
  rewrite bind_run, load_global_run.
  destruct (g !! "json"); simpl.
  2: { by rewrite add_trace_nil. }
  rewrite bind_run, call_run. cbn [Py.json_dumps platform_of_host].
  rewrite bind_run, emit_run, bind_run, call_run.
  cbn [Py.invoke_endpoint Py.json_loads platform_of_host].
  destruct (invoke_endpoint _ _ _ _); simpl; [|reflexivity].
  by rewrite call_run.
Qed.

Lemma fetch_and_emit_run (g : Namespace) (index : nat) (resp : Json) (w : World) :
  fetch_and_emit g index resp w
  = (add_trace w (segment_events g index resp),
     outcome_of (match segment_audio g index resp with
                 | Ok _ => Ok tt
                 | Raise e => Raise e
                 end)).
Proof.
  unfold fetch_and_emit, segment_events, segment_audio.
  rewrite bind_run, load_global_run.
  destruct (g !! "logger"); simpl.
  2: { by rewrite add_trace_nil. }
  rewrite bind_run, emit_run, bind_run, lift_run.
  destruct (json_get resp "s3_presign_url") as [url|e]; simpl; [|reflexivity].
  rewrite bind_run, emit_run, bind_run, call_run.
  cbn [Py.requests_get_content platform_of_host].
  destruct (requests_get_content index url) as [audio_bytes|e]; simpl.
  - rewrite emit_chunks_run, !add_trace_app. reflexivity.
  - rewrite add_trace_app. reflexivity.
Qed.

End RunLemmas.

(** ** Chunking *)

Section Chunks.
Variable n : nat.
Hypothesis n_pos : 0 < n.

Lemma chunk_count_bounds (len : nat) :
  len <= (len + (n - 1)) / n * n
  /\ (0 < len -> ((len + (n - 1)) / n - 1) * n < len /\ 0 < (len + (n - 1)) / n).
Proof.
  pose proof (Nat.div_mod_eq (len + (n - 1)) n) as Hdm.
  pose proof (Nat.mod_upper_bound (len + (n - 1)) n ltac:(lia)) as Hr.
  set (q := (len + (n - 1)) / n) in *. set (r := (len + (n - 1)) mod n) in *.
  split; [nia|]. intros Hlen.
  assert (0 < q) by (destruct q; [simpl in *; lia | lia]).
  split; [|done]. nia.
Qed.

Lemma chunks_of_unfold (a : list byte) :
  chunks_of n a
  = (fun k => take n (drop (k * n) a)) <$> seq 0 ((length a + (n - 1)) / n).
Proof.
  unfold chunks_of, py_range. rewrite Nat.sub_0_r, <- list_fmap_compose.
  apply list_fmap_ext. intros _ k _. simpl. unfold slice.
  by replace (k * n + n - k * n) with n by lia.
Qed.

Lemma length_chunks_of (a : list byte) :
  length (chunks_of n a) = (length a + (n - 1)) / n.
Proof. by rewrite chunks_of_unfold, length_fmap, length_seq. Qed.

Lemma lookup_chunks_of (a : list byte) (k : nat) (c : list byte) :
  chunks_of n a !! k = Some c ->
  c = take n (drop (k * n) a) /\ k < (length a + (n - 1)) / n.
Proof.
  rewrite chunks_of_unfold, list_lookup_fmap. intros Hk.
  apply fmap_Some in Hk as (k' & Hk' & ->).
  apply lookup_seq in Hk' as [-> ?]. done.
Qed.

Lemma concat_chunks_of (a : list byte) : concat (chunks_of n a) = a.
Proof.
  rewrite chunks_of_unfold.
  assert (Hq : forall q, concat ((fun k => take n (drop (k * n) a)) <$> seq 0 q)
                         = take (q * n) a).
  { induction q as [|q IH]; [done|].
    rewrite seq_S, fmap_app, concat_app, IH. simpl.
    rewrite app_nil_r, take_take_drop. f_equal. lia. }
  rewrite Hq. apply take_ge. apply chunk_count_bounds.
Qed.

Lemma chunk_length_bounds (a : list byte) (k : nat) (c : list byte) :
  chunks_of n a !! k = Some c -> 1 <= length c /\ length c <= n.
Proof.
  intros Hk. apply lookup_chunks_of in Hk as [-> Hk].
  rewrite length_take, length_drop.
  destruct (chunk_count_bounds (length a)) as [_ Hb].
  destruct (decide (0 < length a)) as [Hpos|Hz].
  - destruct (Hb Hpos) as [Hlt _]. split; [|lia].
    assert (k * n < length a) by nia. lia.
  - replace (length a) with 0 in Hk by lia.
    rewrite Nat.add_0_l, Nat.div_small in Hk by lia. lia.
Qed.

Lemma chunk_full_unless_last (a : list byte) (k : nat) (c : list byte) :
  chunks_of n a !! k = Some c -> S k < length (chunks_of n a) -> length c = n.
Proof.
  intros Hk Hlast. rewrite length_chunks_of in Hlast.
  apply lookup_chunks_of in Hk as [-> Hk].
  rewrite length_take, length_drop.
  destruct (chunk_count_bounds (length a)) as [_ Hb].
  destruct (decide (0 < length a)) as [Hpos|Hz].
  - destruct (Hb Hpos) as [Hlt _].
    assert (k * n + n <= length a) by nia. lia.
  - replace (length a) with 0 in Hk by lia.
    rewrite Nat.add_0_l, Nat.div_small in Hk by lia. lia.
Qed.

End Chunks.

(** ** The loops of the long path *)

Lemma for_each_ext {A} (f f' : A -> M unit) (l : list A) (w : World) :
  (forall x w, f x w = f' x w) -> for_each l f w = for_each l f' w.
Proof.
  intros Hf. revert w. induction l as [|x l IH]; intros w; [done|]. simpl.
  rewrite !bind_run, Hf. destruct (f' x w) as [w' [[]| | |]]; auto.
Qed.

Lemma written_snoc (d : Dict) (l : list string) (s : string) :
  written d (l ++ [s]) = <["tts_text" := VStr s]> (written d l).
Proof. unfold written. by rewrite foldl_app. Qed.

Lemma written_last (d : Dict) (l : list string) (s : string) :
  last l = Some s -> dict_get (written d l) "tts_text" = VStr s.
Proof.
  intros Hl. destruct (last_Some l s) as [[l' ->] _]; [done|].
  rewrite written_snoc. unfold dict_get. by rewrite lookup_insert_eq.
Qed.

Lemma write_loop_run (payload : nat) (sentences : list string) :
  forall m s d w,
    s + m = length sentences ->
    w_heap w !! payload = Some d ->
    for_each (seq s m) (fun idx =>
      p ← lift (list_index (replicate (length sentences) payload) idx);
      s ← lift (list_index sentences idx);
      setitem p "tts_text" (VStr s)) w
    = (mkWorld (w_self w)
         (<[payload := written d (take m (drop s sentences))]> (w_heap w))
         (w_trace w), Returned tt).
Proof.
  induction m as [|m IH]; intros s d w Hlen Hd.
  - simpl. unfold written. simpl. rewrite insert_id by done. by destruct w.
  - destruct (lookup_lt_is_Some_2 sentences s ltac:(lia)) as [x Hx].
    cbn [seq for_each]. rewrite bind_run, bind_run, lift_run.
    unfold list_index at 1. rewrite lookup_replicate_2 by lia. simpl.
    rewrite bind_run, lift_run. unfold list_index at 1. rewrite Hx. simpl.
    unfold setitem at 1. rewrite Hd.
    rewrite (IH (S s) (<["tts_text" := VStr x]> d)); [|lia|simpl; by rewrite lookup_insert_eq].
    simpl. rewrite insert_insert_eq. rewrite (drop_S _ _ _ Hx). reflexivity.
Qed.

Lemma submit_all_run (payloads : list nat) (w : World) :
  submit_all payloads w
  = (add_trace w ((fun '(index, p) => EvSubmit index p) <$> enumerate payloads),
     Returned (seq 0 (length payloads))).
Proof.
  unfold submit_all. rewrite bind_run.
  rewrite (for_each_ext _ (fun x => emit ((fun '(index, p) => EvSubmit index p) x))).
  2: { by intros [??] ?. }
  by rewrite for_each_emit.
Qed.

Section Pool.
Context {host : Host}.

Lemma run_pool_step (g : Namespace) (endpoint : PyVal) (tasks : list nat)
    (d : Dict) (i p : nat) (sched : list nat)
    (done : gmap nat (Outcome Json)) (w : World) :
  done !! i = None -> tasks !! i = Some p -> w_heap w !! p = Some d ->
  run_pool g endpoint tasks (i :: sched) done w
  = run_pool g endpoint tasks sched
      (<[i := outcome_of (worker_result g (w_self w) i d endpoint)]> done)
      (add_trace w (worker_events g (w_self w) i d endpoint)).
Proof.
  intros Hdone Htask Hd. cbn [run_pool]. rewrite Hdone, Htask.
  rewrite bind_run. unfold deref at 1. rewrite Hd.
  by rewrite invoke_sagemaker_run.
Qed.

Lemma run_pool_skip (g : Namespace) (endpoint : PyVal) (tasks : list nat)
    (i : nat) (sched : list nat) (done : gmap nat (Outcome Json)) (w : World) :
  is_Some (done !! i) \/ tasks !! i = None ->
  run_pool g endpoint tasks (i :: sched) done w
  = run_pool g endpoint tasks sched done w.
Proof.
  intros Hskip. cbn [run_pool].
  destruct (done !! i) as [r|]; [done|].
  destruct Hskip as [[? [=]]| ->]. done.
Qed.

Lemma run_pool_spec (g : Namespace) (endpoint : PyVal) (tasks : list nat)
    (d : Dict) (sched : list nat) :
  forall (done : gmap nat (Outcome Json)) (w : World),
    (forall i p, tasks !! i = Some p -> w_heap w !! p = Some d) ->
    exists new : list nat,
      (run_pool g endpoint tasks sched done w).1
      = add_trace w (new ≫= fun i => worker_events g (w_self w) i d endpoint)
      /\ NoDup new
      /\ (forall i, i ∈ new <-> done !! i = None /\ i ∈ sched /\ i < length tasks)
      /\ (forall i, (run_pool g endpoint tasks sched done w).2 !! i =
            match done !! i with
            | Some r => Some r
            | None =>
                if bool_decide (i ∈ new)
                then Some (outcome_of (worker_result g (w_self w) i d endpoint))
                else None
            end).
Proof.
  induction sched as [|i sched IH]; intros done w Hheap.
  - exists []. simpl. rewrite add_trace_nil. split; [done|]. split; [constructor|].
    split.
    { intros i. split; [intros Hi|intros (_ & Hi & _)]; by apply elem_of_nil in Hi. }
    intros i. by destruct (done !! i).
  - destruct (done !! i) as [r|] eqn:Hdone.
    { rewrite run_pool_skip by (left; by rewrite Hdone).
      destruct (IH done w Hheap) as (new & Hw & Hnd & Hin & Hlk).
      exists new. split; [done|]. split; [done|]. split; [|done].
      intros j. rewrite Hin. split; [rewrite elem_of_cons; tauto|].
      intros (Hj & Hjs & Hlt). split; [done|]. split; [|done].
      apply elem_of_cons in Hjs as [->|]; [congruence|done]. }
    destruct (tasks !! i) as [p|] eqn:Htask.
    2: { rewrite run_pool_skip by (by right).
      destruct (IH done w Hheap) as (new & Hw & Hnd & Hin & Hlk).
      exists new. split; [done|]. split; [done|]. split; [|done].
      intros j. rewrite Hin. split; [rewrite elem_of_cons; tauto|].
      intros (Hj & Hjs & Hlt). split; [done|]. split; [|done].
      apply elem_of_cons in Hjs as [->|]; [|done].
      apply lookup_ge_None in Htask. lia. }
    rewrite (run_pool_step _ _ _ d _ p) by eauto.
    set (ev := worker_events g (w_self w) i d endpoint).
    set (r := outcome_of (worker_result g (w_self w) i d endpoint)).
    destruct (IH (<[i := r]> done) (add_trace w ev)) as (new & Hw & Hnd & Hin & Hlk);
      [done|].
    assert (Hi : i ∉ new).
    { rewrite Hin, lookup_insert_eq. intros [? _]. done. }
    exists (i :: new). split; [|split; [|split]].
    + rewrite Hw. simpl. rewrite add_trace_app. reflexivity.
    + by constructor.
    + intros j. rewrite elem_of_cons, Hin. split.
      * intros [->|(Hj & Hjs & Hlt)].
        -- split; [done|]. split; [rewrite elem_of_cons; by left|].
           by eapply lookup_lt_Some.
        -- destruct (decide (j = i)) as [->|Hne]; [by rewrite lookup_insert_eq in Hj|].
           rewrite lookup_insert_ne in Hj by done. rewrite elem_of_cons. tauto.
      * intros (Hj & Hjs & Hlt). destruct (decide (j = i)) as [->|Hne]; [by left|].
        right. rewrite lookup_insert_ne by done.
        apply elem_of_cons in Hjs as [->|Hjs]; tauto.
    + intros j. rewrite Hlk. destruct (decide (j = i)) as [->|Hne].
      * rewrite lookup_insert_eq, Hdone.
        rewrite bool_decide_eq_true_2 by (rewrite elem_of_cons; by left). done.
      * rewrite lookup_insert_ne by done. destruct (done !! j); [done|].
        simpl. apply option_eq. intros ?.
        rewrite !(bool_decide_ext (j ∈ i :: new) (j ∈ new)); [done|].
        rewrite elem_of_cons. tauto.
Qed.

End Pool.

(** ** Reading a trace *)

Lemma yields_app (t1 t2 : list Event) : yields (t1 ++ t2) = yields t1 ++ yields t2.
Proof. apply omap_app. Qed.

Lemma endpoint_calls_app (t1 t2 : list Event) :
  endpoint_calls (t1 ++ t2) = endpoint_calls t1 ++ endpoint_calls t2.
Proof. apply omap_app. Qed.

Lemma downloads_app (t1 t2 : list Event) :
  downloads (t1 ++ t2) = downloads t1 ++ downloads t2.
Proof. apply omap_app. Qed.

Lemma submissions_app (t1 t2 : list Event) :
  submissions (t1 ++ t2) = submissions t1 ++ submissions t2.
Proof. apply omap_app. Qed.

Lemma yields_of_chunks (index : nat) (l : list (list byte)) :
  yields (EvYield index <$> l) = (fun c => (index, c)) <$> l.
Proof.
  induction l as [|c l IH]; [done|].
  change (yields (EvYield index <$> c :: l))
    with ((index, c) :: yields (EvYield index <$> l)).
  by rewrite IH.
Qed.

Lemma quiet_chunks (index : nat) (l : list (list byte)) :
  endpoint_calls (EvYield index <$> l) = []
  /\ downloads (EvYield index <$> l) = []
  /\ submissions (EvYield index <$> l) = [].
Proof. induction l as [|c l IH]; [done|]. simpl. exact IH. Qed.

Lemma new_events_add_trace (w : World) (t : list Event) :
  new_events w (add_trace w t) = t.
Proof. unfold new_events, add_trace. simpl. by rewrite drop_app_length. Qed.

Lemma segment_yields_cons (s : nat) (a : list byte) (audios : list (list byte)) :
  segment_yields s (a :: audios)
  = ((fun c => (s, c)) <$> chunks a) ++ segment_yields (S s) audios.
Proof.
  unfold segment_yields. rewrite imap_cons. cbn [concat].
  rewrite Nat.add_0_r. f_equal. f_equal. apply imap_ext.
  intros j x _. simpl. by rewrite Nat.add_succ_r.
Qed.

Section Collect.
Context {host : Host}.

Lemma yields_segment_events (g : Namespace) (index : nat) (resp : Json) :
  yields (segment_events g index resp)
  = match segment_audio g index resp with
    | Ok a => (fun c => (index, c)) <$> chunks a
    | Raise _ => []
    end.
Proof.
  unfold segment_events, segment_audio. destruct (g !! "logger"); [|done].
  destruct (json_get resp "s3_presign_url") as [url|]; [|done].
  destruct (requests_get_content index url) as [a|]; [|done].
  change (yields (EvYield index <$> chunks a) = (fun c => (index, c)) <$> chunks a).
  apply yields_of_chunks.
Qed.

Lemma quiet_segment_events (g : Namespace) (index : nat) (resp : Json) :
  endpoint_calls (segment_events g index resp) = []
  /\ submissions (segment_events g index resp) = []
  /\ (downloads (segment_events g index resp) = []
      \/ downloads (segment_events g index resp) = [index])
  /\ (forall a, segment_audio g index resp = Ok a ->
        downloads (segment_events g index resp) = [index]).
Proof.
  unfold segment_events, segment_audio. destruct (g !! "logger").
  2: { repeat split; auto; discriminate. }
  destruct (json_get resp "s3_presign_url") as [url|].
  2: { repeat split; auto; discriminate. }
  destruct (requests_get_content index url) as [a|].
  2: { repeat split; auto; discriminate. }
  destruct (quiet_chunks index (chunks a)) as (Hc & Hd & Hs).
  change (endpoint_calls (EvYield index <$> chunks a) = []
          /\ submissions (EvYield index <$> chunks a) = []
          /\ (index :: downloads (EvYield index <$> chunks a) = []
              \/ index :: downloads (EvYield index <$> chunks a) = [index])
          /\ (forall a0, Ok a = Ok a0 ->
                index :: downloads (EvYield index <$> chunks a) = [index])).
  rewrite Hc, Hd, Hs. auto.
Qed.

Lemma collect_run (g : Namespace) (pool : gmap nat (Outcome Json)) :
  forall n s w,
    exists (audios : list (list byte)) (t : list Event),
      (for_each (zip (seq s n) (seq s n)) (collect_body g pool) w).1 = add_trace w t
      /\ length audios <= n
      /\ (forall j a, audios !! j = Some a ->
            segment_outcome g pool (s + j) = Returned a)
      /\ yields t = segment_yields s audios
      /\ endpoint_calls t = []
      /\ submissions t = []
      /\ (exists m, downloads t = seq s m)
      /\ match (for_each (zip (seq s n) (seq s n)) (collect_body g pool) w).2 with
         | Returned _ => length audios = n
         | Raised e =>
             length audios < n
             /\ segment_outcome g pool (s + length audios) = Raised e
         | RaisedBase b =>
             length audios < n
             /\ segment_outcome g pool (s + length audios) = RaisedBase b
         | Blocked =>
             length audios < n
             /\ segment_outcome g pool (s + length audios) = Blocked
         end.
Proof.
  induction n as [|n IH]; intros s w.
  { exists [], []. simpl. rewrite add_trace_nil. repeat split; auto.
    - intros j a [=].
    - by exists 0. }
  cbn [seq zip zip_with for_each]. rewrite bind_run.
  unfold collect_body at 1 3. rewrite bind_run. unfold future_result at 1 2.
  assert (Hstuck : forall o : Outcome unit,
    match o with
    | Returned _ => False
    | Raised e => segment_outcome g pool s = Raised e
    | RaisedBase b => segment_outcome g pool s = RaisedBase b
    | Blocked => segment_outcome g pool s = Blocked
    end ->
    exists (audios : list (list byte)) (t : list Event),
      (w, o).1 = add_trace w t /\ length audios <= S n
      /\ (forall j a, audios !! j = Some a ->
            segment_outcome g pool (s + j) = Returned a)
      /\ yields t = segment_yields s audios /\ endpoint_calls t = []
      /\ submissions t = [] /\ (exists m, downloads t = seq s m)
      /\ match (w, o).2 with
         | Returned _ => length audios = S n
         | Raised e => length audios < S n
             /\ segment_outcome g pool (s + length audios) = Raised e
         | RaisedBase b => length audios < S n
             /\ segment_outcome g pool (s + length audios) = RaisedBase b
         | Blocked => length audios < S n
             /\ segment_outcome g pool (s + length audios) = Blocked
         end).
  { intros o Ho. exists [], []. simpl. rewrite add_trace_nil, Nat.add_0_r.
    repeat split; auto; try lia.
    - intros j a [=].
    - by exists 0.
    - destruct o; [done| | |]; (split; [lia|done]). }
  destruct (pool !! s) as [[resp|e|b|]|] eqn:Hpool.
  2: { apply (Hstuck (Raised e)). unfold segment_outcome. by rewrite Hpool. }
  2: { apply (Hstuck (RaisedBase b)). unfold segment_outcome. by rewrite Hpool. }
  2: { apply (Hstuck Blocked). unfold segment_outcome. by rewrite Hpool. }
  2: { apply (Hstuck Blocked). unfold segment_outcome. by rewrite Hpool. }
  rewrite fetch_and_emit_run.
  destruct (quiet_segment_events g s resp) as (Hc & Hs & Hd & Hd').
  pose proof (yields_segment_events g s resp) as Hy.
  destruct (segment_audio g s resp) as [a|e] eqn:Haudio; cbn [outcome_of].
  2: { exists [], (segment_events g s resp). simpl. rewrite Nat.add_0_r.
       repeat split; auto; try lia.
       - intros j a [=].
       - destruct Hd as [-> | ->]; [by exists 0 | by exists 1].
       - unfold segment_outcome. by rewrite Hpool, Haudio. }
  destruct (IH (S s) (add_trace w (segment_events g s resp)))
    as (audios & t & Hw & Hlen & Hok & Hyt & Hct & Hst & [m Hdt] & Hr).
  exists (a :: audios), (segment_events g s resp ++ t).
  split; [by rewrite Hw, add_trace_app|].
  split; [simpl; lia|].
  split.
  { intros [|j] a' Hj; simpl in Hj.
    - injection Hj as <-. rewrite Nat.add_0_r. unfold segment_outcome.
      by rewrite Hpool, Haudio.
    - rewrite Nat.add_succ_r. by apply Hok. }
  split; [by rewrite yields_app, Hy, Hyt, segment_yields_cons|].
  split; [by rewrite endpoint_calls_app, Hc, Hct|].
  split; [by rewrite submissions_app, Hs, Hst|].
  split; [exists (S m); by rewrite downloads_app, (Hd' a), Hdt|].
  cbn [length]. rewrite Nat.add_succ_r.
  destruct (for_each _ _ _).2; [lia| | |]; (split; [lia|tauto]).
Qed.

End Collect.

(** ** The two paths of the synthesizer *)

Section Paths.
Context {host : Host}.

Lemma lookup_completed (g : Namespace) (self : Self) (d : Dict)
    (endpoint : PyVal) (n : nat) (sched : list nat) (i : nat) :
  completed g self d endpoint n sched !! i
  = if bool_decide (i ∈ sched /\ i < n)
    then Some (outcome_of (worker_result g self i d endpoint))
    else None.
Proof.
  unfold completed. case_bool_decide as Hi.
  - apply elem_of_list_to_map_1'.
    + intros y Hy. apply list_elem_of_fmap in Hy as (j & [= <- ->] & _). done.
    + apply list_elem_of_fmap. exists i. split; [done|].
      apply list_elem_of_filter. tauto.
  - apply not_elem_of_list_to_map_1. rewrite <- list_fmap_compose.
    intros Hin. apply list_elem_of_fmap in Hin as (j & -> & Hj).
    apply list_elem_of_filter in Hj. simpl in Hi. tauto.
Qed.

Lemma run_workers_run (g : Namespace) (endpoint : PyVal) (payload : nat)
    (d : Dict) (n : nat) (sched : list nat) (w : World) :
  w_heap w !! payload = Some d ->
  exists new : list nat,
    run_workers g endpoint (replicate n payload) sched w
    = (add_trace w (new ≫= fun i => worker_events g (w_self w) i d endpoint),
       Returned (completed g (w_self w) d endpoint n sched))
    /\ NoDup new
    /\ (forall i, i ∈ new <-> i ∈ sched /\ i < n).
Proof.
  intros Hd.
  destruct (run_pool_spec g endpoint (replicate n payload) d sched ∅ w)
    as (new & Hw & Hnd & Hin & Hlk).
  { intros i p Hi. apply lookup_replicate in Hi as [-> _]. done. }
  exists new. rewrite length_replicate in Hin. split; [|split; [done|]].
  - unfold run_workers.
    destruct (run_pool g endpoint (replicate n payload) sched ∅ w) as [w' done'].
    simpl in Hw, Hlk. subst w'. f_equal. f_equal. apply map_eq. intros i.
    rewrite Hlk, lookup_empty, lookup_completed.
    rewrite (bool_decide_ext (i ∈ new) (i ∈ sched /\ i < n)); [done|].
    rewrite Hin, lookup_empty. tauto.
  - intros i. rewrite Hin, lookup_empty. tauto.
Qed.

(** The long path, from the first statement of the [try] to the end of
    the collection loop. *)
Lemma tts_long_path_run (g : Namespace) (sched : list nat) (payload : nat)
    (endpoint : PyVal) (w : World) (vm vc vt : PyVal) (n : nat) (d : Dict)
    (sentences : list string) :
  g !! "model" = Some vm ->
  g !! "credentials" = Some vc ->
  g !! "content_text" = Some vt ->
  py_len vt = Ok n ->
  600 < n ->
  w_heap w !! payload = Some d ->
  _split_text_into_sentences (dict_get d "content_text") 600 = Ok sentences ->
  sentences <> [] ->
  let d' := written d sentences in
  let pool := completed g (w_self w) d' endpoint (length sentences) sched in
  let run := tts_try_body g sched payload endpoint w in
  exists (new : list nat) (audios : list (list byte)) (t : list Event),
    run.1 = mkWorld (w_self w) (<[payload := d']> (w_heap w))
              (w_trace w
               ++ ((fun i => EvSubmit i payload) <$> seq 0 (length sentences))
               ++ (new ≫= fun i => worker_events g (w_self w) i d' endpoint)
               ++ t)
    /\ NoDup new
    /\ (forall i, i ∈ new <-> i ∈ sched /\ i < length sentences)
    /\ length audios <= length sentences
    /\ (forall j a, audios !! j = Some a -> segment_outcome g pool j = Returned a)
    /\ yields t = segment_yields 0 audios
    /\ endpoint_calls t = []
    /\ submissions t = []
    /\ (exists m, downloads t = seq 0 m)
    /\ match run.2 with
       | Returned _ => length audios = length sentences
       | Raised e =>
           length audios < length sentences
           /\ segment_outcome g pool (length audios) = Raised e
       | RaisedBase _ => False
       | Blocked =>
           length audios < length sentences
           /\ segment_outcome g pool (length audios) = Blocked
       end.
Proof.
  intros Hmodel Hcred Htext Hlen Hlong Hd Hsplit Hne d' pool run.
  subst run. destruct (tts_try_body g sched payload endpoint w) as [w' r] eqn:Hbody.
  unfold tts_try_body in Hbody.
  rewrite bind_run, load_global_run, Hmodel in Hbody.
  rewrite bind_run, load_global_run, Hcred in Hbody.
  rewrite bind_run, load_global_run, Htext in Hbody.
  rewrite bind_run, lift_run, Hlen in Hbody. cbn [outcome_of] in Hbody.
  unfold _get_model_word_limit in Hbody.
  rewrite bool_decide_eq_true_2 in Hbody by done.
  rewrite bind_run in Hbody. unfold deref at 1 in Hbody. rewrite Hd in Hbody.
  rewrite bind_run, call_run in Hbody.
  cbn [Py._split_text_into_sentences platform_of_host] in Hbody.
  rewrite Hsplit in Hbody. cbn [outcome_of] in Hbody.
  rewrite bind_run, lift_run in Hbody. unfold ThreadPoolExecutor in Hbody.
  rewrite bool_decide_eq_false_2 in Hbody
    by (destruct sentences; [done|simpl; lia]).
  cbn [outcome_of] in Hbody.
  rewrite bind_run, (write_loop_run payload sentences _ 0 d w) in Hbody by done.
  rewrite drop_0, take_ge in Hbody by done. fold d' in Hbody.
  rewrite bind_run, submit_all_run in Hbody.
  rewrite bind_run in Hbody.
  set (w1 := add_trace _ _) in Hbody.
  destruct (run_workers_run g endpoint payload d' (length sentences) sched w1)
    as (new & Hrun & Hnd & Hin).
  { subst w1. simpl. by rewrite lookup_insert_eq. }
  rewrite Hrun in Hbody. rewrite length_replicate in Hbody.
  unfold enumerate at 1 in Hbody. rewrite length_seq in Hbody.
  change (fun '(index, future) =>
            resp ← future_result ?p future; fetch_and_emit g index resp)
    with (collect_body g p) in Hbody.
  set (w2 := add_trace w1 _) in Hbody.
  destruct (collect_run g (completed g (w_self w1) d' endpoint (length sentences) sched)
              (length sentences) 0 w2)
    as (audios & t & Hw & Hlen' & Hok & Hy & Hc & Hs & Hdl & Hr).
  rewrite Hbody in Hw, Hr. cbn [fst snd] in Hw, Hr |- *.
  exists new, audios, t.
  split.
  { rewrite Hw. subst w2 w1. unfold add_trace. simpl. f_equal.
    rewrite <- !app_assoc. f_equal. f_equal.
    unfold enumerate. rewrite length_replicate.
    apply list_eq. intros i. rewrite !list_lookup_fmap.
    destruct (decide (i < length sentences)) as [Hi|Hi].
    - rewrite (lookup_seq_lt 0 _ i Hi).
      assert (zip (seq 0 (length sentences)) (replicate (length sentences) payload) !! i
              = Some (i, payload)) as ->; [|done].
      apply lookup_zip_with_Some. exists i, payload.
      split; [done|]. split; [by apply lookup_seq_lt|by apply lookup_replicate_2].
    - rewrite (lookup_ge_None_2 (seq _ _)) by (rewrite length_seq; lia).
      rewrite (lookup_ge_None_2 (zip _ _)); [done|].
      rewrite length_zip_with, length_seq, length_replicate. lia. }
  repeat (split; [done|]).
  destruct r as [[]|e|b|]; try exact Hr.
  destruct Hr as [_ Hr]. unfold segment_outcome in Hr.
  rewrite lookup_completed in Hr. case_bool_decide; [|done].
  destruct (worker_result g (w_self w1) (0 + length audios) d' endpoint)
    as [resp|e]; cbn [outcome_of] in Hr; [|done].
  by destruct (segment_audio g (0 + length audios) resp).
Qed.

(** The short path. *)
Lemma tts_short_path_run (g : Namespace) (sched : list nat) (payload : nat)
    (endpoint : PyVal) (w : World) (vm vc vt : PyVal) (n : nat) (d : Dict) :
  g !! "model" = Some vm ->
  g !! "credentials" = Some vc ->
  g !! "content_text" = Some vt ->
  py_len vt = Ok n ->
  n <= 600 ->
  w_heap w !! payload = Some d ->
  tts_try_body g sched payload endpoint w
  = (add_trace w
       (worker_events g (w_self w) 0 d endpoint
        ++ match worker_result g (w_self w) 0 d endpoint with
           | Ok resp => segment_events g 0 resp
           | Raise _ => []
           end),
     match worker_result g (w_self w) 0 d endpoint with
     | Ok resp =>
         match segment_audio g 0 resp with
         | Ok _ => Returned tt
         | Raise e => Raised e
         end
     | Raise e => Raised e
     end).
Proof.
  intros Hmodel Hcred Htext Hlen Hshort Hd. unfold tts_try_body.
  rewrite bind_run, load_global_run, Hmodel.
  rewrite bind_run, load_global_run, Hcred.
  rewrite bind_run, load_global_run, Htext.
  rewrite bind_run, lift_run, Hlen. cbn [outcome_of].
  unfold _get_model_word_limit. rewrite bool_decide_eq_false_2 by lia.
  rewrite bind_run. unfold deref at 1. rewrite Hd.
  rewrite bind_run, invoke_sagemaker_run. cbn [w_self add_trace].
  destruct (worker_result g (w_self w) 0 d endpoint) as [resp|e]; cbn [outcome_of].
  - rewrite fetch_and_emit_run, add_trace_app. cbn [w_self add_trace].
    by destruct (segment_audio g 0 resp).
  - by rewrite app_nil_r.
Qed.

(** Every run of the body stops before its first effect, or takes the
    short path, or takes the long path with at least one sentence. *)
Lemma tts_try_body_cases (g : Namespace) (sched : list nat) (payload : nat)
    (endpoint : PyVal) (w : World) :
  (exists e, tts_try_body g sched payload endpoint w = (w, Raised e))
  \/ (exists vm vc vt n d,
        g !! "model" = Some vm /\ g !! "credentials" = Some vc
        /\ g !! "content_text" = Some vt /\ py_len vt = Ok n /\ n <= 600
        /\ w_heap w !! payload = Some d)
  \/ (exists vm vc vt n d sentences,
        g !! "model" = Some vm /\ g !! "credentials" = Some vc
        /\ g !! "content_text" = Some vt /\ py_len vt = Ok n /\ 600 < n
        /\ w_heap w !! payload = Some d
        /\ _split_text_into_sentences (dict_get d "content_text") 600 = Ok sentences
        /\ sentences <> []).
Proof.
  unfold tts_try_body.
  rewrite bind_run, load_global_run.
  destruct (g !! "model") as [vm|] eqn:Hmodel; [|left; eauto].
  rewrite bind_run, load_global_run.
  destruct (g !! "credentials") as [vc|] eqn:Hcred; [|left; eauto].
  rewrite bind_run, load_global_run.
  destruct (g !! "content_text") as [vt|] eqn:Htext; [|left; eauto].
  rewrite bind_run, lift_run.
  destruct (py_len vt) as [n|e] eqn:Hlen; cbn [outcome_of]; [|left; eauto].
  unfold _get_model_word_limit. case_bool_decide as Hn.
  - rewrite bind_run. unfold deref at 1.
    destruct (w_heap w !! payload) as [d|] eqn:Hd; [|left; eauto].
    rewrite bind_run, call_run.
    cbn [Py._split_text_into_sentences platform_of_host].
    destruct (_split_text_into_sentences _ _) as [sentences|e] eqn:Hsplit;
      cbn [outcome_of]; [|left; eauto].
    destruct sentences as [|s sentences].
    { left. rewrite bind_run, lift_run. simpl. eauto. }
    right; right. exists vm, vc, vt, n, d, (s :: sentences). eauto 10.
  - rewrite bind_run. unfold deref at 1.
    destruct (w_heap w !! payload) as [d|] eqn:Hd; [|left; eauto].
    right; left. exists vm, vc, vt, n, d. repeat split; auto. lia.
Qed.

Lemma tts_invoke_streaming_run (g : Namespace) (sched : list nat)
    (payload : nat) (endpoint : PyVal) (w : World) :
  _tts_invoke_streaming g sched payload endpoint w
  = ((tts_try_body g sched payload endpoint w).1,
     match (tts_try_body g sched payload endpoint w).2 with
     | Raised ex => Raised (mkExn InvokeBadRequestError (exn_str ex))
     | o => o
     end).
Proof.
  unfold _tts_invoke_streaming, try_except.
  by destruct (tts_try_body g sched payload endpoint w) as [w' [[]|ex|b|]].
Qed.

End Paths.

(** ** [_invoke] *)

Lemma offline_bind {A B} (m : M A) (k : A -> M B) :
  offline m -> (forall a, offline (k a)) -> offline (m ≫= k).
Proof.
  intros Hm Hk w. destruct (Hm w) as (t & Hw & Hc & Hd & Hy & Hb).
  rewrite bind_run. destruct (m w) as [w' [a| | |]] eqn:Hrun; simpl in *.
  2-4: exists t; by rewrite Hw.
  destruct (Hk a w') as (t' & Hw' & Hc' & Hd' & Hy' & Hb').
  exists (t ++ t'). rewrite Hw'. rewrite Hw at 3. simpl.
  rewrite app_assoc. split; [done|].
  by rewrite endpoint_calls_app, downloads_app, yields_app, Hc, Hc', Hd, Hd', Hy, Hy'.
Qed.

Lemma offline_pure {A} (m : M A) :
  (forall w, (m w).1 = w /\ came_back (m w).2) -> offline m.
Proof.
  intros Hm w. destruct (Hm w) as [Hw Hb]. exists [].
  rewrite Hw, app_nil_r. by destruct w.
Qed.

Lemma offline_lift {A} (r : Res A) : offline (lift r).
Proof. apply offline_pure. intros w. rewrite lift_run. by destruct r. Qed.

(** A call that comes back, as every call does on a host. *)
Lemma offline_call {A} (r : Res A) : offline (call (outcome_of r)).
Proof. apply offline_pure. intros w. rewrite call_run. by destruct r. Qed.

Lemma offline_load_global (g : Namespace) (name : string) :
  offline (load_global g name).
Proof.
  apply offline_pure. intros w. rewrite load_global_run. by destruct (g !! name).
Qed.

Lemma offline_emit (ev : Event) :
  endpoint_calls [ev] = [] -> downloads [ev] = [] -> yields [ev] = [] ->
  offline (emit ev).
Proof. intros Hc Hd Hy w. exists [ev]. by rewrite emit_run. Qed.

Lemma offline_set_self (s : Self) : offline (set_self s).
Proof. intros w. exists []. simpl. by rewrite app_nil_r. Qed.

Lemma offline_mret {A} (a : A) : offline (mret a : M A).
Proof. by apply offline_pure. Qed.

Lemma never_returns_bind {A B} (m : M A) (k : A -> M B) :
  (forall a, never_returns (k a)) -> never_returns (m ≫= k).
Proof.
  intros Hk w b. rewrite bind_run. destruct (m w) as [w' [a| | |]]; simpl; [|done..].
  apply Hk.
Qed.

Section Invoke.
Context {host : Host}.

Lemma offline_logger_warning (g : Namespace) (msg : string) :
  offline (logger_warning g msg).
Proof.
  apply offline_bind; [apply offline_load_global|].
  intros _. by apply offline_emit.
Qed.

Lemma offline_new_client (g : Namespace) (service : string)
    (kwargs : list (string * PyVal)) :
  offline (new_client g service kwargs).
Proof.
  apply offline_bind; [apply offline_load_global|]. intros _.
  apply offline_bind; [apply (offline_call (boto3_client service kwargs))|].
  intros c.
  apply offline_bind; [by apply offline_emit|]. intros _.
  apply offline_mret.
Qed.

Lemma offline_set_client (c : Client) :
  offline (set_sagemaker_client c) /\ offline (set_s3_client c).
Proof.
  split; (apply offline_bind; [by apply offline_pure|]);
    intros self; apply offline_set_self.
Qed.

Lemma offline_invoke (g : Namespace) (model tenant_id : PyVal)
    (credentials : Dict) (content_text voice user : PyVal) :
  offline (_invoke g model tenant_id credentials content_text voice user).
Proof.
  unfold _invoke.
  repeat (apply offline_bind; [apply offline_logger_warning|]; intros _).
  apply offline_bind; [by apply offline_pure|]. intros self.
  apply offline_bind.
  { destruct (negb _); [|apply offline_mret].
    destruct (truthy (dict_get credentials "aws_region"));
      [destruct (truthy (dict_get credentials "aws_access_key_id")
                 && truthy (dict_get credentials "aws_secret_access_key"))|].
    all: apply offline_bind; [apply offline_new_client|]; intros c1.
    all: apply offline_bind; [apply offline_set_client|]; intros _.
    all: apply offline_bind; [apply offline_new_client|]; intros c2.
    all: apply offline_set_client. }
  intros _. apply offline_bind; [apply offline_lift|]. intros payload.
  apply offline_lift.
Qed.

Lemma never_returns_invoke (g : Namespace) (model tenant_id : PyVal)
    (credentials : Dict) (content_text voice user : PyVal) :
  never_returns (_invoke g model tenant_id credentials content_text voice user).
Proof.
  unfold _invoke.
  repeat (apply never_returns_bind; intros ?).
  intros w0 gen. by rewrite lift_run.
Qed.

End Invoke.

(** ** The events of a run of the synthesizer *)

Lemma quiet_submits (payload : nat) (l : list nat) :
  yields ((fun i => EvSubmit i payload) <$> l) = []
  /\ endpoint_calls ((fun i => EvSubmit i payload) <$> l) = []
  /\ downloads ((fun i => EvSubmit i payload) <$> l) = []
  /\ submissions ((fun i => EvSubmit i payload) <$> l)
     = (fun i => (i, payload)) <$> l.
Proof.
  induction l as [|i l (Hy & Hc & Hd & Hs)]; [done|].
  repeat split; [exact Hy|exact Hc|exact Hd|].
  change (submissions ((fun i => EvSubmit i payload) <$> i :: l))
    with ((i, payload) :: submissions ((fun i => EvSubmit i payload) <$> l)).
  by rewrite Hs.
Qed.

Lemma new_events_refl (w : World) : new_events w w = [].
Proof. unfold new_events. by rewrite drop_all. Qed.

Lemma new_events_mk (w : World) (s : Self) (h : gmap nat Dict) (t : list Event) :
  new_events w (mkWorld s h (w_trace w ++ t)) = t.
Proof. unfold new_events. simpl. by rewrite drop_app_length. Qed.

Lemma segment_yields_nil (s : nat) : segment_yields s [] = [].
Proof. reflexivity. Qed.

Lemma segment_yields_index (audios : list (list byte)) :
  forall s k i c,
    segment_yields s audios !! k = Some (i, c) ->
    s <= i < s + length audios
    /\ exists a, audios !! (i - s) = Some a /\ c ∈ chunks a.
Proof.
  induction audios as [|a audios IH]; intros s k i c Hk; [done|].
  rewrite segment_yields_cons in Hk. apply lookup_app_Some in Hk as [Hk|[_ Hk]].
  - rewrite list_lookup_fmap in Hk. apply fmap_Some in Hk as (c' & Hc & [= -> ->]).
    split; [simpl; lia|]. exists a. rewrite Nat.sub_diag. split; [done|].
    by eapply list_elem_of_lookup_2.
  - apply IH in Hk as [Hi (a' & Ha & Hc)]. split; [simpl; lia|].
    exists a'. split; [|done].
    replace (i - s) with (S (i - S s)) by lia. done.
Qed.

(** Within one run, each chunk has between 1 and 1024 bytes, and a chunk
    followed by another chunk of the same segment has 1024. *)
Lemma segment_yields_sizes (audios : list (list byte)) :
  forall s k i c,
    segment_yields s audios !! k = Some (i, c) ->
    (1 <= length c /\ length c <= 1024)
    /\ forall c', segment_yields s audios !! S k = Some (i, c') ->
                  length c = 1024.
Proof.
  induction audios as [|a audios IH]; intros s k i c Hk; [done|].
  rewrite segment_yields_cons in *.
  apply lookup_app_Some in Hk as [Hk|[Hge Hk]].
  - rewrite list_lookup_fmap in Hk. apply fmap_Some in Hk as (c0 & Hc & [= -> ->]).
    split; [by apply (chunk_length_bounds 1024 ltac:(lia) a k)|].
    intros c' Hnext. apply lookup_app_Some in Hnext as [Hnext|[Hlen Hnext]].
    + apply (chunk_full_unless_last 1024 ltac:(lia) a k); [done|].
      apply lookup_lt_Some in Hnext. by rewrite length_fmap in Hnext.
    + apply segment_yields_index in Hnext as [? _]. lia.
  - destruct (IH _ _ _ _ Hk) as [Hb Hnext]. split; [done|].
    intros c' Hc'. apply (Hnext c').
    apply lookup_app_Some in Hc' as [Hc'|[_ Hc']].
    + apply lookup_lt_Some in Hc'. lia.
    + by replace (S k - length ((fun c => (s, c)) <$> chunks a))
        with (S (k - length ((fun c => (s, c)) <$> chunks a))) in Hc' by lia.
Qed.

Lemma concat_segment_yields (audios : list (list byte)) (s : nat) :
  concat (snd <$> segment_yields s audios) = concat audios.
Proof.
  revert s. induction audios as [|a audios IH]; intros s; [done|].
  rewrite segment_yields_cons, fmap_app, concat_app, IH.
  rewrite <- list_fmap_compose.
  change (snd ∘ (fun c : list byte => (s, c))) with (@id (list byte)).
  rewrite list_fmap_id. cbn [concat]. f_equal.
  apply (concat_chunks_of 1024). lia.
Qed.

Section Events.
Context {host : Host}.

Lemma quiet_calls (g : Namespace) (self : Self) (d : Dict) (endpoint : PyVal)
    (new : list nat) :
  let calls := new ≫= fun i => worker_events g self i d endpoint in
  yields calls = [] /\ downloads calls = [] /\ submissions calls = []
  /\ (endpoint_calls calls = (fun i => (i, d)) <$> new \/ endpoint_calls calls = []).
Proof.
  intros calls. subst calls.
  assert (Hcases : (forall i, worker_events g self i d endpoint
                              = [EvInvokeEndpoint i endpoint d])
                   \/ (forall i, worker_events g self i d endpoint = [])).
  { unfold worker_events. destruct (sagemaker_client self), (g !! "json"); auto. }
  destruct Hcases as [Hev|Hev].
  - induction new as [|i new (Hy & Hd & Hs & Hc)]; [by auto|].
    rewrite bind_cons, Hev.
    repeat split; [exact Hy|exact Hd|exact Hs|].
    destruct Hc as [Hc|Hc]; [left|].
    + change (endpoint_calls ([EvInvokeEndpoint i endpoint d] ++ ?l))
        with ((i, d) :: endpoint_calls l).
      by rewrite Hc.
    + left. destruct new as [|j new]; [done|].
      rewrite bind_cons, Hev in Hc. discriminate Hc.
  - assert (Hnil : new ≫= (fun i => worker_events g self i d endpoint) = []).
    { induction new as [|i new IH]; [done|]. by rewrite bind_cons, Hev, IH. }
    rewrite Hnil. by auto.
Qed.

End Events.

Section Synthesizer.
Context {host : Host}.

Lemma segment_outcome_completed (g : Namespace) (self : Self) (d : Dict)
    (endpoint : PyVal) (n : nat) (sched : list nat) (i : nat) :
  segment_outcome g (completed g self d endpoint n sched) i
  = if bool_decide (i ∈ sched /\ i < n)
    then match worker_result g self i d endpoint with
         | Ok resp => outcome_of (segment_audio g i resp)
         | Raise e => Raised e
         end
    else Blocked.
Proof.
  unfold segment_outcome. rewrite lookup_completed.
  case_bool_decide; [|done]. by destruct (worker_result g self i d endpoint).
Qed.

Lemma segment_outcome_returned (g : Namespace) (self : Self) (d : Dict)
    (endpoint : PyVal) (n : nat) (sched : list nat) (i : nat) (a : list byte) :
  segment_outcome g (completed g self d endpoint n sched) i = Returned a
  <-> i ∈ sched /\ i < n
      /\ exists resp, worker_result g self i d endpoint = Ok resp
                      /\ segment_audio g i resp = Ok a.
Proof.
  rewrite segment_outcome_completed. case_bool_decide as Hi.
  - destruct (worker_result g self i d endpoint) as [resp|e].
    + destruct (segment_audio g i resp) as [a'|e] eqn:Ha; simpl; split.
      * intros [= ->]. destruct Hi. eauto.
      * intros (_ & _ & resp' & [= <-] & Ha'). congruence.
      * done.
      * intros (_ & _ & resp' & [= <-] & Ha'). congruence.
    + split; [done|]. by intros (_ & _ & resp & [=] & _).
  - split; [done|]. tauto.
Qed.

(** Every run of the synthesizer: it stops before its first effect, or
    takes the short path, or takes the long path. *)
Lemma tts_run_cases (g : Namespace) (sched : list nat) (payload : nat)
    (endpoint : PyVal) (w : World) :
  let run := _tts_invoke_streaming g sched payload endpoint w in
  (run.1 = w
   /\ exists ex, run.2 = Raised (mkExn InvokeBadRequestError (exn_str ex)))
  \/ (exists d,
        w_heap w !! payload = Some d
        /\ run.1 = add_trace w
             (worker_events g (w_self w) 0 d endpoint
              ++ match worker_result g (w_self w) 0 d endpoint with
                 | Ok resp => segment_events g 0 resp
                 | Raise _ => []
                 end)
        /\ run.2 = match worker_result g (w_self w) 0 d endpoint with
                   | Ok resp =>
                       match segment_audio g 0 resp with
                       | Ok _ => Returned tt
                       | Raise e =>
                           Raised (mkExn InvokeBadRequestError (exn_str e))
                       end
                   | Raise e => Raised (mkExn InvokeBadRequestError (exn_str e))
                   end)
  \/ (exists d sentences new audios t,
        let d' := written d sentences in
        let pool := completed g (w_self w) d' endpoint (length sentences) sched in
        w_heap w !! payload = Some d
        /\ _split_text_into_sentences (dict_get d "content_text") 600 = Ok sentences
        /\ sentences <> []
        /\ run.1 = mkWorld (w_self w) (<[payload := d']> (w_heap w))
             (w_trace w
              ++ ((fun i => EvSubmit i payload) <$> seq 0 (length sentences))
              ++ (new ≫= fun i => worker_events g (w_self w) i d' endpoint)
              ++ t)
        /\ NoDup new
        /\ (forall i, i ∈ new <-> i ∈ sched /\ i < length sentences)
        /\ length audios <= length sentences
        /\ (forall j a, audios !! j = Some a ->
              segment_outcome g pool j = Returned a)
        /\ yields t = segment_yields 0 audios
        /\ endpoint_calls t = []
        /\ submissions t = []
        /\ (exists m, downloads t = seq 0 m)
        /\ match run.2 with
           | Returned _ => length audios = length sentences
           | Raised e =>
               length audios < length sentences
               /\ exists ex, segment_outcome g pool (length audios) = Raised ex
                             /\ e = mkExn InvokeBadRequestError (exn_str ex)
           | RaisedBase _ => False
           | Blocked =>
               length audios < length sentences
               /\ segment_outcome g pool (length audios) = Blocked
           end).
Proof.
  intros run. subst run. rewrite tts_invoke_streaming_run.
  destruct (tts_try_body_cases g sched payload endpoint w)
    as [[e He]|[(vm & vc & vt & n & d & Hm & Hc & Ht & Hl & Hn & Hd)
               |(vm & vc & vt & n & d & sentences & Hm & Hc & Ht & Hl & Hn & Hd & Hs & Hne)]].
  - left. rewrite He. simpl. eauto.
  - right; left. exists d. split; [done|].
    rewrite (tts_short_path_run g sched payload endpoint w vm vc vt n d) by done.
    split; [done|]. simpl.
    destruct (worker_result g (w_self w) 0 d endpoint) as [resp|e]; [|done].
    by destruct (segment_audio g 0 resp).
  - right; right.
    destruct (tts_long_path_run g sched payload endpoint w vm vc vt n d sentences)
      as (new & audios & t & Hw & Hnd & Hin & Hlen & Hok & Hy & Hcl & Hsb & Hdl & Hr);
      try done.
    exists d, sentences, new, audios, t. cbv zeta.
    repeat (split; [done|]). cbn [snd].
    destruct (tts_try_body g sched payload endpoint w).2 as [[]|e|b|];
      [done| |done..].
    destruct Hr as [? Hr]. split; [done|]. eauto.
Qed.

End Synthesizer.

(** ** Runs on a platform *)

(** The lemmas of this part hold on every platform: a call may return,
    raise either kind of exception, or hang. *)

Lemma and_then_unit_returned {A} (o : Outcome A) :
  (forall a, o <> Returned a) ->
  and_then o (fun _ => Returned tt) <> Returned tt.
Proof. destruct o as [a| | |]; simpl; [intros H; by destruct (H a)|done..]. Qed.

Section OnPlatform.
Context {host : Py.Platform}.

Lemma invoke_sagemaker_on_platform (g : Namespace) (index : nat)
    (payload : Dict) (endpoint : PyVal) (w : World) :
  _invoke_sagemaker g index payload endpoint w
  = (add_trace w (call_events g (w_self w) index payload endpoint),
     call_outcome g (w_self w) index payload endpoint).
Proof.
  unfold _invoke_sagemaker, call_events, call_outcome.
  rewrite bind_run. cbn [get_self].
  destruct (sagemaker_client (w_self w)) as [client|].
  2: { by rewrite add_trace_nil. }
  rewrite bind_run, load_global_run.
  destruct (g !! "json").
  2: { by rewrite add_trace_nil. }
  rewrite bind_run, call_run.
  destruct (Py.json_dumps payload) as [body|e|b|]; cbn [and_then];
    try (by rewrite add_trace_nil).
  rewrite bind_run, emit_run, bind_run, call_run.
  by destruct (Py.invoke_endpoint client index endpoint body).
Qed.

Lemma fetch_and_emit_on_platform (g : Namespace) (index : nat) (resp : Json)
    (w : World) :
  fetch_and_emit g index resp w
  = (add_trace w (fetch_events g index resp),
     and_then (fetch_outcome g index resp) (fun _ => Returned tt)).
Proof.
  unfold fetch_and_emit, fetch_events, fetch_outcome.
  rewrite bind_run, load_global_run.
  destruct (g !! "logger"); cbn [and_then].
  2: { by rewrite add_trace_nil. }
  rewrite bind_run, emit_run, bind_run, lift_run.
  destruct (json_get resp "s3_presign_url") as [url|e]; cbn [outcome_of and_then];
    [|reflexivity].
  rewrite bind_run, emit_run, bind_run, call_run.
  destruct (Py.requests_get_content index url) as [audio_bytes|e|b|];
    cbn [and_then]; try (by rewrite add_trace_app).
  by rewrite emit_chunks_run, !add_trace_app.
Qed.

Lemma quiet_call_events (g : Namespace) (self : Self) (index : nat)
    (payload : Dict) (endpoint : PyVal) :
  yields (call_events g self index payload endpoint) = []
  /\ downloads (call_events g self index payload endpoint) = []
  /\ submissions (call_events g self index payload endpoint) = []
  /\ (call_events g self index payload endpoint = []
      \/ call_events g self index payload endpoint
         = [EvInvokeEndpoint index endpoint payload]).
Proof.
  unfold call_events.
  destruct (sagemaker_client self), (g !! "json"), (Py.json_dumps payload);
    auto.
Qed.

Lemma quiet_fetch_events (g : Namespace) (index : nat) (resp : Json) :
  endpoint_calls (fetch_events g index resp) = []
  /\ submissions (fetch_events g index resp) = []
  /\ (downloads (fetch_events g index resp) = []
      \/ downloads (fetch_events g index resp) = [index]).
Proof.
  unfold fetch_events. destruct (g !! "logger"); [|by auto].
  destruct (json_get resp "s3_presign_url") as [url|]; [|by auto].
  destruct (Py.requests_get_content index url) as [a| | |]; try (by auto).
  destruct (quiet_chunks index (chunks a)) as (Hc & Hd & Hs).
  change (endpoint_calls (EvYield index <$> chunks a) = []
          /\ submissions (EvYield index <$> chunks a) = []
          /\ (index :: downloads (EvYield index <$> chunks a) = []
              \/ index :: downloads (EvYield index <$> chunks a) = [index])).
  rewrite Hc, Hd, Hs. auto.
Qed.

Lemma downloads_of_fetched (g : Namespace) (index : nat) (resp : Json)
    (a : list byte) :
  fetch_outcome g index resp = Returned a ->
  downloads (fetch_events g index resp) = [index].
Proof.
  unfold fetch_events, fetch_outcome. destruct (g !! "logger"); [|done].
  destruct (json_get resp "s3_presign_url") as [url|]; [|done].
  intros ->. destruct (quiet_chunks index (chunks a)) as (_ & Hd & _).
  change (index :: downloads (EvYield index <$> chunks a) = [index]).
  by rewrite Hd.
Qed.

(** *** The pool *)

Lemma pool_step (g : Namespace) (endpoint : PyVal) (tasks : list nat)
    (d : Dict) (i p : nat) (sched : list nat)
    (done : gmap nat (Outcome Json)) (w : World) :
  done !! i = None -> tasks !! i = Some p -> w_heap w !! p = Some d ->
  run_pool g endpoint tasks (i :: sched) done w
  = run_pool g endpoint tasks sched
      (<[i := call_outcome g (w_self w) i d endpoint]> done)
      (add_trace w (call_events g (w_self w) i d endpoint)).
Proof.
  intros Hdone Htask Hd. cbn [run_pool]. rewrite Hdone, Htask.
  rewrite bind_run. unfold deref at 1. rewrite Hd.
  by rewrite invoke_sagemaker_on_platform.
Qed.

Lemma pool_skip (g : Namespace) (endpoint : PyVal) (tasks : list nat)
    (i : nat) (sched : list nat) (done : gmap nat (Outcome Json)) (w : World) :
  is_Some (done !! i) \/ tasks !! i = None ->
  run_pool g endpoint tasks (i :: sched) done w
  = run_pool g endpoint tasks sched done w.
Proof.
  intros Hskip. cbn [run_pool].
  destruct (done !! i) as [r|]; [done|].
  destruct Hskip as [[? [=]]| ->]. done.
Qed.

Lemma pool_spec (g : Namespace) (endpoint : PyVal) (tasks : list nat)
    (d : Dict) (sched : list nat) :
  forall (done : gmap nat (Outcome Json)) (w : World),
    (forall i p, tasks !! i = Some p -> w_heap w !! p = Some d) ->
    exists new : list nat,
      (run_pool g endpoint tasks sched done w).1
      = add_trace w (new ≫= fun i => call_events g (w_self w) i d endpoint)
      /\ NoDup new
      /\ (forall i, i ∈ new <-> done !! i = None /\ i ∈ sched /\ i < length tasks)
      /\ (forall i, (run_pool g endpoint tasks sched done w).2 !! i =
            match done !! i with
            | Some r => Some r
            | None =>
                if bool_decide (i ∈ new)
                then Some (call_outcome g (w_self w) i d endpoint)
                else None
            end).
Proof.
  induction sched as [|i sched IH]; intros done w Hheap.
  - exists []. simpl. rewrite add_trace_nil. split; [done|]. split; [constructor|].
    split.
    { intros i. split; [intros Hi|intros (_ & Hi & _)]; by apply elem_of_nil in Hi. }
    intros i. by destruct (done !! i).
  - destruct (done !! i) as [r|] eqn:Hdone.
    { rewrite pool_skip by (left; by rewrite Hdone).
      destruct (IH done w Hheap) as (new & Hw & Hnd & Hin & Hlk).
      exists new. split; [done|]. split; [done|]. split; [|done].
      intros j. rewrite Hin. split; [rewrite elem_of_cons; tauto|].
      intros (Hj & Hjs & Hlt). split; [done|]. split; [|done].
      apply elem_of_cons in Hjs as [->|]; [congruence|done]. }
    destruct (tasks !! i) as [p|] eqn:Htask.
    2: { rewrite pool_skip by (by right).
      destruct (IH done w Hheap) as (new & Hw & Hnd & Hin & Hlk).
      exists new. split; [done|]. split; [done|]. split; [|done].
      intros j. rewrite Hin. split; [rewrite elem_of_cons; tauto|].
      intros (Hj & Hjs & Hlt). split; [done|]. split; [|done].
      apply elem_of_cons in Hjs as [->|]; [|done].
      apply lookup_ge_None in Htask. lia. }
    rewrite (pool_step _ _ _ d _ p) by eauto.
    set (ev := call_events g (w_self w) i d endpoint).
    set (r := call_outcome g (w_self w) i d endpoint).
    destruct (IH (<[i := r]> done) (add_trace w ev)) as (new & Hw & Hnd & Hin & Hlk);
      [done|].
    assert (Hi : i ∉ new).
    { rewrite Hin, lookup_insert_eq. intros [? _]. done. }
    exists (i :: new). split; [|split; [|split]].
    + rewrite Hw. simpl. rewrite add_trace_app. reflexivity.
    + by constructor.
    + intros j. rewrite elem_of_cons, Hin. split.
      * intros [->|(Hj & Hjs & Hlt)].
        -- split; [done|]. split; [rewrite elem_of_cons; by left|].
           by eapply lookup_lt_Some.
        -- destruct (decide (j = i)) as [->|Hne]; [by rewrite lookup_insert_eq in Hj|].
           rewrite lookup_insert_ne in Hj by done. rewrite elem_of_cons. tauto.
      * intros (Hj & Hjs & Hlt). destruct (decide (j = i)) as [->|Hne]; [by left|].
        right. rewrite lookup_insert_ne by done.
        apply elem_of_cons in Hjs as [->|Hjs]; tauto.
    + intros j. rewrite Hlk. destruct (decide (j = i)) as [->|Hne].
      * rewrite lookup_insert_eq, Hdone.
        rewrite bool_decide_eq_true_2 by (rewrite elem_of_cons; by left). done.
      * rewrite lookup_insert_ne by done. destruct (done !! j); [done|].
        simpl. apply option_eq. intros ?.
        rewrite !(bool_decide_ext (j ∈ i :: new) (j ∈ new)); [done|].
        rewrite elem_of_cons. tauto.
Qed.

Lemma lookup_futures_of (g : Namespace) (self : Self) (d : Dict)
    (endpoint : PyVal) (n : nat) (sched : list nat) (i : nat) :
  futures_of g self d endpoint n sched !! i
  = if bool_decide (i ∈ sched /\ i < n)
    then Some (call_outcome g self i d endpoint)
    else None.
Proof.
  unfold futures_of. case_bool_decide as Hi.
  - apply elem_of_list_to_map_1'.
    + intros y Hy. apply list_elem_of_fmap in Hy as (j & [= <- ->] & _). done.
    + apply list_elem_of_fmap. exists i. split; [done|].
      apply list_elem_of_filter. tauto.
  - apply not_elem_of_list_to_map_1. rewrite <- list_fmap_compose.
    intros Hin. apply list_elem_of_fmap in Hin as (j & -> & Hj).
    apply list_elem_of_filter in Hj. simpl in Hi. tauto.
Qed.

Lemma step_outcome_futures_of (g : Namespace) (self : Self) (d : Dict)
    (endpoint : PyVal) (n : nat) (sched : list nat) (i : nat) :
  step_outcome g (futures_of g self d endpoint n sched) i
  = if bool_decide (i ∈ sched /\ i < n)
    then segment_try g self i d endpoint
    else Blocked.
Proof.
  unfold step_outcome. rewrite lookup_futures_of. by case_bool_decide.
Qed.

Lemma workers_on_platform (g : Namespace) (endpoint : PyVal) (payload : nat)
    (d : Dict) (n : nat) (sched : list nat) (w : World) :
  w_heap w !! payload = Some d ->
  exists new : list nat,
    run_workers g endpoint (replicate n payload) sched w
    = (add_trace w (new ≫= fun i => call_events g (w_self w) i d endpoint),
       Returned (futures_of g (w_self w) d endpoint n sched))
    /\ NoDup new
    /\ (forall i, i ∈ new <-> i ∈ sched /\ i < n).
Proof.
  intros Hd.
  destruct (pool_spec g endpoint (replicate n payload) d sched ∅ w)
    as (new & Hw & Hnd & Hin & Hlk).
  { intros i p Hi. apply lookup_replicate in Hi as [-> _]. done. }
  exists new. rewrite length_replicate in Hin. split; [|split; [done|]].
  - unfold run_workers.
    destruct (run_pool g endpoint (replicate n payload) sched ∅ w) as [w' done'].
    simpl in Hw, Hlk. subst w'. f_equal. f_equal. apply map_eq. intros i.
    rewrite Hlk, lookup_empty, lookup_futures_of.
    rewrite (bool_decide_ext (i ∈ new) (i ∈ sched /\ i < n)); [done|].
    rewrite Hin, lookup_empty. tauto.
  - intros i. rewrite Hin, lookup_empty. tauto.
Qed.

(** *** The collection loop *)

(** The loop gets through some first positions and then either is at
    its end or stops at the first position whose call or whose fetch
    does not return, ending as that step ends. *)
Lemma collect_on_platform (g : Namespace) (pool : gmap nat (Outcome Json)) :
  forall n s w,
    let run := for_each (zip (seq s n) (seq s n)) (collect_body g pool) w in
    exists (m : nat) (t : list Event),
      run.1 = add_trace w t
      /\ m <= n
      /\ (forall j, j < m -> exists a, step_outcome g pool (s + j) = Returned a)
      /\ endpoint_calls t = []
      /\ submissions t = []
      /\ (exists m', downloads t = seq s m')
      /\ ((m = n /\ run.2 = Returned tt)
          \/ (m < n
              /\ (forall a, step_outcome g pool (s + m) <> Returned a)
              /\ run.2 = and_then (step_outcome g pool (s + m))
                           (fun _ => Returned tt))).
Proof.
  induction n as [|n IH]; intros s w run; subst run.
  { exists 0, []. simpl. rewrite add_trace_nil. repeat split; auto.
    - intros j Hj. lia.
    - by exists 0. }
  destruct (for_each (zip (seq s (S n)) (seq s (S n))) (collect_body g pool) w)
    as [w' r] eqn:Hrun.
  cbn [seq zip zip_with for_each] in Hrun. rewrite bind_run in Hrun.
  unfold collect_body at 1 in Hrun. rewrite bind_run in Hrun.
  unfold future_result at 1 in Hrun. cbn [fst snd].
  assert (Hstuck : forall (t : list Event),
    w' = add_trace w t -> endpoint_calls t = [] -> submissions t = [] ->
    (downloads t = [] \/ downloads t = [s]) ->
    (forall a, step_outcome g pool s <> Returned a) ->
    r = and_then (step_outcome g pool s) (fun _ => Returned tt) ->
    exists (m : nat) (t : list Event),
      w' = add_trace w t /\ m <= S n
      /\ (forall j, j < m -> exists a, step_outcome g pool (s + j) = Returned a)
      /\ endpoint_calls t = [] /\ submissions t = []
      /\ (exists m', downloads t = seq s m')
      /\ ((m = S n /\ r = Returned tt)
          \/ (m < S n
              /\ (forall a, step_outcome g pool (s + m) <> Returned a)
              /\ r = and_then (step_outcome g pool (s + m))
                       (fun _ => Returned tt)))).
  { intros t Hw Hc Hs Hd Hno Hr. exists 0, t. rewrite Nat.add_0_r.
    split; [done|]. split; [lia|]. split; [intros j Hj; lia|].
    split; [done|]. split; [done|]. split.
    - destruct Hd as [-> | ->]; [by exists 0|by exists 1].
    - right. split; [lia|]. done. }
  unfold step_outcome in Hstuck.
  destruct (pool !! s) as [[resp|e|b|]|] eqn:Hpool; cbn [and_then] in Hstuck.
  2-5: injection Hrun as <- <-; apply (Hstuck []);
       [by rewrite add_trace_nil|done|done|by left|done|done].
  rewrite fetch_and_emit_on_platform in Hrun.
  destruct (quiet_fetch_events g s resp) as (Hc & Hs & Hd).
  destruct (fetch_outcome g s resp) as [a|e|b|] eqn:Hfetch;
    cbn [and_then] in Hrun.
  2-4: injection Hrun as <- <-; by apply (Hstuck (fetch_events g s resp)).
  clear Hstuck.
  destruct (IH (S s) (add_trace w (fetch_events g s resp)))
    as (m & t & Hw & Hlen & Hok & Hct & Hst & [m' Hdt] & Hr).
  rewrite Hrun in Hw, Hr. cbn [fst snd] in Hw, Hr.
  exists (S m), (fetch_events g s resp ++ t).
  split; [by rewrite Hw, add_trace_app|].
  split; [lia|].
  split.
  { intros [|j] Hj.
    - exists a. rewrite Nat.add_0_r. unfold step_outcome. by rewrite Hpool.
    - rewrite Nat.add_succ_r. apply Hok. lia. }
  split; [by rewrite endpoint_calls_app, Hc, Hct|].
  split; [by rewrite submissions_app, Hs, Hst|].
  split.
  { exists (S m'). by rewrite downloads_app, (downloads_of_fetched g s resp a), Hdt. }
  rewrite Nat.add_succ_r.
  destruct Hr as [[-> ->]|(Hlt & Hno & ->)]; [by left|right].
  split; [lia|done].
Qed.

(** *** The two paths *)

(** The short path on a platform. *)
Lemma short_path_on_platform (g : Namespace) (sched : list nat) (payload : nat)
    (endpoint : PyVal) (w : World) (vm vc vt : PyVal) (n : nat) (d : Dict) :
  g !! "model" = Some vm ->
  g !! "credentials" = Some vc ->
  g !! "content_text" = Some vt ->
  py_len vt = Ok n ->
  n <= 600 ->
  w_heap w !! payload = Some d ->
  tts_try_body g sched payload endpoint w
  = (add_trace w
       (call_events g (w_self w) 0 d endpoint
        ++ match call_outcome g (w_self w) 0 d endpoint with
           | Returned resp => fetch_events g 0 resp
           | _ => []
           end),
     and_then (segment_try g (w_self w) 0 d endpoint) (fun _ => Returned tt)).
Proof.
  intros Hmodel Hcred Htext Hlen Hshort Hd. unfold tts_try_body, segment_try.
  rewrite bind_run, load_global_run, Hmodel.
  rewrite bind_run, load_global_run, Hcred.
  rewrite bind_run, load_global_run, Htext.
  rewrite bind_run, lift_run, Hlen. cbn [outcome_of].
  unfold _get_model_word_limit. rewrite bool_decide_eq_false_2 by lia.
  rewrite bind_run. unfold deref at 1. rewrite Hd.
  rewrite bind_run, invoke_sagemaker_on_platform. cbn [w_self add_trace].
  destruct (call_outcome g (w_self w) 0 d endpoint) as [resp|e|b|];
    cbn [and_then]; try (by rewrite app_nil_r).
  by rewrite fetch_and_emit_on_platform, add_trace_app.
Qed.

(** The long path on a platform, from the first statement of the [try]
    to the end of the collection loop. *)
Lemma long_path_on_platform (g : Namespace) (sched : list nat) (payload : nat)
    (endpoint : PyVal) (w : World) (vm vc vt : PyVal) (n : nat) (d : Dict)
    (sentences : list string) :
  g !! "model" = Some vm ->
  g !! "credentials" = Some vc ->
  g !! "content_text" = Some vt ->
  py_len vt = Ok n ->
  600 < n ->
  w_heap w !! payload = Some d ->
  Py._split_text_into_sentences (dict_get d "content_text") 600
  = Returned sentences ->
  sentences <> [] ->
  let d' := written d sentences in
  let pool := futures_of g (w_self w) d' endpoint (length sentences) sched in
  let run := tts_try_body g sched payload endpoint w in
  exists (new : list nat) (m : nat) (t : list Event),
    run.1 = mkWorld (w_self w) (<[payload := d']> (w_heap w))
              (w_trace w
               ++ ((fun i => EvSubmit i payload) <$> seq 0 (length sentences))
               ++ (new ≫= fun i => call_events g (w_self w) i d' endpoint)
               ++ t)
    /\ NoDup new
    /\ (forall i, i ∈ new <-> i ∈ sched /\ i < length sentences)
    /\ m <= length sentences
    /\ (forall j, j < m -> exists a, step_outcome g pool j = Returned a)
    /\ endpoint_calls t = []
    /\ submissions t = []
    /\ (exists m', downloads t = seq 0 m')
    /\ ((m = length sentences /\ run.2 = Returned tt)
        \/ (m < length sentences
            /\ (forall a, step_outcome g pool m <> Returned a)
            /\ run.2 = and_then (step_outcome g pool m) (fun _ => Returned tt))).
Proof.
  intros Hmodel Hcred Htext Hlen Hlong Hd Hsplit Hne d' pool run.
  subst run. destruct (tts_try_body g sched payload endpoint w) as [w' r] eqn:Hbody.
  unfold tts_try_body in Hbody.
  rewrite bind_run, load_global_run, Hmodel in Hbody.
  rewrite bind_run, load_global_run, Hcred in Hbody.
  rewrite bind_run, load_global_run, Htext in Hbody.
  rewrite bind_run, lift_run, Hlen in Hbody. cbn [outcome_of] in Hbody.
  unfold _get_model_word_limit in Hbody.
  rewrite bool_decide_eq_true_2 in Hbody by done.
  rewrite bind_run in Hbody. unfold deref at 1 in Hbody. rewrite Hd in Hbody.
  rewrite bind_run, call_run, Hsplit in Hbody.
  rewrite bind_run, lift_run in Hbody. unfold ThreadPoolExecutor in Hbody.
  rewrite bool_decide_eq_false_2 in Hbody
    by (destruct sentences; [done|simpl; lia]).
  cbn [outcome_of] in Hbody.
  rewrite bind_run, (write_loop_run payload sentences _ 0 d w) in Hbody by done.
  rewrite drop_0, take_ge in Hbody by done. fold d' in Hbody.
  rewrite bind_run, submit_all_run in Hbody.
  rewrite bind_run in Hbody.
  set (w1 := add_trace _ _) in Hbody.
  destruct (workers_on_platform g endpoint payload d' (length sentences) sched w1)
    as (new & Hrun & Hnd & Hin).
  { subst w1. simpl. by rewrite lookup_insert_eq. }
  rewrite Hrun in Hbody. rewrite length_replicate in Hbody.
  unfold enumerate at 1 in Hbody. rewrite length_seq in Hbody.
  change (fun '(index, future) =>
            resp ← future_result ?p future; fetch_and_emit g index resp)
    with (collect_body g p) in Hbody.
  set (w2 := add_trace w1 _) in Hbody.
  destruct (collect_on_platform g
              (futures_of g (w_self w1) d' endpoint (length sentences) sched)
              (length sentences) 0 w2)
    as (m & t & Hw & Hlen' & Hok & Hc & Hs & Hdl & Hr).
  rewrite Hbody in Hw, Hr. cbn [fst snd] in Hw, Hr |- *.
  exists new, m, t.
  split.
  { rewrite Hw. subst w2 w1. unfold add_trace. simpl. f_equal.
    rewrite <- !app_assoc. f_equal. f_equal.
    unfold enumerate. rewrite length_replicate.
    apply list_eq. intros i. rewrite !list_lookup_fmap.
    destruct (decide (i < length sentences)) as [Hi|Hi].
    - rewrite (lookup_seq_lt 0 _ i Hi).
      assert (zip (seq 0 (length sentences)) (replicate (length sentences) payload) !! i
              = Some (i, payload)) as ->; [|done].
      apply lookup_zip_with_Some. exists i, payload.
      split; [done|]. split; [by apply lookup_seq_lt|by apply lookup_replicate_2].
    - rewrite (lookup_ge_None_2 (seq _ _)) by (rewrite length_seq; lia).
      rewrite (lookup_ge_None_2 (zip _ _)); [done|].
      rewrite length_zip_with, length_seq, length_replicate. lia. }
  repeat (split; [done|]). exact Hr.
Qed.

(** Every run of the body on a platform stops before its first effect,
    or takes the short path, or takes the long path with at least one
    sentence. *)
Lemma try_body_cases_on_platform (g : Namespace) (sched : list nat)
    (payload : nat) (endpoint : PyVal) (w : World) :
  (exists o, tts_try_body g sched payload endpoint w = (w, o))
  \/ (exists vm vc vt n d,
        g !! "model" = Some vm /\ g !! "credentials" = Some vc
        /\ g !! "content_text" = Some vt /\ py_len vt = Ok n /\ n <= 600
        /\ w_heap w !! payload = Some d)
  \/ (exists vm vc vt n d sentences,
        g !! "model" = Some vm /\ g !! "credentials" = Some vc
        /\ g !! "content_text" = Some vt /\ py_len vt = Ok n /\ 600 < n
        /\ w_heap w !! payload = Some d
        /\ Py._split_text_into_sentences (dict_get d "content_text") 600
           = Returned sentences
        /\ sentences <> []).
Proof.
  unfold tts_try_body.
  rewrite bind_run, load_global_run.
  destruct (g !! "model") as [vm|] eqn:Hmodel; [|left; eauto].
  rewrite bind_run, load_global_run.
  destruct (g !! "credentials") as [vc|] eqn:Hcred; [|left; eauto].
  rewrite bind_run, load_global_run.
  destruct (g !! "content_text") as [vt|] eqn:Htext; [|left; eauto].
  rewrite bind_run, lift_run.
  destruct (py_len vt) as [n|e] eqn:Hlen; cbn [outcome_of]; [|left; eauto].
  unfold _get_model_word_limit. case_bool_decide as Hn.
  - rewrite bind_run. unfold deref at 1.
    destruct (w_heap w !! payload) as [d|] eqn:Hd; [|left; eauto].
    rewrite bind_run, call_run.
    destruct (Py._split_text_into_sentences _ _) as [sentences|e|b|] eqn:Hsplit;
      [|left; eauto..].
    destruct sentences as [|s sentences].
    { left. rewrite bind_run, lift_run. simpl. eauto. }
    right; right. exists vm, vc, vt, n, d, (s :: sentences). eauto 10.
  - rewrite bind_run. unfold deref at 1.
    destruct (w_heap w !! payload) as [d|] eqn:Hd; [|left; eauto].
    right; left. exists vm, vc, vt, n, d. repeat split; auto. lia.
Qed.

Lemma invoke_streaming_on_platform (g : Namespace) (sched : list nat)
    (payload : nat) (endpoint : PyVal) (w : World) :
  _tts_invoke_streaming g sched payload endpoint w
  = ((tts_try_body g sched payload endpoint w).1,
     surfaced (tts_try_body g sched payload endpoint w).2).
Proof.
  unfold _tts_invoke_streaming, try_except, surfaced.
  by destruct (tts_try_body g sched payload endpoint w) as [w' [[]|ex|b|]].
Qed.

(** The calls of the pool, as events. *)
Lemma quiet_pool_calls (g : Namespace) (self : Self) (d : Dict)
    (endpoint : PyVal) (new : list nat) :
  let calls := new ≫= fun i => call_events g self i d endpoint in
  yields calls = [] /\ downloads calls = [] /\ submissions calls = []
  /\ (endpoint_calls calls = (fun i => (i, d)) <$> new \/ endpoint_calls calls = []).
Proof.
  intros calls. subst calls.
  assert (Hcases : (forall i, call_events g self i d endpoint
                              = [EvInvokeEndpoint i endpoint d])
                   \/ (forall i, call_events g self i d endpoint = [])).
  { unfold call_events.
    destruct (sagemaker_client self), (g !! "json"), (Py.json_dumps d); auto. }
  destruct Hcases as [Hev|Hev].
  - induction new as [|i new (Hy & Hd & Hs & Hc)]; [by auto|].
    rewrite bind_cons, Hev.
    repeat split; [exact Hy|exact Hd|exact Hs|].
    destruct Hc as [Hc|Hc]; [left|].
    + change (endpoint_calls ([EvInvokeEndpoint i endpoint d] ++ ?l))
        with ((i, d) :: endpoint_calls l).
      by rewrite Hc.
    + left. destruct new as [|j new]; [done|].
      rewrite bind_cons, Hev in Hc. discriminate Hc.
  - assert (Hnil : new ≫= (fun i => call_events g self i d endpoint) = []).
    { induction new as [|i new IH]; [done|]. by rewrite bind_cons, Hev, IH. }
    rewrite Hnil. by auto.
Qed.

End OnPlatform.

(** ** [_build_tts_payload] *)

(** C3. For each of the four supported modes, when every companion field
    the mode requires is present (a value that Python takes as true: not
    [None] and not the empty string), [_build_tts_payload] returns a
    payload whose keys are ["tts_text"] and the keys of the required
    fields, no more and no fewer, holding the text and the values of
    those fields. *)
Theorem build_tts_payload_documented_fields
    (content_text model_role prompt_text prompt_audio lang_tag instruct_text : PyVal)
    (m : TTSModelType) :
  forallb (fun f => truthy (companion model_role prompt_text prompt_audio
                              lang_tag instruct_text f))
          (required_fields m) = true ->
  exists d : Dict,
    _build_tts_payload content_text (VStr (value m)) model_role prompt_text
      prompt_audio lang_tag instruct_text = Ok d
    /\ dom d = {["tts_text"]} ∪ list_to_set (required_fields m)
    /\ d !! "tts_text" = Some content_text
    /\ forall f, f ∈ required_fields m ->
         d !! f = Some (companion model_role prompt_text prompt_audio
                          lang_tag instruct_text f).
Proof.
  intros Hreq. destruct m; simpl in Hreq; unfold companion in Hreq; simpl in Hreq.
  all: repeat (apply andb_prop in Hreq as [? Hreq]).
  all: unfold _build_tts_payload; simpl.
  all: repeat match goal with Ht : truthy _ = true |- _ => rewrite Ht; clear Ht end; simpl.
  all: eexists; split; [reflexivity|].
  all: split; [rewrite !dom_insert_L, dom_singleton_L; set_solver|].
  all: split; [reflexivity|].
  all: intros f Hf; simpl in Hf; set_unfold in Hf; destruct_or!; subst; try reflexivity; try done.
Qed.

(** C4. For every other combination (a mode string that names no
    supported mode, or a supported mode with a required field absent or
    empty), [_build_tts_payload] raises and returns no payload; the
    exception is the [RuntimeError] of the last line, the error the
    specification calls InvalidParameters, and its message ends with the
    mode it was given. *)
Theorem build_tts_payload_invalid_params
    (content_text model_type model_role prompt_text prompt_audio lang_tag
     instruct_text : PyVal) :
  documented_combination model_type model_role prompt_text prompt_audio
    lang_tag instruct_text = false ->
  _build_tts_payload content_text model_type model_role prompt_text
    prompt_audio lang_tag instruct_text
  = Raise (mkExn RuntimeError ("Invalid params for " +:+ py_str model_type)).
Proof.
  unfold documented_combination, mode_of, _build_tts_payload. simpl.
  destruct (py_eq model_type (VStr "PresetVoice")) eqn:E1; simpl.
  { unfold companion; simpl. rewrite andb_true_r. intros ->.
    apply bool_decide_eq_true in E1 as ->. reflexivity. }
  destruct (py_eq model_type (VStr "CloneVoice")) eqn:E2; simpl.
  { unfold companion; simpl. rewrite andb_true_r. intros ->.
    apply bool_decide_eq_true in E2 as ->. reflexivity. }
  destruct (py_eq model_type (VStr "CloneVoice_CrossLingual")) eqn:E3; simpl.
  { unfold companion; simpl. rewrite andb_true_r. intros ->.
    apply bool_decide_eq_true in E3 as ->. reflexivity. }
  destruct (py_eq model_type (VStr "InstructVoice")) eqn:E4; simpl.
  { unfold companion; simpl. rewrite andb_true_r. intros Hc.
    rewrite andb_comm, Hc. reflexivity. }
  reflexivity.
Qed.

Section InvokeClaims.
Context {host : Host}.

(** C10. For every model name and every credentials mapping, in every
    world, [validate_credentials] returns [None] without raising and
    leaves the world as it found it: nothing is checked, so every
    credentials bundle is accepted, the empty one included. *)
Theorem validate_credentials_accepts_everything
    (model : PyVal) (credentials : Dict) (w : World) :
  validate_credentials model credentials w = (w, Returned VNone)
  /\ validate_credentials model ∅ w = (w, Returned VNone).
Proof. split; reflexivity. Qed.

(** C9. For every module namespace, every instance state and every
    combination of arguments, [_invoke] ends by raising, and up to that
    point it has called no endpoint, downloaded no audio and yielded no
    chunk.  When [logger] is unbound, as it is in the file, the first
    statement raises [NameError]; when [logger] is bound, no client is
    set and [boto3] is unbound, the client construction raises
    [NameError]; and the four arguments forwarded to
    [_tts_invoke_streaming], which takes a payload and an endpoint name,
    raise [TypeError]. *)
Theorem invoke_fails_before_any_network_call
    (g : Namespace) (model tenant_id : PyVal) (credentials : Dict)
    (content_text voice user : PyVal) (w : World) :
  let run := _invoke g model tenant_id credentials content_text voice user w in
  (exists e, run.2 = Raised e)
  /\ endpoint_calls (new_events w run.1) = []
  /\ downloads (new_events w run.1) = []
  /\ yields (new_events w run.1) = []
  /\ (g !! "logger" = None ->
      run = (w, Raised (mkExn NameError "name 'logger' is not defined")))
  /\ (is_Some (g !! "logger") -> sagemaker_client (w_self w) = None ->
      g !! "boto3" = None ->
      run.2 = Raised (mkExn NameError "name 'boto3' is not defined"))
  /\ bind_positional "SageMakerText2SpeechModel._tts_invoke_streaming"
       tts_invoke_streaming_params
       [AVal model; ADict credentials; AVal content_text; AVal voice]
     = Raise (mkExn TypeError
         "SageMakerText2SpeechModel._tts_invoke_streaming() takes 3 positional arguments but 5 were given")
  /\ module_globals !! "logger" = None
  /\ module_globals !! "boto3" = None.
Proof.
  intros run. subst run.
  destruct (offline_invoke g model tenant_id credentials content_text voice user w)
    as (t & Hw & Hc & Hd & Hy & Hb).
  pose proof (never_returns_invoke g model tenant_id credentials content_text
                voice user w) as Hr.
  set (run := _invoke g model tenant_id credentials content_text voice user w) in *.
  assert (Hev : new_events w run.1 = t).
  { rewrite Hw. unfold new_events. simpl. by rewrite drop_app_length. }
  rewrite Hev. split.
  { destruct run.2 as [a|e|b|]; [by destruct (Hr a)|eauto|by destruct Hb..]. }
  do 3 (split; [done|]).
  split.
  { intros Hlogger. subst run. unfold _invoke, logger_warning.
    by rewrite !bind_run, load_global_run, Hlogger. }
  split.
  { intros [lg Hlogger] Hclient Hboto. subst run.
    unfold _invoke, logger_warning, new_client.
    repeat (rewrite bind_run, bind_run, load_global_run, Hlogger, emit_run;
            cbv beta iota).
    rewrite bind_run. cbn [get_self w_self add_trace]. rewrite Hclient.
    rewrite (bool_decide_eq_false_2 (is_Some (@None Client)))
      by (by intros [? [=]]).
    cbn [negb]. rewrite bind_run.
    destruct (truthy (dict_get credentials "aws_region"));
      [destruct (truthy (dict_get credentials "aws_access_key_id")
                 && truthy (dict_get credentials "aws_secret_access_key"))|].
    all: by rewrite !bind_run, load_global_run, Hboto. }
  split; [reflexivity|]. split; reflexivity.
Qed.

End InvokeClaims.

(** In the module as the file leaves it, [_invoke] raises at its first
    statement, for the arguments of the specification's example. *)
Lemma invoke_fails_before_any_network_call_witness :
  _invoke (host := example_host [] (audio_of_size 4)) module_globals
    (VStr "cosyvoice") (VStr "tenant") {[ "model_role" := VStr "r1" ]}
    (VStr "Hello world.") (VStr "") VNone (world_with fresh_self hello_payload)
  = (world_with fresh_self hello_payload,
     Raised (mkExn NameError "name 'logger' is not defined")).
Proof.
  apply (invoke_fails_before_any_network_call (host := example_host [] (audio_of_size 4))
           module_globals (VStr "cosyvoice") (VStr "tenant")
           {[ "model_role" := VStr "r1" ]} (VStr "Hello world.") (VStr "") VNone
           (world_with fresh_self hello_payload)).
  reflexivity.
Defined.


Section SynthesizerClaims.
Context {host : Host}.

(** With any of the names [model], [credentials] and [content_text]
    unbound, the first statements of the [try] raise: in the module as
    the file leaves it, the synthesizer does nothing else. *)
Lemma tts_unbound_model_raises (g : Namespace) (sched : list nat)
    (payload : nat) (endpoint : PyVal) (w : World) :
  g !! "model" = None ->
  _tts_invoke_streaming g sched payload endpoint w
  = (w, Raised (mkExn InvokeBadRequestError "name 'model' is not defined")).
Proof.
  intros Hmodel. rewrite tts_invoke_streaming_run. unfold tts_try_body.
  by rewrite bind_run, load_global_run, Hmodel.
Qed.

(** The yields of every run are the chunks of some segments, whole and
    in order, numbered from 0. *)
Lemma tts_yields_shape (g : Namespace) (sched : list nat) (payload : nat)
    (endpoint : PyVal) (w : World) :
  exists audios,
    yields (new_events w (_tts_invoke_streaming g sched payload endpoint w).1)
    = segment_yields 0 audios.
Proof.
  destruct (tts_run_cases g sched payload endpoint w)
    as [[Hw _]|[(d & Hd & Hw & Hr)
               |(d & sentences & new & audios & t & Hd & Hs & Hne & Hw & Hnd & Hin
                 & Hlen & Hok & Hy & Hc & Hsb & Hdl & Hr)]].
  - exists []. by rewrite Hw, new_events_refl.
  - rewrite Hw, new_events_add_trace, yields_app.
    assert (yields (worker_events g (w_self w) 0 d endpoint) = []) as ->.
    { unfold worker_events. by destruct (sagemaker_client (w_self w)), (g !! "json"). }
    destruct (worker_result g (w_self w) 0 d endpoint) as [resp|e]; [|by exists []].
    rewrite yields_segment_events.
    destruct (segment_audio g 0 resp) as [a|e]; [|by exists []].
    exists [a]. by rewrite segment_yields_cons, segment_yields_nil, app_nil_r.
  - exists audios. rewrite Hw, new_events_mk, !yields_app.
    destruct (quiet_submits payload (seq 0 (length sentences))) as (-> & _).
    destruct (quiet_calls g (w_self w) (written d sentences) endpoint new) as (-> & _).
    done.
Qed.

(** What the short path does once the names it uses are bound and the
    instance has a client: one call to the endpoint, with the payload as
    it was passed, no dispatch to a pool, and, when the call and the
    download succeed, one download and the audio in chunks, in order. *)
Lemma tts_short_path_single_call (g : Namespace) (sched : list nat)
    (payload : nat) (endpoint : PyVal) (w : World)
    (vm vc vt vj : PyVal) (n : nat) (d : Dict) (client : Client) :
  g !! "model" = Some vm ->
  g !! "credentials" = Some vc ->
  g !! "content_text" = Some vt ->
  py_len vt = Ok n ->
  n <= 600 ->
  w_heap w !! payload = Some d ->
  sagemaker_client (w_self w) = Some client ->
  g !! "json" = Some vj ->
  let run := _tts_invoke_streaming g sched payload endpoint w in
  let ev := new_events w run.1 in
  endpoint_calls ev = [(0, d)]
  /\ submissions ev = []
  /\ w_heap run.1 = w_heap w
  /\ forall resp a,
       worker_result g (w_self w) 0 d endpoint = Ok resp ->
       segment_audio g 0 resp = Ok a ->
       run.2 = Returned tt
       /\ downloads ev = [0]
       /\ yields ev = (fun c => (0, c)) <$> chunks a
       /\ concat (snd <$> yields ev) = a.
Proof.
  intros Hm Hc Ht Hl Hn Hd Hclient Hjson run ev. subst ev run.
  rewrite tts_invoke_streaming_run.
  rewrite (tts_short_path_run g sched payload endpoint w vm vc vt n d) by done.
  cbn [fst snd]. rewrite new_events_add_trace.
  rewrite endpoint_calls_app, submissions_app.
  assert (Hwe : worker_events g (w_self w) 0 d endpoint
                = [EvInvokeEndpoint 0 endpoint d]).
  { unfold worker_events. by rewrite Hclient, Hjson. }
  rewrite Hwe.
  assert (Hquiet :
    endpoint_calls (match worker_result g (w_self w) 0 d endpoint with
                    | Ok resp => segment_events g 0 resp
                    | Raise _ => []
                    end) = []
    /\ submissions (match worker_result g (w_self w) 0 d endpoint with
                    | Ok resp => segment_events g 0 resp
                    | Raise _ => []
                    end) = []).
  { destruct (worker_result g (w_self w) 0 d endpoint) as [resp|e]; [|done].
    by destruct (quiet_segment_events g 0 resp) as (-> & -> & _). }
  destruct Hquiet as [-> ->].
  split; [done|]. split; [done|]. split; [done|].
  intros resp a -> Ha. rewrite Ha.
  destruct (quiet_segment_events g 0 resp) as (_ & _ & _ & Hdl).
  rewrite downloads_app, yields_app, (Hdl a Ha), yields_segment_events, Ha.
  change (yields [EvInvokeEndpoint 0 endpoint d]) with (@nil (nat * list byte)).
  change (downloads [EvInvokeEndpoint 0 endpoint d]) with (@nil nat).
  cbn [app].
  split; [done|]. split; [done|]. split; [done|].
  rewrite <- list_fmap_compose.
  change (snd ∘ (fun c : list byte => (0, c))) with (@id (list byte)).
  rewrite list_fmap_id. apply (concat_chunks_of 1024). lia.
Qed.

End SynthesizerClaims.

Section LongPathClaims.
Context {host : Host}.

(** Runs that dispatch at least one segment are runs of the long path:
    what such a run is made of. *)
Lemma tts_dispatching_run (g : Namespace) (sched : list nat) (payload : nat)
    (endpoint : PyVal) (w : World) (k p : nat) :
  let run := _tts_invoke_streaming g sched payload endpoint w in
  (k, p) ∈ submissions (new_events w run.1) ->
  exists d sentences audios,
    let d' := written d sentences in
    let pool := completed g (w_self w) d' endpoint (length sentences) sched in
    w_heap w !! payload = Some d
    /\ _split_text_into_sentences (dict_get d "content_text") 600 = Ok sentences
    /\ w_heap run.1 !! payload = Some d'
    /\ submissions (new_events w run.1)
       = (fun i => (i, payload)) <$> seq 0 (length sentences)
    /\ yields (new_events w run.1) = segment_yields 0 audios
    /\ length audios <= length sentences
    /\ (forall j a, audios !! j = Some a ->
          segment_outcome g pool j = Returned a)
    /\ match run.2 with
       | Returned _ => length audios = length sentences
       | Raised e =>
           length audios < length sentences
           /\ exists ex, segment_outcome g pool (length audios) = Raised ex
                         /\ e = mkExn InvokeBadRequestError (exn_str ex)
       | RaisedBase _ => False
       | Blocked =>
           length audios < length sentences
           /\ segment_outcome g pool (length audios) = Blocked
       end.
Proof.
  intros run Hsub. subst run.
  destruct (tts_run_cases g sched payload endpoint w)
    as [[Hw _]|[(d & Hd & Hw & Hr)
               |(d & sentences & new & audios & t & Hd & Hs & Hne & Hw & Hnd & Hin
                 & Hlen & Hok & Hy & Hc & Hsb & Hdl & Hr)]].
  - rewrite Hw, new_events_refl in Hsub. by apply elem_of_nil in Hsub.
  - rewrite Hw, new_events_add_trace, submissions_app in Hsub.
    assert (submissions (worker_events g (w_self w) 0 d endpoint) = []) as Hwe.
    { unfold worker_events. by destruct (sagemaker_client (w_self w)), (g !! "json"). }
    rewrite Hwe in Hsub.
    destruct (worker_result g (w_self w) 0 d endpoint) as [resp|e];
      [|by apply elem_of_nil in Hsub].
    destruct (quiet_segment_events g 0 resp) as (_ & Hse & _).
    rewrite Hse in Hsub. by apply elem_of_nil in Hsub.
  - exists d, sentences, audios. cbv zeta.
    rewrite Hw, new_events_mk, !submissions_app, !yields_app. cbn [w_heap].
    destruct (quiet_submits payload (seq 0 (length sentences))) as (-> & _ & _ & ->).
    destruct (quiet_calls g (w_self w) (written d sentences) endpoint new)
      as (-> & _ & -> & _).
    rewrite Hsb, Hy, !app_nil_r, lookup_insert_eq. cbn [app].
    repeat (split; [done|]). exact Hr.
Qed.

(** C6. In a run that has dispatched segment [k], if the endpoint call
    for segment [k] fails and the calls for the segments up to [k] all
    come back, then the run ends by raising [InvokeBadRequestError]; no
    chunk of segment [k] or of a later segment is yielded; what has been
    yielded is the audio of some first segments, each whole and in order;
    and when all [k] segments before [k] got through, the error carries
    the message of the failure of segment [k]. *)
Theorem tts_failed_segment_ends_stream
    (g : Namespace) (sched : list nat) (payload : nat) (endpoint : PyVal)
    (w : World) (k : nat) (d' : Dict) (e_k : Exn) :
  let run := _tts_invoke_streaming g sched payload endpoint w in
  let ev := new_events w run.1 in
  (k, payload) ∈ submissions ev ->
  w_heap run.1 !! payload = Some d' ->
  worker_result g (w_self w) k d' endpoint = Raise e_k ->
  (forall i, i <= k -> i ∈ sched) ->
  (exists msg, run.2 = Raised (mkExn InvokeBadRequestError msg))
  /\ (forall i c, (i, c) ∈ yields ev -> i < k)
  /\ exists audios,
       length audios <= k
       /\ yields ev = segment_yields 0 audios
       /\ (forall j a, audios !! j = Some a ->
             exists resp, worker_result g (w_self w) j d' endpoint = Ok resp
                          /\ segment_audio g j resp = Ok a)
       /\ (length audios = k ->
           run.2 = Raised (mkExn InvokeBadRequestError (exn_str e_k))).
Proof.
  intros run ev Hsub Hheap Hfail Hfair. subst ev.
  destruct (tts_dispatching_run g sched payload endpoint w k payload Hsub)
    as (d & sentences & audios & Hd & Hs & Hheap' & Hsubs & Hy & Hlen & Hok & Hr).
  fold run in Hheap', Hsubs, Hy, Hr. cbv zeta in Hok, Hr.
  rewrite Hheap in Hheap'. injection Hheap' as Hd'.
  rewrite <- Hd' in Hok, Hr. clear Hd'.
  assert (Hk : k < length sentences).
  { rewrite Hsubs in Hsub. apply list_elem_of_fmap in Hsub as (i & [= <-] & Hi).
    apply elem_of_seq in Hi. lia. }
  assert (Hout : forall i, i <= k ->
            segment_outcome g (completed g (w_self w) d' endpoint (length sentences) sched) i
            = match worker_result g (w_self w) i d' endpoint with
              | Ok resp => outcome_of (segment_audio g i resp)
              | Raise e => Raised e
              end).
  { intros i Hi. rewrite segment_outcome_completed.
    rewrite bool_decide_eq_true_2; [done|]. split; [by apply Hfair|lia]. }
  assert (Hshort : length audios <= k).
  { destruct (decide (length audios <= k)) as [|Hgt]; [done|].
    destruct (lookup_lt_is_Some_2 audios k ltac:(lia)) as [a Ha].
    apply Hok in Ha. rewrite Hout, Hfail in Ha by lia. done. }
  assert (Hraised : exists ex,
            run.2 = Raised (mkExn InvokeBadRequestError (exn_str ex))
            /\ segment_outcome g
                 (completed g (w_self w) d' endpoint (length sentences) sched)
                 (length audios) = Raised ex).
  { destruct run.2 as [[]|e|b|].
    - lia.
    - destruct Hr as (_ & ex & Hex & ->). eauto.
    - done.
    - destruct Hr as [_ Hb]. rewrite Hout in Hb by done.
      destruct (worker_result g (w_self w) (length audios) d' endpoint) as [resp|e];
        [|done].
      by destruct (segment_audio g (length audios) resp). }
  destruct Hraised as (ex & Hrun & Hex).
  split; [rewrite Hrun; eauto|]. split.
  { intros i c Hic. rewrite Hy in Hic.
    apply list_elem_of_lookup in Hic as [pos Hpos].
    apply segment_yields_index in Hpos as [? _]. lia. }
  exists audios. split; [done|]. split; [done|]. split.
  { intros j a Ha. apply Hok in Ha.
    apply segment_outcome_returned in Ha as (_ & _ & Hresp). done. }
  intros Hall. rewrite Hall, Hout, Hfail in Hex by done.
  injection Hex as <-. done.
Qed.

(** C2. In a run that has dispatched the segments 0 to N-1, whatever the
    order [sched] in which the calls complete: if every call comes back
    with a response and the download behind it gives the audio of its
    segment, the run ends normally and its yields are the chunks of
    segment 0, then those of segment 1, and so on; joined, the chunks are
    the audio of the segments joined in segment order. *)
Theorem tts_emits_segments_in_order
    (g : Namespace) (sched : list nat) (payload : nat) (endpoint : PyVal)
    (w : World) (d' : Dict) (audios : list (list byte)) :
  let run := _tts_invoke_streaming g sched payload endpoint w in
  let ev := new_events w run.1 in
  0 < length audios ->
  submissions ev = (fun i => (i, payload)) <$> seq 0 (length audios) ->
  w_heap run.1 !! payload = Some d' ->
  (forall i a, audios !! i = Some a ->
     i ∈ sched
     /\ exists resp, worker_result g (w_self w) i d' endpoint = Ok resp
                     /\ segment_audio g i resp = Ok a) ->
  run.2 = Returned tt
  /\ yields ev = segment_yields 0 audios
  /\ concat (snd <$> yields ev) = concat audios.
Proof.
  intros run ev Hpos Hsub Hheap Hall. subst ev.
  assert (Hfirst : (0, payload) ∈ submissions (new_events w run.1)).
  { rewrite Hsub. apply list_elem_of_fmap. exists 0. split; [done|].
    apply elem_of_seq. lia. }
  destruct (tts_dispatching_run g sched payload endpoint w 0 payload Hfirst)
    as (d & sentences & got & Hd & Hs & Hheap' & Hsubs & Hy & Hlen & Hok & Hr).
  fold run in Hheap', Hsubs, Hy, Hr. cbv zeta in Hok, Hr.
  rewrite Hheap in Hheap'. injection Hheap' as Hd'.
  rewrite <- Hd' in Hok, Hr. clear Hd'.
  assert (Hn : length sentences = length audios).
  { rewrite Hsub in Hsubs. apply (f_equal length) in Hsubs.
    by rewrite !length_fmap, !length_seq in Hsubs. }
  rewrite Hn in *.
  assert (Hout : forall i a, audios !! i = Some a ->
            segment_outcome g (completed g (w_self w) d' endpoint (length audios) sched) i
            = Returned a).
  { intros i a Ha. apply segment_outcome_returned.
    destruct (Hall i a Ha) as [Hi Hresp]. split; [done|]. split; [|done].
    by eapply lookup_lt_Some. }
  assert (Hfull : length got = length audios /\ run.2 = Returned tt).
  { destruct run.2 as [[]|e|b|]; [done| |done|].
    - destruct Hr as (Hlt & ex & Hex & _).
      destruct (lookup_lt_is_Some_2 audios (length got) Hlt) as [a Ha].
      rewrite (Hout _ _ Ha) in Hex. done.
    - destruct Hr as (Hlt & Hex).
      destruct (lookup_lt_is_Some_2 audios (length got) Hlt) as [a Ha].
      rewrite (Hout _ _ Ha) in Hex. done. }
  destruct Hfull as [Hgot Hrun].
  assert (got = audios) as ->.
  { apply list_eq_same_length with (length audios); [done..|].
    intros i a a' _ Ha Ha'. apply Hok in Ha. rewrite (Hout _ _ Ha') in Ha.
    congruence. }
  split; [done|]. split; [done|]. rewrite Hy. apply concat_segment_yields.
Qed.

(** C7, as amended. In every run, each chunk yielded has at least 1 and
    at most 1024 bytes, and a chunk that is followed by another chunk of
    its own segment has exactly 1024: only the last chunk of a segment,
    of any segment, may be shorter. *)
Theorem tts_chunk_sizes
    (g : Namespace) (sched : list nat) (payload : nat) (endpoint : PyVal)
    (w : World) (k i : nat) (c : list byte) :
  let ys := yields (new_events w (_tts_invoke_streaming g sched payload endpoint w).1) in
  ys !! k = Some (i, c) ->
  (1 <= length c /\ length c <= 1024)
  /\ forall c', ys !! S k = Some (i, c') -> length c = 1024.
Proof.
  intros ys Hk. subst ys.
  destruct (tts_yields_shape g sched payload endpoint w) as [audios Hy].
  rewrite Hy in *. by apply segment_yields_sizes.
Qed.

(** One payload object serves every segment: each dispatch refers to the
    payload the caller passed, and each call to the endpoint, of the long
    and of the short path, sends the content that payload has at the end
    of the run. *)
Lemma tts_dispatch_shares_the_payload (g : Namespace) (sched : list nat)
    (payload : nat) (endpoint : PyVal) (w : World) :
  let run := _tts_invoke_streaming g sched payload endpoint w in
  (forall i p, (i, p) ∈ submissions (new_events w run.1) -> p = payload)
  /\ (forall i d, (i, d) ∈ endpoint_calls (new_events w run.1) ->
        w_heap run.1 !! payload = Some d).
Proof.
  intros run. subst run.
  destruct (tts_run_cases g sched payload endpoint w)
    as [[Hw _]|[(d & Hd & Hw & Hr)
               |(d & sentences & new & audios & t & Hd & Hs & Hne & Hw & Hnd & Hin
                 & Hlen & Hok & Hy & Hc & Hsb & Hdl & Hr)]].
  - rewrite Hw, new_events_refl. split; intros ?? Hin; by apply elem_of_nil in Hin.
  - rewrite Hw, new_events_add_trace, submissions_app, endpoint_calls_app.
    assert (Hwe : submissions (worker_events g (w_self w) 0 d endpoint) = []
                  /\ (endpoint_calls (worker_events g (w_self w) 0 d endpoint) = []
                      \/ endpoint_calls (worker_events g (w_self w) 0 d endpoint)
                         = [(0, d)])).
    { unfold worker_events.
      destruct (sagemaker_client (w_self w)), (g !! "json"); auto. }
    destruct Hwe as [-> Hwc].
    assert (Hse : submissions (match worker_result g (w_self w) 0 d endpoint with
                               | Ok resp => segment_events g 0 resp
                               | Raise _ => []
                               end) = []
                  /\ endpoint_calls (match worker_result g (w_self w) 0 d endpoint with
                                     | Ok resp => segment_events g 0 resp
                                     | Raise _ => []
                                     end) = []).
    { destruct (worker_result g (w_self w) 0 d endpoint) as [resp|e]; [|done].
      by destruct (quiet_segment_events g 0 resp) as (-> & -> & _). }
    destruct Hse as [-> ->]. rewrite app_nil_r. cbn [app w_heap add_trace].
    split; [intros ?? Hin; by apply elem_of_nil in Hin|].
    intros i d0 Hin. destruct Hwc as [Hwc|Hwc]; rewrite Hwc in Hin.
    + by apply elem_of_nil in Hin.
    + apply list_elem_of_singleton in Hin as [= -> ->]. done.
  - rewrite Hw, new_events_mk, !submissions_app, !endpoint_calls_app. cbn [w_heap].
    destruct (quiet_submits payload (seq 0 (length sentences))) as (_ & -> & _ & ->).
    destruct (quiet_calls g (w_self w) (written d sentences) endpoint new)
      as (_ & _ & -> & Hcalls).
    rewrite Hsb, Hc, !app_nil_r. cbn [app]. split.
    + intros i p Hip. by apply list_elem_of_fmap in Hip as (j & [= -> ->] & _).
    + intros i d0 Hid. rewrite lookup_insert_eq.
      destruct Hcalls as [Hcalls|Hcalls]; rewrite Hcalls in Hid.
      * by apply list_elem_of_fmap in Hid as (j & [= -> ->] & _).
      * by apply elem_of_nil in Hid.
Qed.

(** In a run that dispatches, every call to the endpoint carries the
    text of the last sentence, whichever segment it is made for. *)
Lemma tts_dispatched_text_is_last_sentence (g : Namespace) (sched : list nat)
    (payload : nat) (endpoint : PyVal) (w : World) (k p : nat) :
  let run := _tts_invoke_streaming g sched payload endpoint w in
  (k, p) ∈ submissions (new_events w run.1) ->
  exists d sentences,
    w_heap w !! payload = Some d
    /\ _split_text_into_sentences (dict_get d "content_text") 600 = Ok sentences
    /\ forall i d', (i, d') ∈ endpoint_calls (new_events w run.1) ->
          Some (dict_get d' "tts_text") = VStr <$> last sentences.
Proof.
  intros run Hsub.
  destruct (tts_dispatching_run g sched payload endpoint w k p Hsub)
    as (d & sentences & audios & Hd & Hs & Hheap & Hsubs & _).
  fold run in Hheap, Hsubs.
  exists d, sentences. split; [done|]. split; [done|].
  intros i d' Hcall.
  destruct (tts_dispatch_shares_the_payload g sched payload endpoint w) as [_ Hshare].
  apply Hshare in Hcall. fold run in Hcall. rewrite Hheap in Hcall.
  injection Hcall as <-.
  destruct (last sentences) as [s|] eqn:Hlast.
  - by rewrite (written_last d sentences s Hlast).
  - apply last_None in Hlast. subst sentences.
    rewrite Hsubs in Hsub. by apply elem_of_nil in Hsub.
Qed.

End LongPathClaims.

(** ** The claims at concrete inputs *)

(** C3, at the specification's example: in mode PresetVoice with the role
    ["r1"], the payload holds the text and the role and nothing else. *)
Lemma build_tts_payload_documented_fields_witness :
  exists d : Dict,
    _build_tts_payload (VStr "Hello world.") (VStr (value PresetVoice))
      (VStr "r1") VNone VNone VNone VNone = Ok d
    /\ dom d = {["tts_text"]} ∪ list_to_set (required_fields PresetVoice)
    /\ d !! "tts_text" = Some (VStr "Hello world.")
    /\ forall f, f ∈ required_fields PresetVoice ->
         d !! f = Some (companion (VStr "r1") VNone VNone VNone VNone f).
Proof.
  apply (build_tts_payload_documented_fields (VStr "Hello world.") (VStr "r1")
           VNone VNone VNone VNone PresetVoice).
  reflexivity.
Defined.

(** C4, at a supported mode whose prompt audio is missing. *)
Lemma build_tts_payload_invalid_params_witness :
  _build_tts_payload (VStr "Hello world.") (VStr "CloneVoice") VNone
    (VStr "a prompt") VNone VNone VNone
  = Raise (mkExn RuntimeError ("Invalid params for " +:+ py_str (VStr "CloneVoice"))).
Proof.
  apply (build_tts_payload_invalid_params (VStr "Hello world.") (VStr "CloneVoice")
           VNone (VStr "a prompt") VNone VNone VNone).
  reflexivity.
Defined.

(** C1, at a text of two segments: both segments are dispatched with the
    one payload object of the caller, and both calls to the endpoint
    carry the text of the last segment; the text of the first segment is
    never sent. *)
Lemma tts_two_segments_share_one_payload :
  sentence_split (VStr (text_of_sentences 2)) 600
  = Ok [sentence_of 0; sentence_of 1]
  /\ submissions (new_events two_segment_world two_segment_run.1) = [(0, 0); (1, 0)]
  /\ ~ own_payload_each (submissions (new_events two_segment_world two_segment_run.1))
  /\ (fun '(i, d) => (i, dict_get d "tts_text"))
       <$> endpoint_calls (new_events two_segment_world two_segment_run.1)
     = [(1, VStr (sentence_of 1)); (0, VStr (sentence_of 1))]
  /\ two_segment_run.2 = Returned tt.
Proof.
  assert (Hsub : submissions (new_events two_segment_world two_segment_run.1)
                 = [(0, 0); (1, 0)]) by (vm_compute; reflexivity).
  split; [vm_compute; reflexivity|]. split; [exact Hsub|]. split.
  { rewrite Hsub. unfold own_payload_each. simpl. intros Hnd.
    apply NoDup_cons in Hnd as [Hnotin _]. apply Hnotin. constructor. }
  split; vm_compute; reflexivity.
Qed.

(** C2, at a text of two segments whose second call completes first. *)
Lemma tts_emits_segments_in_order_witness :
  two_segment_run.2 = Returned tt
  /\ yields (new_events two_segment_world two_segment_run.1)
     = segment_yields 0 [audio_of_size 3 0; audio_of_size 3 1]
  /\ concat (snd <$> yields (new_events two_segment_world two_segment_run.1))
     = concat [audio_of_size 3 0; audio_of_size 3 1].
Proof.
  apply (tts_emits_segments_in_order (host := example_host [] (audio_of_size 3))
           (patched_globals (text_of_sentences 2)) [1; 0] 0 (VStr "tts-endpoint")
           two_segment_world
           (<["tts_text" := VStr (sentence_of 1)]> (long_payload 2))
           [audio_of_size 3 0; audio_of_size 3 1]).
  - simpl. lia.
  - vm_compute. reflexivity.
  - vm_compute. reflexivity.
  - intros i a Hi. destruct i as [|[|i]]; simpl in Hi; [| |discriminate Hi].
    + injection Hi as <-. split; [repeat constructor|].
      eexists. split; vm_compute; reflexivity.
    + injection Hi as <-. split; [repeat constructor|].
      eexists. split; vm_compute; reflexivity.
Defined.

(** C6, at a text of three segments whose second call fails: the chunks
    of the first segment are delivered, nothing of the third is. *)
Lemma tts_failed_segment_ends_stream_witness :
  (exists msg, three_segment_run.2 = Raised (mkExn InvokeBadRequestError msg))
  /\ (forall i c,
        (i, c) ∈ yields (new_events three_segment_world three_segment_run.1) ->
        i < 1)
  /\ exists audios,
       length audios <= 1
       /\ yields (new_events three_segment_world three_segment_run.1)
          = segment_yields 0 audios
       /\ (forall j a, audios !! j = Some a ->
             exists resp,
               worker_result (host := example_host [1] (audio_of_size 3))
                 (patched_globals (text_of_sentences 3)) (w_self three_segment_world)
                 j (<["tts_text" := VStr (sentence_of 2)]> (long_payload 3))
                 (VStr "tts-endpoint") = Ok resp
               /\ segment_audio (host := example_host [1] (audio_of_size 3))
                    (patched_globals (text_of_sentences 3)) j resp = Ok a)
       /\ (length audios = 1 ->
           three_segment_run.2
           = Raised (mkExn InvokeBadRequestError
                       (exn_str (mkExn (OtherError "ClientError")
                                   "endpoint unavailable")))).
Proof.
  apply (tts_failed_segment_ends_stream (host := example_host [1] (audio_of_size 3))
           (patched_globals (text_of_sentences 3)) [2; 1; 0] 0 (VStr "tts-endpoint")
           three_segment_world 1
           (<["tts_text" := VStr (sentence_of 2)]> (long_payload 3))
           (mkExn (OtherError "ClientError") "endpoint unavailable")).
  - vm_compute. repeat constructor.
  - vm_compute. reflexivity.
  - vm_compute. reflexivity.
  - intros i Hi. destruct i as [|[|i]]; [repeat constructor..|lia].
Defined.

(** C7, as the specification words it, fails at a text of two segments
    with 3 bytes of audio each: the only chunk of the first segment has 3
    bytes and is not the last chunk of the run. *)
Lemma tts_short_chunk_before_final_segment :
  yields (new_events two_segment_world two_segment_run.1)
  = [(0, [x01; x01; x01]); (1, [x02; x02; x02])]
  /\ ~ full_except_final (yields (new_events two_segment_world two_segment_run.1)).
Proof.
  assert (Hy : yields (new_events two_segment_world two_segment_run.1)
               = [(0, [x01; x01; x01]); (1, [x02; x02; x02])])
    by (vm_compute; reflexivity).
  split; [exact Hy|]. rewrite Hy. intros Hclaim.
  specialize (Hclaim 0 0 [x01; x01; x01] eq_refl ltac:(simpl; lia)).
  discriminate Hclaim.
Qed.

(** C7 as amended, at the specification's first example with 2050 bytes
    of audio: the first chunk has 1024 bytes. *)
Lemma tts_chunk_sizes_witness :
  (1 <= length (replicate 1024 x01) /\ length (replicate 1024 x01) <= 1024)
  /\ forall c',
       yields (new_events hello_world (hello_run (patched_globals "Hello world.")).1)
         !! 1 = Some (0, c') ->
       length (replicate 1024 x01) = 1024.
Proof.
  apply (tts_chunk_sizes (host := example_host [] (audio_of_size 2050))
           (patched_globals "Hello world.") [] 0 (VStr "tts-endpoint")
           hello_world 0 0 (replicate 1024 x01)).
  vm_compute. reflexivity.
Defined.

(** C8, at the specification's first example.  In the module as the file
    leaves it the run raises at the first statement of the [try], before
    any call; with the stale names bound and [json] still not imported it
    raises inside [_invoke_sagemaker], before the call; only with every
    name bound does it make its one call and yield the audio in chunks of
    1024, 1024 and 2 bytes. *)
Lemma tts_short_text_makes_no_call_as_shipped :
  hello_run module_globals
  = (hello_world,
     Raised (mkExn InvokeBadRequestError "name 'model' is not defined"))
  /\ endpoint_calls (new_events hello_world (hello_run module_globals).1) = []
  /\ hello_run (delete "json" (patched_globals "Hello world."))
     = (hello_world,
        Raised (mkExn InvokeBadRequestError "name 'json' is not defined"))
  /\ endpoint_calls
       (new_events hello_world (hello_run (patched_globals "Hello world.")).1)
     = [(0, hello_payload)]
  /\ (fun '(i, c) => (i, length c))
       <$> yields (new_events hello_world
                     (hello_run (patched_globals "Hello world.")).1)
     = [(0, 1024); (0, 1024); (0, 2)].
Proof. repeat split; vm_compute; reflexivity. Qed.

(** ** The errors of the synthesizer *)

Section ErrorsClaim.
Context {host : Py.Platform}.

(** C5, as amended.  On every platform, whatever the namespace, the
    instance, the payload and the order of the pool: the handler adds no
    effect; an [Exception] raised anywhere in the body of the [try]
    leaves the synthesizer as one [InvokeBadRequestError] with the
    message of that exception, and no [Exception] of another class
    leaves it; an exception that is not an [Exception] is not caught and
    leaves it as it is.  The steps on a segment are the endpoint
    invocation, the read of the response field and the audio retrieval:
    what the first of them that fails raises is what the segment
    raises.  For a short text the run ends as its one segment ends; for
    a long text whose segments before [k] got through and whose calls
    up to [k] are run, it ends as segment [k] ends; and an error of the
    splitter ends the run before anything is sent.  Nothing is tried
    again: in one run each position is sent to the endpoint at most once
    and downloaded at most once. *)
Theorem tts_errors_surface_as_bad_request
    (g : Namespace) (sched : list nat) (payload : nat) (endpoint : PyVal)
    (w : World) :
  let body := tts_try_body g sched payload endpoint w in
  let run := _tts_invoke_streaming g sched payload endpoint w in
  let ev := new_events w run.1 in
  run.1 = body.1
  /\ (forall ex, body.2 = Raised ex ->
        run.2 = Raised (mkExn InvokeBadRequestError (exn_str ex)))
  /\ (forall b, body.2 = RaisedBase b -> run.2 = RaisedBase b)
  /\ (forall e, run.2 = Raised e ->
        exn_class e = InvokeBadRequestError
        /\ exists ex, body.2 = Raised ex /\ exn_str e = exn_str ex)
  /\ (forall self i d,
        (forall e, call_outcome g self i d endpoint = Raised e ->
           segment_try g self i d endpoint = Raised e)
        /\ (forall resp e vl,
              call_outcome g self i d endpoint = Returned resp ->
              g !! "logger" = Some vl ->
              json_get resp "s3_presign_url" = Raise e ->
              segment_try g self i d endpoint = Raised e)
        /\ (forall resp url e vl,
              call_outcome g self i d endpoint = Returned resp ->
              g !! "logger" = Some vl ->
              json_get resp "s3_presign_url" = Ok url ->
              Py.requests_get_content i url = Raised e ->
              segment_try g self i d endpoint = Raised e))
  /\ (forall vm vc vt n d,
        g !! "model" = Some vm -> g !! "credentials" = Some vc ->
        g !! "content_text" = Some vt -> py_len vt = Ok n -> n <= 600 ->
        w_heap w !! payload = Some d ->
        (forall e, segment_try g (w_self w) 0 d endpoint = Raised e ->
           run.2 = Raised (mkExn InvokeBadRequestError (exn_str e)))
        /\ (forall b, segment_try g (w_self w) 0 d endpoint = RaisedBase b ->
              run.2 = RaisedBase b))
  /\ (forall vm vc vt n d,
        g !! "model" = Some vm -> g !! "credentials" = Some vc ->
        g !! "content_text" = Some vt -> py_len vt = Ok n -> 600 < n ->
        w_heap w !! payload = Some d ->
        (forall e,
           Py._split_text_into_sentences (dict_get d "content_text") 600
           = Raised e ->
           run = (w, Raised (mkExn InvokeBadRequestError (exn_str e))))
        /\ (forall b,
              Py._split_text_into_sentences (dict_get d "content_text") 600
              = RaisedBase b ->
              run = (w, RaisedBase b))
        /\ (forall sentences k,
              Py._split_text_into_sentences (dict_get d "content_text") 600
              = Returned sentences ->
              k < length sentences ->
              (forall i, i <= k -> i ∈ sched) ->
              (forall i, i < k ->
                 exists a, segment_try g (w_self w) i (written d sentences) endpoint
                           = Returned a) ->
              (forall e,
                 segment_try g (w_self w) k (written d sentences) endpoint
                 = Raised e ->
                 run.2 = Raised (mkExn InvokeBadRequestError (exn_str e)))
              /\ (forall b,
                    segment_try g (w_self w) k (written d sentences) endpoint
                    = RaisedBase b ->
                    run.2 = RaisedBase b)))
  /\ NoDup (fst <$> endpoint_calls ev)
  /\ NoDup (downloads ev).
Proof.
  intros body run ev. subst body run ev.
  rewrite invoke_streaming_on_platform. cbn [fst snd].
  split; [done|]. split; [by intros ex ->|]. split; [by intros b ->|]. split.
  { intros e He.
    destruct (tts_try_body g sched payload endpoint w).2 as [[]|ex|b|];
      try done. injection He as <-. eauto. }
  split.
  { intros self i d. unfold segment_try, fetch_outcome. split; [|split].
    - by intros e ->.
    - intros resp e vl -> Hl Hget. cbn [and_then]. by rewrite Hl, Hget.
    - intros resp url e vl -> Hl Hget Hdl. cbn [and_then].
      by rewrite Hl, Hget. }
  split.
  { intros vm vc vt n d Hm Hc Ht Hl Hn Hd.
    rewrite (short_path_on_platform g sched payload endpoint w vm vc vt n d)
      by done.
    cbn [snd]. split; [by intros e ->|by intros b ->]. }
  split.
  { intros vm vc vt n d Hm Hc Ht Hl Hn Hd.
    assert (Hstop : forall o : Outcome (list string),
              (forall sentences, o <> Returned sentences) ->
              Py._split_text_into_sentences (dict_get d "content_text") 600 = o ->
              tts_try_body g sched payload endpoint w
              = (w, and_then o (fun _ => Returned tt))).
    { intros o Ho Hsplit. unfold tts_try_body.
      rewrite bind_run, load_global_run, Hm, bind_run, load_global_run, Hc,
        bind_run, load_global_run, Ht, bind_run, lift_run, Hl.
      cbn [outcome_of]. unfold _get_model_word_limit.
      rewrite bool_decide_eq_true_2 by done.
      rewrite bind_run. unfold deref at 1. rewrite Hd.
      rewrite bind_run, call_run, Hsplit.
      destruct o as [sentences| | |]; [by destruct (Ho sentences)|done..]. }
    split; [|split].
    - intros e He. by rewrite (Hstop (Raised e)).
    - intros b Hb. by rewrite (Hstop (RaisedBase b)).
    - intros sentences k Hsplit Hk Hsched Hbefore.
      destruct (long_path_on_platform g sched payload endpoint w vm vc vt n d
                  sentences)
        as (new & m & t & _ & _ & _ & Hlen & Hok & _ & _ & _ & Hr); try done.
      { intros ->. simpl in Hk. lia. }
      assert (Hstep : forall i, i <= k ->
                step_outcome g
                  (futures_of g (w_self w) (written d sentences) endpoint
                     (length sentences) sched) i
                = segment_try g (w_self w) i (written d sentences) endpoint).
      { intros i Hi. rewrite step_outcome_futures_of.
        rewrite bool_decide_eq_true_2; [done|]. split; [by apply Hsched|lia]. }
      assert (Hend : forall o : Outcome (list byte),
                (forall a, o <> Returned a) ->
                segment_try g (w_self w) k (written d sentences) endpoint = o ->
                (tts_try_body g sched payload endpoint w).2
                = and_then o (fun _ => Returned tt)).
      { intros o Ho Hseg.
        assert (Hm' : m = k).
        { destruct (decide (m = k)) as [|Hne]; [done|]. exfalso.
          destruct (decide (k < m)) as [Hlt|Hge].
          - destruct (Hok k Hlt) as [a Ha]. rewrite Hstep, Hseg in Ha by lia.
            by destruct (Ho a).
          - destruct Hr as [[-> _]|(_ & Hno & _)]; [lia|].
            destruct (Hbefore m) as [a Ha]; [lia|].
            apply (Hno a). rewrite Hstep by lia. done. }
        subst m. destruct Hr as [[-> _]|(_ & _ & ->)]; [lia|].
        by rewrite Hstep, Hseg by lia. }
      split.
      + intros e He. by rewrite (Hend (Raised e)).
      + intros b Hb. by rewrite (Hend (RaisedBase b)). }
  destruct (try_body_cases_on_platform g sched payload endpoint w)
    as [[o Ho]|[(vm & vc & vt & n & d & Hm & Hc & Ht & Hl & Hn & Hd)
               |(vm & vc & vt & n & d & sentences & Hm & Hc & Ht & Hl & Hn & Hd
                 & Hs & Hne)]].
  - rewrite Ho. cbn [fst]. rewrite new_events_refl. split; constructor.
  - rewrite (short_path_on_platform g sched payload endpoint w vm vc vt n d)
      by done.
    cbn [fst]. rewrite new_events_add_trace, endpoint_calls_app, downloads_app.
    destruct (quiet_call_events g (w_self w) 0 d endpoint)
      as (_ & -> & _ & Hcall).
    assert (Hcalls : endpoint_calls (call_events g (w_self w) 0 d endpoint) = []
                     \/ endpoint_calls (call_events g (w_self w) 0 d endpoint)
                        = [(0, d)]).
    { destruct Hcall as [-> | ->]; auto. }
    assert (Hrest : exists t,
              match call_outcome g (w_self w) 0 d endpoint with
              | Returned resp => fetch_events g 0 resp
              | _ => []
              end = t
              /\ endpoint_calls t = []
              /\ (downloads t = [] \/ downloads t = [0])).
    { destruct (call_outcome g (w_self w) 0 d endpoint) as [resp|e|b|];
        try (by exists []; auto).
      exists (fetch_events g 0 resp).
      destruct (quiet_fetch_events g 0 resp) as (? & _ & ?). auto. }
    destruct Hrest as (t & -> & -> & Hdl). rewrite app_nil_r. cbn [app]. split.
    + destruct Hcalls as [-> | ->]; [constructor|apply NoDup_singleton].
    + destruct Hdl as [-> | ->]; [constructor|apply NoDup_singleton].
  - destruct (long_path_on_platform g sched payload endpoint w vm vc vt n d
                sentences)
      as (new & m & t & Hw & Hnd & _ & _ & _ & Hc' & _ & [m' Hdl] & _);
      try done.
    rewrite Hw, new_events_mk, !endpoint_calls_app, !downloads_app.
    destruct (quiet_submits payload (seq 0 (length sentences)))
      as (_ & -> & -> & _).
    destruct (quiet_pool_calls g (w_self w) (written d sentences) endpoint new)
      as (_ & -> & _ & Hcalls).
    rewrite Hc', Hdl, app_nil_r. cbn [app]. split; [|apply NoDup_seq].
    destruct Hcalls as [-> | ->]; [|constructor].
    rewrite <- list_fmap_compose.
    change (fst ∘ (fun i : nat => (i, written d sentences))) with (@id nat).
    by rewrite list_fmap_id.
Qed.

End ErrorsClaim.

(** C5 as the specification words it fails on a platform where the
    download is interrupted from the keyboard: at the specification's
    first example the call is made, the download raises
    [KeyboardInterrupt], which is not an [Exception], and that is what
    leaves the synthesizer, not an [InvokeBadRequestError]. *)
Lemma tts_interrupt_escapes_unwrapped :
  interrupted_run.2 = RaisedBase (mkBase "KeyboardInterrupt" "")
  /\ endpoint_calls (new_events hello_world interrupted_run.1)
     = [(0, hello_payload)]
  /\ ~ only_bad_requests_escape interrupted_run.2.
Proof.
  assert (Hrun : interrupted_run.2 = RaisedBase (mkBase "KeyboardInterrupt" ""))
    by (vm_compute; reflexivity).
  split; [exact Hrun|]. split; [vm_compute; reflexivity|].
  rewrite Hrun. intros [].
Qed.

(** C5 as amended, at a text of three segments whose second call fails
    with an [Exception] of the endpoint while all three calls are run:
    the first segment gets through and the run ends with the message of
    that failure. *)
Lemma tts_errors_surface_as_bad_request_witness :
  three_segment_run.2
  = Raised (mkExn InvokeBadRequestError "endpoint unavailable").
Proof.
  destruct (tts_errors_surface_as_bad_request
              (host := example_host [1] (audio_of_size 3))
              (patched_globals (text_of_sentences 3)) [2; 1; 0] 0
              (VStr "tts-endpoint") three_segment_world)
    as (_ & _ & _ & _ & _ & _ & Hlong & _).
  destruct (Hlong (VStr "cosyvoice") (VObj "dict") (VStr (text_of_sentences 3))
              1203 (long_payload 3))
    as (_ & _ & Hsegment);
    [vm_compute; reflexivity | vm_compute; reflexivity | vm_compute; reflexivity
    | vm_compute; reflexivity | lia | vm_compute; reflexivity |].
  destruct (Hsegment [sentence_of 0; sentence_of 1; sentence_of 2] 1)
    as [Hraised _].
  - vm_compute. reflexivity.
  - simpl. lia.
  - intros i Hi. destruct i as [|[|i]]; [repeat constructor..|lia].
  - intros i Hi. assert (i = 0) as -> by lia.
    eexists. vm_compute. reflexivity.
  - apply (Hraised (mkExn (OtherError "ClientError") "endpoint unavailable")).
    vm_compute. reflexivity.
Defined.

(** ** [_invoke] on an instance that has a client *)

Section InvokeWithClient.
Context {host : Host}.

(** With a client on the instance, [_invoke] logs, builds the payload and
    fails on its last line, or earlier on the payload or on [logger]. *)
Lemma invoke_with_client_run (g : Namespace) (model tenant_id : PyVal)
    (credentials : Dict) (content_text voice user : PyVal) (w : World)
    (c : Client) :
  sagemaker_client (w_self w) = Some c ->
  _invoke g model tenant_id credentials content_text voice user w
  = match g !! "logger" with
    | None => (w, Raised (mkExn NameError "name 'logger' is not defined"))
    | Some _ =>
        (add_trace w
           (EvLog <$> invoke_log_lines model tenant_id content_text voice user),
         Raised (invoke_ending credentials content_text))
    end.
Proof.
  intros Hclient. unfold _invoke, logger_warning.
  destruct (g !! "logger") as [lg|] eqn:Hlogger.
  2: { by rewrite !bind_run, load_global_run, Hlogger. }
  repeat (rewrite bind_run, bind_run, load_global_run, Hlogger, emit_run;
          cbv beta iota).
  rewrite !add_trace_app. cbn [app].
  rewrite bind_run. cbn [get_self w_self add_trace]. rewrite Hclient.
  rewrite (bool_decide_eq_true_2 (is_Some (Some c))) by eauto.
  cbn [negb]. rewrite bind_run. cbn [mret M_ret].
  rewrite bind_run, lift_run.
  unfold invoke_ending.
  destruct (_build_tts_payload _ _ _ _ _ _ _) as [d|e]; cbn [outcome_of]; [|done].
  by rewrite lift_run.
Qed.

End InvokeWithClient.

(** * Further properties *)

(** ** The payload builder and the error table *)

Lemma build_tts_payload_cases
    (content_text model_type model_role prompt_text prompt_audio lang_tag
     instruct_text : PyVal) :
  (documented_combination model_type model_role prompt_text prompt_audio
     lang_tag instruct_text = true
   /\ exists d, _build_tts_payload content_text model_type model_role
                  prompt_text prompt_audio lang_tag instruct_text = Ok d)
  \/ (documented_combination model_type model_role prompt_text prompt_audio
        lang_tag instruct_text = false
      /\ _build_tts_payload content_text model_type model_role prompt_text
           prompt_audio lang_tag instruct_text
         = Raise (mkExn RuntimeError ("Invalid params for " +:+ py_str model_type))).
Proof.
  unfold documented_combination, mode_of, _build_tts_payload. simpl.
  destruct (py_eq model_type (VStr "PresetVoice")) eqn:E1; simpl.
  { apply bool_decide_eq_true in E1 as ->. unfold companion; simpl.
    rewrite andb_true_r. destruct (truthy model_role); simpl; eauto. }
  destruct (py_eq model_type (VStr "CloneVoice")) eqn:E2; simpl.
  { apply bool_decide_eq_true in E2 as ->. unfold companion; simpl.
    rewrite andb_true_r.
    destruct (truthy prompt_text), (truthy prompt_audio); simpl; eauto. }
  destruct (py_eq model_type (VStr "CloneVoice_CrossLingual")) eqn:E3; simpl.
  { apply bool_decide_eq_true in E3 as ->. unfold companion; simpl.
    rewrite andb_true_r.
    destruct (truthy prompt_audio), (truthy lang_tag); simpl; eauto. }
  destruct (py_eq model_type (VStr "InstructVoice")) eqn:E4; simpl.
  { apply bool_decide_eq_true in E4 as ->. unfold companion; simpl.
    rewrite andb_true_r.
    destruct (truthy model_role), (truthy instruct_text); simpl; eauto. }
  right. eauto.
Qed.

Lemma mode_of_Some (model_type : PyVal) (m : TTSModelType) :
  mode_of model_type = Some m -> model_type = VStr (value m).
Proof.
  unfold mode_of. simpl.
  destruct (py_eq model_type (VStr "PresetVoice")) eqn:E1;
    [apply bool_decide_eq_true in E1; by intros [= <-]|].
  destruct (py_eq model_type (VStr "CloneVoice")) eqn:E2;
    [apply bool_decide_eq_true in E2; by intros [= <-]|].
  destruct (py_eq model_type (VStr "CloneVoice_CrossLingual")) eqn:E3;
    [apply bool_decide_eq_true in E3; by intros [= <-]|].
  destruct (py_eq model_type (VStr "InstructVoice")) eqn:E4;
    [apply bool_decide_eq_true in E4; by intros [= <-]|].
  discriminate.
Qed.

(** X1. Whatever payload [_build_tts_payload] returns holds the text it
    was given under ["tts_text"], two or three keys in all, and under
    every other key a value that Python takes as true: no [None] and no
    empty string is ever put into a payload, and the mode was one of the
    four mode strings. *)
Theorem build_tts_payload_result_is_well_formed
    (content_text model_type model_role prompt_text prompt_audio lang_tag
     instruct_text : PyVal) (d : Dict) :
  _build_tts_payload content_text model_type model_role prompt_text
    prompt_audio lang_tag instruct_text = Ok d ->
  d !! "tts_text" = Some content_text
  /\ (size d = 2 \/ size d = 3)
  /\ (forall k v, d !! k = Some v -> k <> "tts_text" -> truthy v = true)
  /\ d !! "content_text" = None
  /\ exists m, model_type = VStr (value m).
Proof.
  intros Hb.
  destruct (build_tts_payload_cases content_text model_type model_role
              prompt_text prompt_audio lang_tag instruct_text)
    as [[Hdoc _]|[_ Hraise]]; [|congruence].
  unfold documented_combination in Hdoc.
  destruct (mode_of model_type) as [m|] eqn:Hm; [|discriminate].
  apply mode_of_Some in Hm as ->.
  destruct m; simpl in Hdoc; unfold companion in Hdoc; simpl in Hdoc;
    repeat (apply andb_prop in Hdoc as [? Hdoc]);
    unfold _build_tts_payload in Hb; simpl in Hb;
    repeat match goal with
           | Ht : truthy _ = true |- _ => rewrite Ht in Hb; revert Ht
           end;
    simpl in Hb; injection Hb as <-; intros.
  all: split; [done|].
  all: split; [first [by left | by right]|].
  all: split;
    [intros k v Hk Hne;
     rewrite ?lookup_insert_Some, lookup_singleton_Some in Hk;
     intuition (subst; congruence)|].
  all: split; [done|].
  - by exists PresetVoice.
  - by exists CloneVoice.
  - by exists CloneVoice_CrossLingual.
  - by exists InstructVoice.
Qed.

Lemma build_tts_payload_result_is_well_formed_witness :
  ({[ "tts_text" := VStr "Hello world."; "prompt_audio" := VStr "s3://p.wav";
      "lang_tag" := VStr "<|en|>" ]} : Dict) !! "tts_text" = Some (VStr "Hello world.")
  /\ (size ({[ "tts_text" := VStr "Hello world."; "prompt_audio" := VStr "s3://p.wav";
               "lang_tag" := VStr "<|en|>" ]} : Dict) = 2
      \/ size ({[ "tts_text" := VStr "Hello world."; "prompt_audio" := VStr "s3://p.wav";
                  "lang_tag" := VStr "<|en|>" ]} : Dict) = 3)
  /\ (forall k v,
        ({[ "tts_text" := VStr "Hello world."; "prompt_audio" := VStr "s3://p.wav";
            "lang_tag" := VStr "<|en|>" ]} : Dict) !! k = Some v ->
        k <> "tts_text" -> truthy v = true)
  /\ ({[ "tts_text" := VStr "Hello world."; "prompt_audio" := VStr "s3://p.wav";
         "lang_tag" := VStr "<|en|>" ]} : Dict) !! "content_text" = None
  /\ exists m, VStr "CloneVoice_CrossLingual" = VStr (value m).
Proof.
  apply (build_tts_payload_result_is_well_formed (VStr "Hello world.")
           (VStr "CloneVoice_CrossLingual") VNone VNone (VStr "s3://p.wav")
           (VStr "<|en|>") VNone).
  reflexivity.
Defined.

Section TableProperties.
Context {host : Host}.

(** X3. The errors the module raises outside the synthesizer are not in
    the table: the [RuntimeError] of [_build_tts_payload] is listed under
    no unified error, and so is whatever [_invoke] raises when [logger]
    is unbound, and what it raises once a client is present and the
    credentials are in order (the [TypeError] of its last line). *)
Theorem payload_and_invoke_errors_are_not_listed
    (g : Namespace) (model tenant_id : PyVal) (credentials : Dict)
    (content_text voice user : PyVal) (w : World) :
  (forall model_type model_role prompt_text prompt_audio lang_tag
          instruct_text e,
     _build_tts_payload content_text model_type model_role prompt_text
       prompt_audio lang_tag instruct_text = Raise e ->
     listed_under (exn_class e) = [])
  /\ (forall e,
        g !! "logger" = None ->
        (_invoke g model tenant_id credentials content_text voice user w).2
        = Raised e ->
        listed_under (exn_class e) = [])
  /\ (forall e c,
        sagemaker_client (w_self w) = Some c ->
        (_invoke g model tenant_id credentials content_text voice user w).2
        = Raised e ->
        listed_under (exn_class e) = []).
Proof.
  assert (Hbuild : forall ct model_type model_role prompt_text prompt_audio
                     lang_tag instruct_text e,
            _build_tts_payload ct model_type model_role prompt_text
              prompt_audio lang_tag instruct_text = Raise e ->
            listed_under (exn_class e) = []).
  { intros ct mt mr pt pa lt it e He.
    destruct (build_tts_payload_cases ct mt mr pt pa lt it)
      as [[_ [d Hd]]|[_ Hr]]; [congruence|].
    rewrite Hr in He. by injection He as <-. }
  split; [by eauto|]. split.
  - intros e Hlogger. unfold _invoke, logger_warning.
    rewrite !bind_run, load_global_run, Hlogger. cbn [snd].
    by intros [= <-].
  - intros e c Hclient. rewrite (invoke_with_client_run _ _ _ _ _ _ _ _ c) by done.
    destruct (g !! "logger"); cbn [snd]; [|by intros [= <-]].
    intros [= <-]. unfold invoke_ending.
    destruct (_build_tts_payload _ _ _ _ _ _ _) as [d|e'] eqn:Hb; [done|].
    by eapply Hbuild.
Qed.

End TableProperties.

(** ** The synthesizer: what decides its path, and its failures *)

Section SynthProperties.
Context {host : Host}.

Lemma insert_written (v : PyVal) (l : list string) :
  forall d, <["tts_text" := v]> (written d l) = <["tts_text" := v]> d.
Proof.
  induction l as [|s l IH]; intros d; [done|].
  change (written d (s :: l)) with (written (<["tts_text" := VStr s]> d) l).
  by rewrite IH, insert_insert_eq.
Qed.

Lemma written_last_insert (d : Dict) (l : list string) (s : string) :
  last l = Some s -> written d l = <["tts_text" := VStr s]> d.
Proof.
  intros [l' ->]%last_Some. by rewrite written_snoc, insert_written.
Qed.

Lemma written_other_keys (d : Dict) (l : list string) (k : string) :
  k <> "tts_text" -> written d l !! k = d !! k.
Proof.
  intros Hk. revert d. induction l as [|s l IH]; intros d; [done|].
  change (written d (s :: l)) with (written (<["tts_text" := VStr s]> d) l).
  by rewrite IH, lookup_insert_ne.
Qed.

(** The calls of the pool when the instance has a client and [json] is
    bound: one per completed position, with the shared payload. *)
Lemma endpoint_calls_of_workers (g : Namespace) (self : Self) (d : Dict)
    (endpoint : PyVal) (new : list nat) (client : Client) (vj : PyVal) :
  sagemaker_client self = Some client ->
  g !! "json" = Some vj ->
  endpoint_calls (new ≫= fun i => worker_events g self i d endpoint)
  = (fun i => (i, d)) <$> new.
Proof.
  intros Hc Hj. induction new as [|i new IH]; [done|].
  cbn [mbind list_bind fmap list_fmap]. rewrite endpoint_calls_app.
  unfold worker_events at 1. rewrite Hc, Hj. cbn. f_equal. apply IH.
Qed.

(** The submissions of a run on the long path. *)
Lemma submissions_of_long_run (g : Namespace) (self : Self) (d : Dict)
    (endpoint : PyVal) (payload n : nat) (new : list nat) (t : list Event) :
  submissions t = [] ->
  submissions (((fun i => EvSubmit i payload) <$> seq 0 n)
               ++ (new ≫= fun i => worker_events g self i d endpoint) ++ t)
  = (fun i => (i, payload)) <$> seq 0 n.
Proof.
  intros Ht. rewrite !submissions_app, Ht.
  destruct (quiet_submits payload (seq 0 n)) as (_ & _ & _ & ->).
  destruct (quiet_calls g self d endpoint new) as (_ & _ & -> & _).
  by rewrite !app_nil_r.
Qed.

(** X4. The synthesizer reads [model], [credentials] and [content_text]
    as module names, in this order.  The first of them that is unbound
    is reported as [InvokeBadRequestError] with the text of the
    [NameError], and a bound [content_text] that has no length with the
    text of the [TypeError]; in both cases nothing has been done: the
    instance, the payload and the trace are as before.  In the module as
    the file leaves it the name is [model]. *)
Theorem tts_fails_on_its_stale_names
    (g : Namespace) (sched : list nat) (payload : nat) (endpoint : PyVal)
    (w : World) :
  (forall before name after,
     ["model"; "credentials"; "content_text"] = before ++ name :: after ->
     (forall n, n ∈ before -> is_Some (g !! n)) ->
     g !! name = None ->
     _tts_invoke_streaming g sched payload endpoint w
     = (w, Raised (mkExn InvokeBadRequestError
                     ("name '" +:+ name +:+ "' is not defined"))))
  /\ (forall vm vc vt e,
        g !! "model" = Some vm -> g !! "credentials" = Some vc ->
        g !! "content_text" = Some vt -> py_len vt = Raise e ->
        _tts_invoke_streaming g sched payload endpoint w
        = (w, Raised (mkExn InvokeBadRequestError (exn_str e))))
  /\ (_tts_invoke_streaming module_globals sched payload endpoint w).2
     = Raised (mkExn InvokeBadRequestError "name 'model' is not defined").
Proof.
  split; [|split].
  - intros before name after Hnames Hbound Hname.
    rewrite tts_invoke_streaming_run. unfold tts_try_body.
    destruct before as [|b1 [|b2 [|b3 before]]]; simplify_eq/=.
    + by rewrite bind_run, load_global_run, Hname.
    + destruct (Hbound "model") as [vm Hm]; [by left|].
      by rewrite bind_run, load_global_run, Hm, bind_run, load_global_run, Hname.
    + destruct (Hbound "model") as [vm Hm]; [by left|].
      destruct (Hbound "credentials") as [vc Hc]; [right; by left|].
      by rewrite bind_run, load_global_run, Hm, bind_run, load_global_run, Hc,
           bind_run, load_global_run, Hname.
    + by destruct before.
  - intros vm vc vt e Hm Hc Ht Hlen.
    rewrite tts_invoke_streaming_run. unfold tts_try_body.
    by rewrite bind_run, load_global_run, Hm, bind_run, load_global_run, Hc,
         bind_run, load_global_run, Ht, bind_run, lift_run, Hlen.
  - rewrite tts_invoke_streaming_run. unfold tts_try_body.
    by rewrite bind_run, load_global_run.
Qed.

(** A long text whose splitter raises or returns no sentence. *)
Lemma tts_try_body_stops_at_split (g : Namespace) (sched : list nat)
    (payload : nat) (endpoint : PyVal) (w : World) (vm vc vt : PyVal)
    (n : nat) (d : Dict) :
  g !! "model" = Some vm ->
  g !! "credentials" = Some vc ->
  g !! "content_text" = Some vt ->
  py_len vt = Ok n ->
  600 < n ->
  w_heap w !! payload = Some d ->
  (forall sentences,
     _split_text_into_sentences (dict_get d "content_text") 600 = Ok sentences ->
     sentences = []) ->
  tts_try_body g sched payload endpoint w
  = (w, Raised match _split_text_into_sentences (dict_get d "content_text") 600 with
               | Raise e => e
               | Ok _ => mkExn ValueError "max_workers must be greater than 0"
               end).
Proof.
  intros Hm Hc Ht Hlen Hn Hd Hsplit. unfold tts_try_body.
  rewrite bind_run, load_global_run, Hm, bind_run, load_global_run, Hc,
    bind_run, load_global_run, Ht, bind_run, lift_run, Hlen.
  cbn [outcome_of]. unfold _get_model_word_limit.
  rewrite bool_decide_eq_true_2 by done.
  rewrite bind_run. unfold deref at 1. rewrite Hd.
  rewrite bind_run, call_run.
  cbn [Py._split_text_into_sentences platform_of_host].
  destruct (_split_text_into_sentences _ _) as [sentences|e]; [|done].
  rewrite (Hsplit sentences eq_refl). cbn [outcome_of].
  by rewrite bind_run, lift_run.
Qed.

(** X5. A text of at most 600 characters, in a module where the names
    are bound and on an instance with a client: the run makes one call
    with the caller's payload as it is, logs the response, downloads
    from the address the response gives and yields the audio in
    [ceil(len / 1024)] chunks, chunk [k] being the bytes from [1024 k]
    on; then it ends normally.  An empty download yields no chunk at
    all.  The completion order plays no part, and the instance and the
    payload are left as they were. *)
Theorem tts_short_text_run
    (g : Namespace) (sched : list nat) (payload : nat) (endpoint : PyVal)
    (w : World) (vm vc vt vj vl : PyVal) (n : nat) (d resp : Dict)
    (client : Client) (body : string) (a : list byte) :
  g !! "model" = Some vm ->
  g !! "credentials" = Some vc ->
  g !! "content_text" = Some vt ->
  g !! "json" = Some vj ->
  g !! "logger" = Some vl ->
  py_len vt = Ok n ->
  n <= 600 ->
  w_heap w !! payload = Some d ->
  sagemaker_client (w_self w) = Some client ->
  invoke_endpoint client 0 endpoint (json_dumps d) = Ok body ->
  json_loads body = Ok (JDict resp) ->
  requests_get_content 0 (dict_get resp "s3_presign_url") = Ok a ->
  _tts_invoke_streaming g sched payload endpoint w
  = (add_trace w
       ([EvInvokeEndpoint 0 endpoint d; EvLogResp (JDict resp);
         EvHttpGet 0 (dict_get resp "s3_presign_url")]
        ++ (EvYield 0 <$> chunks a)),
     Returned tt)
  /\ length (chunks a) = (length a + 1023) / 1024
  /\ (forall k c, chunks a !! k = Some c -> c = take 1024 (drop (k * 1024) a))
  /\ concat (chunks a) = a
  /\ (a = [] -> chunks a = []).
Proof.
  intros Hm Hc Ht Hj Hl Hlen Hn Hd Hclient Hcall Hloads Hget.
  split; [|split; [|split; [|split]]].
  - rewrite tts_invoke_streaming_run.
    rewrite (tts_short_path_run g sched payload endpoint w vm vc vt n d)
      by done.
    unfold worker_result, worker_events, segment_audio, segment_events.
    rewrite Hclient, Hj, Hcall, Hloads, Hl. cbn [json_get].
    by rewrite Hget.
  - unfold chunks. by rewrite length_chunks_of by lia.
  - intros k c Hk. unfold chunks in Hk.
    by apply lookup_chunks_of in Hk as [-> _]; [|lia].
  - unfold chunks. apply concat_chunks_of. lia.
  - by intros ->.
Qed.

(** X6. Which path a run takes is decided by the length of the module's
    [content_text], not by the text the payload holds: at 600 characters
    or fewer nothing is dispatched to the pool, the payload is untouched
    and any call made is the one call with the caller's payload; beyond
    600 characters the text under the payload's key ["content_text"] is
    split, one call per sentence is dispatched with the caller's payload,
    and the payload has had every sentence written into it in turn. *)
Theorem tts_path_is_chosen_by_the_module_text
    (g : Namespace) (sched : list nat) (payload : nat) (endpoint : PyVal)
    (w : World) (vm vc vt : PyVal) (n : nat) (d : Dict) :
  g !! "model" = Some vm ->
  g !! "credentials" = Some vc ->
  g !! "content_text" = Some vt ->
  py_len vt = Ok n ->
  w_heap w !! payload = Some d ->
  let run := _tts_invoke_streaming g sched payload endpoint w in
  let ev := new_events w run.1 in
  (n <= 600 ->
   submissions ev = [] /\ w_heap run.1 = w_heap w
   /\ (endpoint_calls ev = [] \/ endpoint_calls ev = [(0, d)]))
  /\ (600 < n ->
      forall sentences,
        _split_text_into_sentences (dict_get d "content_text") 600 = Ok sentences ->
        sentences <> [] ->
        submissions ev = (fun i => (i, payload)) <$> seq 0 (length sentences)
        /\ w_heap run.1 = <[payload := written d sentences]> (w_heap w)).
Proof.
  intros Hm Hc Ht Hlen Hd run ev. subst ev run. split.
  - intros Hn. rewrite tts_invoke_streaming_run.
    rewrite (tts_short_path_run g sched payload endpoint w vm vc vt n d)
      by done.
    cbn [fst]. rewrite new_events_add_trace, submissions_app, endpoint_calls_app.
    assert (Hs : submissions (worker_events g (w_self w) 0 d endpoint) = []).
    { unfold worker_events. by destruct (sagemaker_client _), (g !! "json"). }
    assert (He : endpoint_calls (worker_events g (w_self w) 0 d endpoint) = []
                 \/ endpoint_calls (worker_events g (w_self w) 0 d endpoint)
                    = [(0, d)]).
    { unfold worker_events.
      destruct (sagemaker_client _), (g !! "json"); cbn; auto. }
    rewrite Hs.
    destruct (worker_result g (w_self w) 0 d endpoint) as [resp|e].
    + destruct (quiet_segment_events g 0 resp) as (-> & -> & _).
      by rewrite !app_nil_r.
    + by rewrite !app_nil_r.
  - intros Hn sentences Hsplit Hne. rewrite tts_invoke_streaming_run. cbn [fst].
    destruct (tts_long_path_run g sched payload endpoint w vm vc vt n d sentences)
      as (new & audios & t & Hrun & _ & _ & _ & _ & _ & _ & Hsub & _); try done.
    rewrite Hrun, new_events_mk. split; [|done].
    by apply submissions_of_long_run.
Qed.

(** X7. When the splitter returns no sentence at all, the run fails with
    the error of a pool of zero workers, reported as
    [InvokeBadRequestError], before anything is dispatched. *)
Theorem tts_no_sentence_is_an_error
    (g : Namespace) (sched : list nat) (payload : nat) (endpoint : PyVal)
    (w : World) (vm vc vt : PyVal) (n : nat) (d : Dict) :
  g !! "model" = Some vm ->
  g !! "credentials" = Some vc ->
  g !! "content_text" = Some vt ->
  py_len vt = Ok n ->
  600 < n ->
  w_heap w !! payload = Some d ->
  _split_text_into_sentences (dict_get d "content_text") 600 = Ok [] ->
  _tts_invoke_streaming g sched payload endpoint w
  = (w, Raised (mkExn InvokeBadRequestError "max_workers must be greater than 0")).
Proof.
  intros Hm Hc Ht Hlen Hn Hd Hsplit.
  rewrite tts_invoke_streaming_run.
  rewrite (tts_try_body_stops_at_split g sched payload endpoint w vm vc vt n d)
    by (try done; intros ?; rewrite Hsplit; congruence).
  by rewrite Hsplit.
Qed.

(** X8. A payload made by [_build_tts_payload] has no key
    ["content_text"], so on the long path the splitter is handed [None]
    in place of the text: if it refuses [None], the run fails with the
    splitter's message and nothing is sent; if it answers, what is
    dispatched is what it made of [None]. *)
Theorem tts_built_payload_gives_the_splitter_none
    (g : Namespace) (sched : list nat) (payload : nat) (endpoint : PyVal)
    (w : World) (vm vc vt : PyVal) (n : nat) (d : Dict)
    (content_text model_type model_role prompt_text prompt_audio lang_tag
     instruct_text : PyVal) :
  _build_tts_payload content_text model_type model_role prompt_text
    prompt_audio lang_tag instruct_text = Ok d ->
  w_heap w !! payload = Some d ->
  g !! "model" = Some vm ->
  g !! "credentials" = Some vc ->
  g !! "content_text" = Some vt ->
  py_len vt = Ok n ->
  600 < n ->
  let run := _tts_invoke_streaming g sched payload endpoint w in
  (forall e, _split_text_into_sentences VNone 600 = Raise e ->
     run = (w, Raised (mkExn InvokeBadRequestError (exn_str e))))
  /\ (forall sentences,
        _split_text_into_sentences VNone 600 = Ok sentences ->
        sentences <> [] ->
        submissions (new_events w run.1)
        = (fun i => (i, payload)) <$> seq 0 (length sentences)).
Proof.
  intros Hbuild Hd Hm Hc Ht Hlen Hn run. subst run.
  assert (Hnone : dict_get d "content_text" = VNone).
  { unfold _build_tts_payload in Hbuild.
    repeat match type of Hbuild with
           | (if ?b then _ else _) = _ => destruct b
           end; simplify_eq; done. }
  split.
  - intros e Hsplit. rewrite <- Hnone in Hsplit.
    rewrite tts_invoke_streaming_run.
    rewrite (tts_try_body_stops_at_split g sched payload endpoint w vm vc vt n d)
      by (try done; intros ?; rewrite Hsplit; congruence).
    by rewrite Hsplit.
  - intros sentences Hsplit Hne. rewrite tts_invoke_streaming_run. cbn [fst].
    rewrite <- Hnone in Hsplit.
    destruct (tts_long_path_run g sched payload endpoint w vm vc vt n d sentences)
      as (new & audios & t & Hrun & _ & _ & _ & _ & _ & _ & Hsub & _); try done.
    rewrite Hrun, new_events_mk. by apply submissions_of_long_run.
Qed.

(** X9. What a run never touches, whatever its path and outcome: the
    instance (no client is set or replaced), every object of the heap
    other than the payload, and every key of the payload other than
    ["tts_text"]; the trace only grows.  A run that dispatches nothing
    leaves the payload as it was. *)
Theorem tts_frame
    (g : Namespace) (sched : list nat) (payload : nat) (endpoint : PyVal)
    (w : World) :
  let run := _tts_invoke_streaming g sched payload endpoint w in
  w_self run.1 = w_self w
  /\ (exists t, w_trace run.1 = w_trace w ++ t)
  /\ (forall p, p <> payload -> w_heap run.1 !! p = w_heap w !! p)
  /\ (forall k, k <> "tts_text" ->
        (w_heap run.1 !! payload) ≫= (.!! k) = (w_heap w !! payload) ≫= (.!! k))
  /\ dom (w_heap run.1) = dom (w_heap w)
  /\ (submissions (new_events w run.1) = [] -> w_heap run.1 = w_heap w).
Proof.
  intros run.
  pose proof (tts_run_cases g sched payload endpoint w) as Hcases.
  cbn zeta in Hcases. fold run in Hcases.
  destruct Hcases
    as [[Hw _]|[(d & Hd & Hw & _)|(d & sentences & new & audios & t & H)]].
  - rewrite Hw. repeat split; try done. exists []. by rewrite app_nil_r.
  - rewrite Hw. repeat split; try done. by eexists.
  - destruct H as (Hd & Hsplit & Hne & Hw & _ & _ & _ & _ & _ & _ & Hsub & _).
    rewrite Hw. cbn [w_self w_heap w_trace]. repeat split.
    + by eexists.
    + intros p Hp. by rewrite lookup_insert_ne.
    + intros k Hk. rewrite lookup_insert_eq, Hd. cbn.
      by apply written_other_keys.
    + by apply dom_insert_lookup_L.
    + rewrite new_events_mk, (submissions_of_long_run _ _ _ _ _ _ _ _ Hsub).
      destruct sentences; [done|]. discriminate.
Qed.

(** X10. A run that dispatches leaves the caller's payload changed: its
    ["tts_text"] is the last sentence, whatever text the caller had put
    there, and nothing else of it differs. *)
Theorem tts_dispatch_overwrites_the_callers_text
    (g : Namespace) (sched : list nat) (payload : nat) (endpoint : PyVal)
    (w : World) (k p : nat) :
  let run := _tts_invoke_streaming g sched payload endpoint w in
  (k, p) ∈ submissions (new_events w run.1) ->
  exists d sentences s,
    w_heap w !! payload = Some d
    /\ _split_text_into_sentences (dict_get d "content_text") 600 = Ok sentences
    /\ last sentences = Some s
    /\ w_heap run.1 = <[payload := <["tts_text" := VStr s]> d]> (w_heap w).
Proof.
  intros run Hsub.
  pose proof (tts_run_cases g sched payload endpoint w) as Hcases.
  cbn zeta in Hcases. fold run in Hcases.
  destruct Hcases
    as [[Hw _]|[(d & Hd & Hw & _)|(d & sentences & new & audios & t & H)]].
  - rewrite Hw, new_events_refl in Hsub. by apply elem_of_nil in Hsub.
  - rewrite Hw, new_events_add_trace, submissions_app in Hsub.
    assert (Hs : submissions (worker_events g (w_self w) 0 d endpoint) = []).
    { unfold worker_events. by destruct (sagemaker_client _), (g !! "json"). }
    rewrite Hs in Hsub.
    destruct (worker_result g (w_self w) 0 d endpoint) as [resp|e].
    + destruct (quiet_segment_events g 0 resp) as (_ & Hq & _).
      rewrite Hq in Hsub. by apply elem_of_nil in Hsub.
    + by apply elem_of_nil in Hsub.
  - destruct H as (Hd & Hsplit & Hne & Hw & _).
    destruct (last sentences) as [s|] eqn:Hlast.
    2: { apply last_None in Hlast. done. }
    exists d, sentences, s. repeat split; try done.
    by rewrite Hw, (written_last_insert d sentences s).
Qed.

(** X12. The collection waits for each call without a time limit.  In
    a dispatching run where the call of segment [k] never completes
    while the segments before it all get through, the run never ends:
    it has yielded the audio of the segments before [k], whole and in
    order, and nothing of a later segment, completed or not. *)
Theorem tts_waits_for_a_call_that_never_completes
    (g : Namespace) (sched : list nat) (payload : nat) (endpoint : PyVal)
    (w : World) (k : nat) (d' : Dict) :
  let run := _tts_invoke_streaming g sched payload endpoint w in
  let ev := new_events w run.1 in
  (k, payload) ∈ submissions ev ->
  w_heap run.1 !! payload = Some d' ->
  k ∉ sched ->
  (forall i, i < k ->
     i ∈ sched
     /\ exists resp a, worker_result g (w_self w) i d' endpoint = Ok resp
                       /\ segment_audio g i resp = Ok a) ->
  run.2 = Blocked
  /\ exists audios,
       length audios = k
       /\ yields ev = segment_yields 0 audios
       /\ (forall j a, audios !! j = Some a ->
             exists resp, worker_result g (w_self w) j d' endpoint = Ok resp
                          /\ segment_audio g j resp = Ok a).
Proof.
  intros run ev Hsub Hheap Hk Hbefore. subst ev.
  destruct (tts_dispatching_run g sched payload endpoint w k payload Hsub)
    as (d & sentences & audios & H). cbn zeta in H. fold run in H.
  destruct H as (Hd & Hsplit & Hheap' & Hsubs & Hy & Hlen & Haud & Hout).
  assert (d' = written d sentences) as -> by congruence.
  rewrite Hsubs in Hsub.
  apply list_elem_of_fmap in Hsub as (i & [= <-] & Hi%elem_of_seq).
  assert (Hle : length audios <= k).
  { destruct (decide (length audios <= k)) as [|Hgt]; [done|].
    destruct (lookup_lt_is_Some_2 audios k) as [a Ha]; [lia|].
    apply Haud, segment_outcome_returned in Ha. by destruct Ha as [? _]. }
  assert (Hstep : forall j, j < k ->
            exists a, segment_outcome g
              (completed g (w_self w) (written d sentences) endpoint
                 (length sentences) sched) j = Returned a).
  { intros j Hj. destruct (Hbefore j Hj) as (Hin & resp & a & Hr & Ha).
    exists a. apply segment_outcome_returned. split; [done|].
    split; [lia|]. eauto. }
  assert (Hblocked : segment_outcome g
            (completed g (w_self w) (written d sentences) endpoint
               (length sentences) sched) k = Blocked).
  { rewrite segment_outcome_completed. rewrite bool_decide_eq_false_2; [done|].
    by intros [? _]. }
  assert (Hk' : length audios = k /\ run.2 = Blocked).
  { destruct run.2 as [[]|e|b|].
    - lia.
    - destruct Hout as (Hlt & ex & Hex & _).
      destruct (decide (length audios = k)) as [Heq|Hneq].
      + rewrite Heq in Hex. congruence.
      + destruct (Hstep (length audios)) as [a Ha]; [lia|]. congruence.
    - done.
    - destruct Hout as (Hlt & Hb).
      destruct (decide (length audios = k)) as [Heq|Hneq]; [done|].
      destruct (Hstep (length audios)) as [a Ha]; [lia|]. congruence. }
  destruct Hk' as [Hlenk Hrun]. split; [done|].
  exists audios. repeat split; try done.
  intros j a Ha. apply Haud, segment_outcome_returned in Ha.
  by destruct Ha as (_ & _ & ?).
Qed.

(** X13. A response that is a JSON object without the key
    ["s3_presign_url"] is not rejected: the download is attempted with
    [None] in place of an address, and the run ends as that request
    ends. *)
Theorem tts_response_without_address_is_fetched
    (g : Namespace) (sched : list nat) (payload : nat) (endpoint : PyVal)
    (w : World) (vm vc vt vl : PyVal) (n : nat) (d resp : Dict) :
  g !! "model" = Some vm ->
  g !! "credentials" = Some vc ->
  g !! "content_text" = Some vt ->
  g !! "logger" = Some vl ->
  py_len vt = Ok n ->
  n <= 600 ->
  w_heap w !! payload = Some d ->
  worker_result g (w_self w) 0 d endpoint = Ok (JDict resp) ->
  resp !! "s3_presign_url" = None ->
  let run := _tts_invoke_streaming g sched payload endpoint w in
  let ev := new_events w run.1 in
  EvHttpGet 0 VNone ∈ ev
  /\ downloads ev = [0]
  /\ run.2 = match requests_get_content 0 VNone with
             | Ok _ => Returned tt
             | Raise e => Raised (mkExn InvokeBadRequestError (exn_str e))
             end.
Proof.
  intros Hm Hc Ht Hl Hlen Hn Hd Hres Hkey run ev. subst ev run.
  rewrite tts_invoke_streaming_run.
  rewrite (tts_short_path_run g sched payload endpoint w vm vc vt n d) by done.
  cbn [fst snd]. rewrite new_events_add_trace, Hres.
  unfold segment_events, segment_audio. rewrite Hl. cbn [json_get].
  unfold dict_get. rewrite Hkey. cbn [default].
  assert (Hq : downloads (worker_events g (w_self w) 0 d endpoint) = []).
  { unfold worker_events. by destruct (sagemaker_client _), (g !! "json"). }
  rewrite downloads_app, Hq. cbn [app]. split; [|split].
  - apply elem_of_app. right. right. by left.
  - destruct (requests_get_content 0 VNone) as [a|e]; [|done].
    change (downloads ([EvLogResp (JDict resp); EvHttpGet 0 VNone]
                       ++ (EvYield 0 <$> chunks a)) = [0]).
    rewrite downloads_app.
    by destruct (quiet_chunks 0 (chunks a)) as (_ & -> & _).
  - by destruct (requests_get_content 0 VNone).
Qed.

(** X14. A response that is valid JSON and not an object (a list, a
    string, a number) ends the run with [InvokeBadRequestError] carrying
    the [AttributeError] of [resp.get]; the call has been made and paid
    for, nothing is downloaded and nothing is yielded. *)
Theorem tts_response_that_is_no_object_fails
    (g : Namespace) (sched : list nat) (payload : nat) (endpoint : PyVal)
    (w : World) (vm vc vt vl : PyVal) (n : nat) (d : Dict)
    (type_name : string) :
  g !! "model" = Some vm ->
  g !! "credentials" = Some vc ->
  g !! "content_text" = Some vt ->
  g !! "logger" = Some vl ->
  py_len vt = Ok n ->
  n <= 600 ->
  w_heap w !! payload = Some d ->
  worker_result g (w_self w) 0 d endpoint = Ok (JOther type_name) ->
  let run := _tts_invoke_streaming g sched payload endpoint w in
  let ev := new_events w run.1 in
  run.2 = Raised (mkExn InvokeBadRequestError
                    ("'" +:+ type_name +:+ "' object has no attribute 'get'"))
  /\ endpoint_calls ev = [(0, d)]
  /\ downloads ev = []
  /\ yields ev = [].
Proof.
  intros Hm Hc Ht Hl Hlen Hn Hd Hres run ev. subst ev run.
  rewrite tts_invoke_streaming_run.
  rewrite (tts_short_path_run g sched payload endpoint w vm vc vt n d) by done.
  cbn [fst snd]. rewrite new_events_add_trace, Hres.
  unfold segment_events, segment_audio. rewrite Hl. cbn [json_get].
  unfold worker_result in Hres. unfold worker_events.
  destruct (sagemaker_client (w_self w)); [|done].
  destruct (g !! "json"); [|done]. done.
Qed.

End SynthProperties.

Section FirstSegmentFailures.
Context {host : Host}.

(** A long run whose first position has completed without giving audio
    ends with the error of that position, having yielded nothing. *)
Lemma tts_long_run_fails_at_first_segment (g : Namespace) (sched : list nat)
    (payload : nat) (endpoint : PyVal) (w : World) (vm vc vt : PyVal)
    (n : nat) (d : Dict) (sentences : list string) (ex : Exn) :
  g !! "model" = Some vm ->
  g !! "credentials" = Some vc ->
  g !! "content_text" = Some vt ->
  py_len vt = Ok n ->
  600 < n ->
  w_heap w !! payload = Some d ->
  _split_text_into_sentences (dict_get d "content_text") 600 = Ok sentences ->
  sentences <> [] ->
  segment_outcome g
    (completed g (w_self w) (written d sentences) endpoint (length sentences) sched)
    0 = Raised ex ->
  let run := _tts_invoke_streaming g sched payload endpoint w in
  run.2 = Raised (mkExn InvokeBadRequestError (exn_str ex))
  /\ yields (new_events w run.1) = []
  /\ exists new,
       endpoint_calls (new_events w run.1)
       = endpoint_calls
           (new ≫= fun i => worker_events g (w_self w) i (written d sentences) endpoint)
       /\ forall i, i ∈ new <-> i ∈ sched /\ i < length sentences.
Proof.
  intros Hm Hc Ht Hlen Hn Hd Hsplit Hne Hfirst run. subst run.
  rewrite tts_invoke_streaming_run. cbn [fst snd].
  destruct (tts_long_path_run g sched payload endpoint w vm vc vt n d sentences)
    as (new & audios & t & Hrun & _ & Hnew & _ & Haud & Hy & Hcalls & _ & _ & Hout);
    try done.
  assert (Hnil : audios = []).
  { destruct audios as [|a audios]; [done|].
    specialize (Haud 0 a eq_refl). congruence. }
  subst audios. rewrite segment_yields_nil in Hy. cbn [length] in Hout.
  rewrite Hrun, new_events_mk. split; [|split].
  - destruct (tts_try_body g sched payload endpoint w).2 as [[]|e|b|].
    + cbn [length] in Hout. by destruct sentences.
    + destruct Hout as [_ Hout]. congruence.
    + done.
    + destruct Hout as [_ Hout]. congruence.
  - rewrite !yields_app, Hy.
    destruct (quiet_submits payload (seq 0 (length sentences))) as (-> & _).
    by destruct (quiet_calls g (w_self w) (written d sentences) endpoint new)
      as (-> & _).
  - exists new. split; [|done].
    rewrite !endpoint_calls_app, Hcalls.
    destruct (quiet_submits payload (seq 0 (length sentences))) as (_ & -> & _).
    by rewrite app_nil_r.
Qed.

(** X20. The synthesizer needs the runtime client that [_invoke] builds.
    On an instance without one it fails with the [AttributeError] of
    calling [invoke_endpoint] on [None], reported as
    [InvokeBadRequestError]: at once for a short text, and for a long
    text after the payload has been overwritten and the segments
    dispatched; in neither case is the endpoint called or anything
    yielded. *)
Theorem tts_needs_a_client
    (g : Namespace) (sched : list nat) (payload : nat) (endpoint : PyVal)
    (w : World) (vm vc vt : PyVal) (n : nat) (d : Dict) :
  g !! "model" = Some vm ->
  g !! "credentials" = Some vc ->
  g !! "content_text" = Some vt ->
  py_len vt = Ok n ->
  w_heap w !! payload = Some d ->
  sagemaker_client (w_self w) = None ->
  let run := _tts_invoke_streaming g sched payload endpoint w in
  let ev := new_events w run.1 in
  let refused : Outcome unit :=
    Raised (mkExn InvokeBadRequestError
              "'NoneType' object has no attribute 'invoke_endpoint'") in
  (n <= 600 -> run = (w, refused))
  /\ (600 < n ->
      forall sentences,
        _split_text_into_sentences (dict_get d "content_text") 600 = Ok sentences ->
        sentences <> [] ->
        0 ∈ sched ->
        run.2 = refused /\ endpoint_calls ev = [] /\ yields ev = []).
Proof.
  intros Hm Hc Ht Hlen Hd Hclient run ev refused. subst run ev refused. split.
  - intros Hn. rewrite tts_invoke_streaming_run.
    rewrite (tts_short_path_run g sched payload endpoint w vm vc vt n d) by done.
    unfold worker_result, worker_events. rewrite Hclient. cbn [fst snd app].
    by rewrite add_trace_nil.
  - intros Hn sentences Hsplit Hne Hsched.
    destruct (tts_long_run_fails_at_first_segment g sched payload endpoint w
                vm vc vt n d sentences
                (mkExn AttributeError
                   "'NoneType' object has no attribute 'invoke_endpoint'"))
      as (Hrun & Hy & new & Hcalls & _); try done.
    { rewrite segment_outcome_completed.
      rewrite bool_decide_eq_true_2
        by (split; [done|destruct sentences; [done|cbn; lia]]).
      unfold worker_result. by rewrite Hclient. }
    split; [done|]. split; [|done]. rewrite Hcalls.
    clear -Hclient. induction new as [|i new IH]; [done|].
    cbn [mbind list_bind fmap list_fmap]. rewrite endpoint_calls_app, IH.
    unfold worker_events. by rewrite Hclient.
Qed.

(** X21. [logger] is used after the endpoint has answered.  In a module
    that binds every other name and not [logger], as the file leaves it,
    a run whose first call succeeds has made its calls, one for a short
    text and one per completed position for a long one, and then fails
    with the [NameError] reported as [InvokeBadRequestError]: nothing is
    downloaded for a short text and nothing is yielded for either. *)
Theorem tts_unbound_logger_fails_after_the_call
    (g : Namespace) (sched : list nat) (payload : nat) (endpoint : PyVal)
    (w : World) (vm vc vt : PyVal) (n : nat) (d : Dict) (resp : Json) :
  g !! "model" = Some vm ->
  g !! "credentials" = Some vc ->
  g !! "content_text" = Some vt ->
  g !! "logger" = None ->
  py_len vt = Ok n ->
  w_heap w !! payload = Some d ->
  let run := _tts_invoke_streaming g sched payload endpoint w in
  let ev := new_events w run.1 in
  let unbound : Outcome unit :=
    Raised (mkExn InvokeBadRequestError "name 'logger' is not defined") in
  (n <= 600 ->
   worker_result g (w_self w) 0 d endpoint = Ok resp ->
   run = (add_trace w [EvInvokeEndpoint 0 endpoint d], unbound))
  /\ (600 < n ->
      forall sentences,
        _split_text_into_sentences (dict_get d "content_text") 600 = Ok sentences ->
        sentences <> [] ->
        0 ∈ sched ->
        worker_result g (w_self w) 0 (written d sentences) endpoint = Ok resp ->
        run.2 = unbound
        /\ yields ev = []
        /\ forall i, i ∈ (endpoint_calls ev).*1
                     <-> i ∈ sched /\ i < length sentences).
Proof.
  intros Hm Hc Ht Hl Hlen Hd run ev unbound. subst run ev unbound. split.
  - intros Hn Hres. rewrite tts_invoke_streaming_run.
    rewrite (tts_short_path_run g sched payload endpoint w vm vc vt n d) by done.
    rewrite Hres. unfold segment_events, segment_audio. rewrite Hl.
    rewrite app_nil_r. unfold worker_result in Hres. unfold worker_events.
    destruct (sagemaker_client (w_self w)); [|done].
    by destruct (g !! "json").
  - intros Hn sentences Hsplit Hne Hsched Hres.
    destruct (tts_long_run_fails_at_first_segment g sched payload endpoint w
                vm vc vt n d sentences
                (mkExn NameError "name 'logger' is not defined"))
      as (Hrun & Hy & new & Hcalls & Hnew); try done.
    { rewrite segment_outcome_completed.
      rewrite bool_decide_eq_true_2
        by (split; [done|destruct sentences; [done|cbn; lia]]).
      rewrite Hres. unfold segment_audio. by rewrite Hl. }
    split; [done|]. split; [done|]. intros i. rewrite Hcalls.
    unfold worker_result in Hres.
    destruct (sagemaker_client (w_self w)) as [client|] eqn:Hclient; [|done].
    destruct (g !! "json") as [vj|] eqn:Hj; [|done].
    rewrite (endpoint_calls_of_workers g (w_self w) _ endpoint new client vj)
      by done.
    rewrite <- list_fmap_compose.
    change (fst ∘ (fun i : nat => (i, written d sentences))) with (@id nat).
    by rewrite list_fmap_id.
Qed.

End FirstSegmentFailures.

(** ** [_invoke]: the clients it builds and how it ends *)

Section InvokeProperties.
Context {host : Host}.

(** The two [boto3.client] calls and the two assignments. *)
Lemma build_clients_run (g : Namespace) (kw : list (string * PyVal))
    (vb : PyVal) (w : World) :
  g !! "boto3" = Some vb ->
  (c ← new_client g "sagemaker-runtime" kw;
   set_sagemaker_client c ;;
   c ← new_client g "s3" kw;
   set_s3_client c) w
  = match boto3_client "sagemaker-runtime" kw with
    | Raise e => (w, Raised e)
    | Ok c1 =>
        match boto3_client "s3" kw with
        | Raise e =>
            (mkWorld (mkSelf (Some c1) (s3_client (w_self w))) (w_heap w)
               (w_trace w ++ [EvBoto3Client c1]), Raised e)
        | Ok c2 =>
            (mkWorld (mkSelf (Some c1) (Some c2)) (w_heap w)
               (w_trace w ++ [EvBoto3Client c1; EvBoto3Client c2]), Returned tt)
        end
    end.
Proof.
  intros Hb. unfold new_client.
  rewrite bind_run, bind_run, load_global_run, Hb, bind_run, call_run.
  cbn [Py.boto3_client platform_of_host].
  destruct (boto3_client "sagemaker-runtime" kw) as [c1|e]; cbn [outcome_of];
    [|done].
  rewrite bind_run, emit_run. cbn [mret M_ret].
  rewrite bind_run. unfold set_sagemaker_client at 1.
  rewrite bind_run. cbn [get_self set_self add_trace w_self w_heap w_trace].
  rewrite bind_run, bind_run, load_global_run, Hb, bind_run, call_run.
  cbn [Py.boto3_client platform_of_host].
  destruct (boto3_client "s3" kw) as [c2|e]; cbn [outcome_of]; [|done].
  rewrite bind_run, emit_run. cbn [mret M_ret].
  unfold set_s3_client. rewrite bind_run.
  cbn [get_self set_self add_trace w_self w_heap w_trace sagemaker_client].
  unfold set_self, add_trace. cbn [w_self w_heap w_trace].
  by rewrite <- app_assoc.
Qed.

(** [_invoke] on an instance without a client, with [logger] and [boto3]
    bound. *)
Lemma invoke_without_client_run (g : Namespace) (model tenant_id : PyVal)
    (credentials : Dict) (content_text voice user : PyVal) (w : World)
    (vl vb : PyVal) :
  g !! "logger" = Some vl ->
  g !! "boto3" = Some vb ->
  sagemaker_client (w_self w) = None ->
  let logged := EvLog <$> invoke_log_lines model tenant_id content_text voice user in
  _invoke g model tenant_id credentials content_text voice user w
  = match boto3_client "sagemaker-runtime" (client_kwargs credentials) with
    | Raise e => (add_trace w logged, Raised e)
    | Ok c1 =>
        match boto3_client "s3" (client_kwargs credentials) with
        | Raise e =>
            (mkWorld (mkSelf (Some c1) (s3_client (w_self w))) (w_heap w)
               (w_trace w ++ logged ++ [EvBoto3Client c1]), Raised e)
        | Ok c2 =>
            (mkWorld (mkSelf (Some c1) (Some c2)) (w_heap w)
               (w_trace w ++ logged ++ [EvBoto3Client c1; EvBoto3Client c2]),
             Raised (invoke_ending credentials content_text))
        end
    end.
Proof.
  intros Hlogger Hb Hclient logged. subst logged.
  unfold _invoke, logger_warning.
  repeat (rewrite bind_run, bind_run, load_global_run, Hlogger, emit_run;
          cbv beta iota).
  rewrite !add_trace_app. cbn [app].
  rewrite bind_run. cbn [get_self w_self add_trace]. rewrite Hclient.
  rewrite (bool_decide_eq_false_2 (is_Some (@None Client)))
    by (by intros [? [=]]).
  cbn [negb]. rewrite bind_run. unfold client_kwargs.
  destruct (truthy (dict_get credentials "aws_region"));
    [destruct (truthy (dict_get credentials "aws_access_key_id")
               && truthy (dict_get credentials "aws_secret_access_key"))|].
  all: rewrite (build_clients_run g _ vb) by done.
  all: destruct (boto3_client "sagemaker-runtime" _) as [c1|e]; [|done].
  all: destruct (boto3_client "s3" _) as [c2|e];
    unfold add_trace; cbn [w_self w_heap w_trace s3_client];
    rewrite <- app_assoc; [|done].
  all: rewrite bind_run, lift_run; unfold invoke_ending.
  all: destruct (_build_tts_payload _ _ _ _ _ _ _) as [d|e]; cbn [outcome_of];
    [by rewrite lift_run|done].
Qed.

(** X15. On an instance without a client, with [logger] and [boto3]
    bound, [_invoke] builds the runtime client and then the storage
    client, both with the keyword arguments [client_kwargs] reads off
    the credentials, and leaves them on the instance although the call
    itself ends in an exception.  Every argument passed is a value Python
    takes as true, and without a region nothing is passed at all: access
    keys given without a region are not used. *)
Theorem invoke_builds_and_keeps_its_clients
    (g : Namespace) (model tenant_id : PyVal) (credentials : Dict)
    (content_text voice user : PyVal) (w : World) (vl vb : PyVal)
    (c1 c2 : Client) :
  g !! "logger" = Some vl ->
  g !! "boto3" = Some vb ->
  sagemaker_client (w_self w) = None ->
  boto3_client "sagemaker-runtime" (client_kwargs credentials) = Ok c1 ->
  boto3_client "s3" (client_kwargs credentials) = Ok c2 ->
  let run := _invoke g model tenant_id credentials content_text voice user w in
  w_self run.1 = mkSelf (Some c1) (Some c2)
  /\ clients_built (new_events w run.1) = [c1; c2]
  /\ w_heap run.1 = w_heap w
  /\ (exists e, run.2 = Raised e)
  /\ (forall k v, (k, v) ∈ client_kwargs credentials -> truthy v = true)
  /\ (truthy (dict_get credentials "aws_region") = false ->
      client_kwargs credentials = []).
Proof.
  intros Hl Hb Hclient H1 H2 run. subst run.
  rewrite (invoke_without_client_run g model tenant_id credentials content_text
             voice user w vl vb) by done.
  rewrite H1, H2. cbn [fst snd w_self w_heap].
  rewrite new_events_mk. repeat split; [by eexists| |].
  - intros k v. unfold client_kwargs.
    destruct (truthy (dict_get credentials "aws_region")) eqn:Hr;
      [destruct (truthy (dict_get credentials "aws_access_key_id")) eqn:Ha;
       [destruct (truthy (dict_get credentials "aws_secret_access_key")) eqn:Hs|]|];
      cbn [andb]; rewrite ?elem_of_cons, ?elem_of_nil;
      intros Hin; destruct_or?; simplify_eq; done.
  - unfold client_kwargs. by intros ->.
Qed.

(** X16. Whether clients are built is decided by the runtime client
    alone.  If the storage client cannot be built, [_invoke] raises the
    error of [boto3.client] with the runtime client already on the
    instance; and then no later call, whatever its arguments, builds a
    client again: the storage client is never retried. *)
Theorem invoke_does_not_retry_the_storage_client
    (g : Namespace) (model tenant_id : PyVal) (credentials : Dict)
    (content_text voice user : PyVal) (w : World) (vl vb : PyVal)
    (c1 : Client) (e : Exn) :
  g !! "logger" = Some vl ->
  g !! "boto3" = Some vb ->
  sagemaker_client (w_self w) = None ->
  boto3_client "sagemaker-runtime" (client_kwargs credentials) = Ok c1 ->
  boto3_client "s3" (client_kwargs credentials) = Raise e ->
  let first := _invoke g model tenant_id credentials content_text voice user w in
  first.2 = Raised e
  /\ w_self first.1 = mkSelf (Some c1) (s3_client (w_self w))
  /\ forall g' model' tenant_id' credentials' content_text' voice' user',
       let second := _invoke g' model' tenant_id' credentials' content_text'
                       voice' user' first.1 in
       w_self second.1 = w_self first.1
       /\ clients_built (new_events first.1 second.1) = [].
Proof.
  intros Hl Hb Hclient H1 H2 first. subst first.
  rewrite (invoke_without_client_run g model tenant_id credentials content_text
             voice user w vl vb) by done.
  rewrite H1, H2. cbn [fst snd w_self]. repeat split.
  all: rewrite (invoke_with_client_run g' _ _ _ _ _ _ _ c1) by done.
  all: destruct (g' !! "logger"); cbn [fst]; [|by rewrite ?new_events_refl].
  all: by rewrite ?new_events_add_trace.
Qed.

(** X17. On an instance that has a runtime client, [_invoke] leaves the
    instance and the heap alone and builds nothing, whatever the
    credentials of the call say and whether or not there is a storage
    client or a [boto3]; with [logger] bound it logs its five lines and
    nothing else. *)
Theorem invoke_reuses_the_client_it_finds
    (g : Namespace) (model tenant_id : PyVal) (credentials : Dict)
    (content_text voice user : PyVal) (w : World) (c : Client) :
  sagemaker_client (w_self w) = Some c ->
  let run := _invoke g model tenant_id credentials content_text voice user w in
  w_self run.1 = w_self w
  /\ w_heap run.1 = w_heap w
  /\ clients_built (new_events w run.1) = []
  /\ (forall vl, g !! "logger" = Some vl ->
        new_events w run.1
        = EvLog <$> invoke_log_lines model tenant_id content_text voice user).
Proof.
  intros Hclient run. subst run.
  rewrite (invoke_with_client_run g _ _ _ _ _ _ _ c) by done.
  destruct (g !! "logger"); cbn [fst].
  - rewrite new_events_add_trace. by repeat split.
  - rewrite new_events_refl. by repeat split.
Qed.

(** X18. Once [logger] is bound and the instance has its clients, found
    or just built, the exception [_invoke] ends with is decided by the
    credentials alone: [RuntimeError] of the payload builder when the
    mode, [PresetVoice] if the credentials name none, and its companion
    fields are not a documented combination, and otherwise, for every
    valid bundle, the [TypeError] of the call in its last line. *)
Theorem invoke_ends_in_one_of_two_errors
    (g : Namespace) (model tenant_id : PyVal) (credentials : Dict)
    (content_text voice user : PyVal) (w : World) (vl : PyVal) :
  g !! "logger" = Some vl ->
  is_Some (sagemaker_client (w_self w))
  \/ (exists vb c1 c2,
        g !! "boto3" = Some vb
        /\ boto3_client "sagemaker-runtime" (client_kwargs credentials) = Ok c1
        /\ boto3_client "s3" (client_kwargs credentials) = Ok c2) ->
  let run := _invoke g model tenant_id credentials content_text voice user w in
  let model_type := dict_get_default credentials "model_type" (VStr "PresetVoice") in
  run.2
  = Raised
      (if documented_combination model_type
            (dict_get credentials "model_role")
            (dict_get credentials "prompt_text")
            (dict_get credentials "prompt_audio")
            (dict_get credentials "lang_tag")
            (dict_get credentials "instruct_text")
       then mkExn TypeError
              "SageMakerText2SpeechModel._tts_invoke_streaming() takes 3 positional arguments but 5 were given"
       else mkExn RuntimeError ("Invalid params for " +:+ py_str model_type)).
Proof.
  intros Hl Hclients run model_type. subst run model_type.
  assert (Hend : invoke_ending credentials content_text
            = if documented_combination
                   (dict_get_default credentials "model_type" (VStr "PresetVoice"))
                   (dict_get credentials "model_role")
                   (dict_get credentials "prompt_text")
                   (dict_get credentials "prompt_audio")
                   (dict_get credentials "lang_tag")
                   (dict_get credentials "instruct_text")
              then mkExn TypeError
                     "SageMakerText2SpeechModel._tts_invoke_streaming() takes 3 positional arguments but 5 were given"
              else mkExn RuntimeError
                     ("Invalid params for "
                      +:+ py_str (dict_get_default credentials "model_type"
                                    (VStr "PresetVoice")))).
  { unfold invoke_ending.
    destruct (build_tts_payload_cases content_text
                (dict_get_default credentials "model_type" (VStr "PresetVoice"))
                (dict_get credentials "model_role")
                (dict_get credentials "prompt_text")
                (dict_get credentials "prompt_audio")
                (dict_get credentials "lang_tag")
                (dict_get credentials "instruct_text"))
      as [[-> [d ->]]|[-> ->]]; done. }
  rewrite <- Hend.
  destruct (sagemaker_client (w_self w)) as [c|] eqn:Hclient.
  - rewrite (invoke_with_client_run g _ _ _ _ _ _ _ c) by done. by rewrite Hl.
  - destruct Hclients as [[? [=]]|(vb & c1 & c2 & Hb & H1 & H2)].
    rewrite (invoke_without_client_run g model tenant_id credentials
               content_text voice user w vl vb) by done.
    by rewrite H1, H2.
Qed.

End InvokeProperties.

(** X19. The error table is unambiguous: no exception class is listed
    under two unified errors; every unified error lists itself, so that
    one raised by the model reaches the caller as it is; and [KeyError]
    and [ValueError] are reported as bad requests. *)
Theorem error_table_is_unambiguous (cls : ExnClass) :
  length (listed_under cls) <= 1
  /\ (forall key classes,
        (key, classes) ∈ _invoke_error_mapping ->
        key ∈ classes /\ listed_under key = [key])
  /\ listed_under (OtherError "KeyError") = [InvokeBadRequestError]
  /\ listed_under ValueError = [InvokeBadRequestError].
Proof.
  split; [|split; [|done]].
  - unfold listed_under, _invoke_error_mapping.
    rewrite !filter_cons, filter_nil. cbn [snd].
    repeat case_decide; cbn; try lia.
    all: repeat match goal with
                | H : _ ∈ _ |- _ =>
                    rewrite ?elem_of_cons, ?elem_of_nil in H; destruct_or?
                end; simplify_eq.
  - intros key classes Hin. unfold _invoke_error_mapping in Hin.
    rewrite ?elem_of_cons, ?elem_of_nil in Hin.
    destruct_or?; simplify_eq; split; try done; rewrite ?elem_of_cons; auto.
Qed.

(** ** The further properties at concrete calls *)

(** X4, in a module that binds [model] alone. *)
Lemma tts_fails_on_its_stale_names_witness :
  _tts_invoke_streaming (host := example_host [] (audio_of_size 3))
    (<["model" := VStr "cosyvoice"]> module_globals) [] 0 (VStr "tts-endpoint")
    hello_world
  = (hello_world,
     Raised (mkExn InvokeBadRequestError "name 'credentials' is not defined")).
Proof.
  apply (proj1 (tts_fails_on_its_stale_names
                  (host := example_host [] (audio_of_size 3))
                  (<["model" := VStr "cosyvoice"]> module_globals) [] 0
                  (VStr "tts-endpoint") hello_world)
           ["model"] "credentials" ["content_text"]).
  - reflexivity.
  - intros n Hn. apply list_elem_of_singleton in Hn as ->.
    exists (VStr "cosyvoice"). vm_compute. reflexivity.
  - vm_compute. reflexivity.
Defined.

(** X5, at the specification's first example with 2050 bytes of audio:
    three chunks. *)
Lemma tts_short_text_run_witness :
  (hello_run (patched_globals "Hello world.")).2 = Returned tt
  /\ yields (new_events hello_world (hello_run (patched_globals "Hello world.")).1)
     = (fun c => (0, c)) <$> chunks (audio_of_size 2050 0)
  /\ length (chunks (audio_of_size 2050 0)) = 3.
Proof.
  destruct (tts_short_text_run (host := example_host [] (audio_of_size 2050))
              (patched_globals "Hello world.") [] 0 (VStr "tts-endpoint")
              hello_world (VStr "cosyvoice") (VObj "dict") (VStr "Hello world.")
              (VObj "json") (VObj "Logger") 12 hello_payload
              {[ "s3_presign_url" := VStr "s3://audio/0" ]} a_client
              "s3://audio/0" (audio_of_size 2050 0))
    as (Hrun & Hlen & _);
    [vm_compute; reflexivity | vm_compute; reflexivity | vm_compute; reflexivity
    | vm_compute; reflexivity | vm_compute; reflexivity | reflexivity
    | lia | vm_compute; reflexivity | reflexivity | vm_compute; reflexivity
    | reflexivity | reflexivity |].
  unfold hello_run. rewrite Hrun, Hlen. cbn [fst snd].
  rewrite new_events_add_trace.
  split; [reflexivity|]. split; [|vm_compute; reflexivity].
  change (yields ([EvInvokeEndpoint 0 (VStr "tts-endpoint") hello_payload;
                   EvLogResp (JDict {[ "s3_presign_url" := VStr "s3://audio/0" ]});
                   EvHttpGet 0 (dict_get {[ "s3_presign_url" := VStr "s3://audio/0" ]}
                                  "s3_presign_url")]
                  ++ (EvYield 0 <$> chunks (audio_of_size 2050 0)))
          = (fun c => (0, c)) <$> chunks (audio_of_size 2050 0)).
  rewrite yields_app. apply yields_of_chunks.
Defined.

(** X6, at a module text of exactly 600 characters over a payload whose
    own text has 1203: nothing is dispatched. *)
Lemma tts_path_is_chosen_by_the_module_text_witness :
  submissions (new_events three_segment_world boundary_run.1) = []
  /\ w_heap boundary_run.1 = w_heap three_segment_world
  /\ (endpoint_calls (new_events three_segment_world boundary_run.1) = []
      \/ endpoint_calls (new_events three_segment_world boundary_run.1)
         = [(0, long_payload 3)]).
Proof.
  refine (proj1 (tts_path_is_chosen_by_the_module_text
                   (host := example_host [] (audio_of_size 3))
                   (patched_globals (text_of_length 600)) [] 0
                   (VStr "tts-endpoint") three_segment_world
                   (VStr "cosyvoice") (VObj "dict") (VStr (text_of_length 600))
                   600 (long_payload 3) _ _ _ _ _) _);
    [vm_compute; reflexivity .. | lia].
Defined.

(** X7, at a payload whose ["content_text"] is empty. *)
Lemma tts_no_sentence_is_an_error_witness :
  blank_run
  = (blank_world,
     Raised (mkExn InvokeBadRequestError "max_workers must be greater than 0")).
Proof.
  refine (tts_no_sentence_is_an_error
            (host := example_host [] (audio_of_size 3))
            (patched_globals (text_of_sentences 2)) [1; 0] 0 (VStr "tts-endpoint")
            blank_world (VStr "cosyvoice") (VObj "dict")
            (VStr (text_of_sentences 2)) 802
            {[ "tts_text" := VStr (text_of_sentences 2);
               "content_text" := VStr ""; "role" := VStr "r1" ]}
            _ _ _ _ _ _ _);
    [vm_compute; reflexivity | vm_compute; reflexivity | vm_compute; reflexivity
    | vm_compute; reflexivity | lia | vm_compute; reflexivity
    | vm_compute; reflexivity].
Defined.

(** X8, at the payload the builder makes in mode PresetVoice for a text
    of two sentences, with a splitter that refuses [None]. *)
Lemma tts_built_payload_gives_the_splitter_none_witness :
  built_run
  = (built_world,
     Raised (mkExn InvokeBadRequestError "expected string or bytes-like object")).
Proof.
  refine (proj1 (tts_built_payload_gives_the_splitter_none
                   (host := example_host [] (audio_of_size 3))
                   (patched_globals (text_of_sentences 2)) [1; 0] 0
                   (VStr "tts-endpoint") built_world (VStr "cosyvoice")
                   (VObj "dict") (VStr (text_of_sentences 2)) 802 built_payload
                   (VStr (text_of_sentences 2)) (VStr "PresetVoice") (VStr "r1")
                   VNone VNone VNone VNone _ _ _ _ _ _ _)
            (mkExn TypeError "expected string or bytes-like object") _);
    [reflexivity | vm_compute; reflexivity | vm_compute; reflexivity
    | vm_compute; reflexivity | vm_compute; reflexivity | vm_compute; reflexivity
    | lia | reflexivity].
Defined.

(** X10, at the text of two segments: the caller's payload ends with the
    second sentence as its text. *)
Lemma tts_dispatch_overwrites_the_callers_text_witness :
  exists d sentences s,
    w_heap two_segment_world !! 0 = Some d
    /\ sentence_split (dict_get d "content_text") 600 = Ok sentences
    /\ last sentences = Some s
    /\ w_heap two_segment_run.1
       = <[0 := <["tts_text" := VStr s]> d]> (w_heap two_segment_world).
Proof.
  apply (tts_dispatch_overwrites_the_callers_text
           (host := example_host [] (audio_of_size 3))
           (patched_globals (text_of_sentences 2)) [1; 0] 0 (VStr "tts-endpoint")
           two_segment_world 0 0).
  vm_compute. repeat constructor.
Defined.

(** X12, at the text of three segments whose second call never
    completes while the third does: the run waits after the first
    segment. *)
Lemma tts_waits_for_a_call_that_never_completes_witness :
  stalled_run.2 = Blocked
  /\ exists audios,
       length audios = 1
       /\ yields (new_events three_segment_world stalled_run.1)
          = segment_yields 0 audios
       /\ (forall j a, audios !! j = Some a ->
             exists resp,
               worker_result (host := example_host [] (audio_of_size 3))
                 (patched_globals (text_of_sentences 3)) (w_self three_segment_world)
                 j (<["tts_text" := VStr (sentence_of 2)]> (long_payload 3))
                 (VStr "tts-endpoint") = Ok resp
               /\ segment_audio (host := example_host [] (audio_of_size 3))
                    (patched_globals (text_of_sentences 3)) j resp = Ok a).
Proof.
  apply (tts_waits_for_a_call_that_never_completes
           (host := example_host [] (audio_of_size 3))
           (patched_globals (text_of_sentences 3)) [2; 0] 0 (VStr "tts-endpoint")
           three_segment_world 1
           (<["tts_text" := VStr (sentence_of 2)]> (long_payload 3))).
  - vm_compute. repeat constructor.
  - vm_compute. reflexivity.
  - intros Hin. apply elem_of_cons in Hin as [|Hin]; [lia|].
    apply list_elem_of_singleton in Hin. lia.
  - intros i Hi. assert (i = 0) as -> by lia. split; [repeat constructor|].
    eexists _, _. split; vm_compute; reflexivity.
Defined.

(** X13, at an endpoint that answers with the empty object and an HTTP
    client that refuses [None]. *)
Lemma tts_response_without_address_is_fetched_witness :
  EvHttpGet 0 VNone ∈ new_events hello_world (answering_run (JDict ∅)).1
  /\ downloads (new_events hello_world (answering_run (JDict ∅)).1) = [0]
  /\ (answering_run (JDict ∅)).2
     = Raised (mkExn InvokeBadRequestError
                 "Invalid URL 'None': No scheme supplied").
Proof.
  refine (tts_response_without_address_is_fetched
            (host := answering_host (JDict ∅))
            (patched_globals "Hello world.") [] 0 (VStr "tts-endpoint")
            hello_world (VStr "cosyvoice") (VObj "dict") (VStr "Hello world.")
            (VObj "Logger") 12 hello_payload ∅ _ _ _ _ _ _ _ _ _);
    [vm_compute; reflexivity | vm_compute; reflexivity | vm_compute; reflexivity
    | vm_compute; reflexivity | reflexivity | lia | vm_compute; reflexivity
    | vm_compute; reflexivity | reflexivity].
Defined.

(** X14, at an endpoint that answers with a JSON list. *)
Lemma tts_response_that_is_no_object_fails_witness :
  (answering_run (JOther "list")).2
  = Raised (mkExn InvokeBadRequestError "'list' object has no attribute 'get'")
  /\ endpoint_calls (new_events hello_world (answering_run (JOther "list")).1)
     = [(0, hello_payload)]
  /\ downloads (new_events hello_world (answering_run (JOther "list")).1) = []
  /\ yields (new_events hello_world (answering_run (JOther "list")).1) = [].
Proof.
  refine (tts_response_that_is_no_object_fails
            (host := answering_host (JOther "list"))
            (patched_globals "Hello world.") [] 0 (VStr "tts-endpoint")
            hello_world (VStr "cosyvoice") (VObj "dict") (VStr "Hello world.")
            (VObj "Logger") 12 hello_payload "list" _ _ _ _ _ _ _ _);
    [vm_compute; reflexivity | vm_compute; reflexivity | vm_compute; reflexivity
    | vm_compute; reflexivity | reflexivity | lia | vm_compute; reflexivity
    | vm_compute; reflexivity].
Defined.

(** X15, at credentials with access keys and no region: both clients
    are built without any argument; with a region the keys are passed. *)
Lemma invoke_builds_and_keeps_its_clients_witness :
  w_self (invoke_run keys_only bare_world).1
  = mkSelf (Some (mkClient "sagemaker-runtime" [])) (Some (mkClient "s3" []))
  /\ clients_built (new_events bare_world (invoke_run keys_only bare_world).1)
     = [mkClient "sagemaker-runtime" []; mkClient "s3" []]
  /\ client_kwargs keys_and_region
     = [("aws_access_key_id", VStr "AKIA");
        ("aws_secret_access_key", VStr "s3cr3t");
        ("region_name", VStr "us-east-1")].
Proof.
  destruct (invoke_builds_and_keeps_its_clients
              (host := example_host [] (audio_of_size 3))
              (full_globals "Hello world.") (VStr "cosyvoice") (VStr "tenant")
              keys_only (VStr "Hello world.") (VStr "") VNone bare_world
              (VObj "Logger") (VObj "boto3")
              (mkClient "sagemaker-runtime" []) (mkClient "s3" []))
    as (Hself & Hbuilt & _);
    [vm_compute; reflexivity | vm_compute; reflexivity | reflexivity
    | vm_compute; reflexivity | vm_compute; reflexivity |].
  split; [exact Hself|]. split; [exact Hbuilt|]. vm_compute. reflexivity.
Defined.

(** X16, at a host that denies the storage client: the first call
    leaves the runtime client alone on the instance, and a second call
    builds nothing. *)
Lemma invoke_does_not_retry_the_storage_client_witness :
  (denied_run keys_and_region bare_world).2
  = Raised (mkExn (OtherError "NoCredentialsError") "Unable to locate credentials")
  /\ s3_client (w_self (denied_run keys_and_region bare_world).1) = None
  /\ w_self (denied_run keys_and_region (denied_run keys_and_region bare_world).1).1
     = w_self (denied_run keys_and_region bare_world).1.
Proof.
  destruct (invoke_does_not_retry_the_storage_client
              (host := storage_denied_host)
              (full_globals "Hello world.") (VStr "cosyvoice") (VStr "tenant")
              keys_and_region (VStr "Hello world.") (VStr "") VNone bare_world
              (VObj "Logger") (VObj "boto3")
              (mkClient "sagemaker-runtime"
                 [("aws_access_key_id", VStr "AKIA");
                  ("aws_secret_access_key", VStr "s3cr3t");
                  ("region_name", VStr "us-east-1")])
              (mkExn (OtherError "NoCredentialsError") "Unable to locate credentials"))
    as (Hraise & Hself & Hnext);
    [vm_compute; reflexivity | vm_compute; reflexivity | reflexivity
    | vm_compute; reflexivity | vm_compute; reflexivity |].
  split; [exact Hraise|]. split.
  - unfold denied_run. rewrite Hself. reflexivity.
  - apply (Hnext (full_globals "Hello world.") (VStr "cosyvoice") (VStr "tenant")
             keys_and_region (VStr "Hello world.") (VStr "") VNone).
Defined.

(** X17, at an instance with clients and credentials that name other
    keys and a region. *)
Lemma invoke_reuses_the_client_it_finds_witness :
  w_self (invoke_run keys_and_region hello_world).1 = w_self hello_world
  /\ w_heap (invoke_run keys_and_region hello_world).1 = w_heap hello_world
  /\ clients_built (new_events hello_world (invoke_run keys_and_region hello_world).1)
     = []
  /\ (forall vl,
        full_globals "Hello world." !! "logger" = Some vl ->
        new_events hello_world (invoke_run keys_and_region hello_world).1
        = EvLog <$> invoke_log_lines (VStr "cosyvoice") (VStr "tenant")
                      (VStr "Hello world.") (VStr "") VNone).
Proof.
  apply (invoke_reuses_the_client_it_finds
           (host := example_host [] (audio_of_size 3))
           (full_globals "Hello world.") (VStr "cosyvoice") (VStr "tenant")
           keys_and_region (VStr "Hello world.") (VStr "") VNone hello_world
           a_client).
  reflexivity.
Defined.

(** X18, at credentials that are in order (a role, the mode left to its
    default): the call ends in the [TypeError]; and at credentials that
    name the mode CloneVoice and no prompt, in the [RuntimeError]. *)
Lemma invoke_ends_in_one_of_two_errors_witness :
  (invoke_run keys_only hello_world).2
  = Raised (mkExn TypeError
      "SageMakerText2SpeechModel._tts_invoke_streaming() takes 3 positional arguments but 5 were given")
  /\ (invoke_run {[ "model_type" := VStr "CloneVoice" ]} bare_world).2
     = Raised (mkExn RuntimeError "Invalid params for CloneVoice").
Proof.
  split.
  - unfold invoke_run.
    rewrite (invoke_ends_in_one_of_two_errors
               (host := example_host [] (audio_of_size 3))
               (full_globals "Hello world.") (VStr "cosyvoice") (VStr "tenant")
               keys_only (VStr "Hello world.") (VStr "") VNone hello_world
               (VObj "Logger"));
      [reflexivity | vm_compute; reflexivity | left; by eexists].
  - unfold invoke_run.
    rewrite (invoke_ends_in_one_of_two_errors
               (host := example_host [] (audio_of_size 3))
               (full_globals "Hello world.") (VStr "cosyvoice") (VStr "tenant")
               {[ "model_type" := VStr "CloneVoice" ]} (VStr "Hello world.")
               (VStr "") VNone bare_world (VObj "Logger"));
      [reflexivity | vm_compute; reflexivity |].
    right. exists (VObj "boto3"), (mkClient "sagemaker-runtime" []),
             (mkClient "s3" []).
    repeat split; vm_compute; reflexivity.
Defined.

(** X20, at the specification's first example on an instance without a
    client. *)
Lemma tts_needs_a_client_witness :
  bare_run
  = (bare_world,
     Raised (mkExn InvokeBadRequestError
               "'NoneType' object has no attribute 'invoke_endpoint'")).
Proof.
  refine (proj1 (tts_needs_a_client
                   (host := example_host [] (audio_of_size 3))
                   (patched_globals "Hello world.") [] 0 (VStr "tts-endpoint")
                   bare_world (VStr "cosyvoice") (VObj "dict")
                   (VStr "Hello world.") 12 hello_payload _ _ _ _ _ _) _);
    [vm_compute; reflexivity | vm_compute; reflexivity | vm_compute; reflexivity
    | reflexivity | vm_compute; reflexivity | reflexivity | lia].
Defined.

(** X21, at the specification's first example in the module without
    [logger]: the call is made and the run fails. *)
Lemma tts_unbound_logger_fails_after_the_call_witness :
  unlogged_run
  = (add_trace hello_world [EvInvokeEndpoint 0 (VStr "tts-endpoint") hello_payload],
     Raised (mkExn InvokeBadRequestError "name 'logger' is not defined")).
Proof.
  refine (proj1 (tts_unbound_logger_fails_after_the_call
                   (host := example_host [] (audio_of_size 3))
                   (unlogged_globals "Hello world.") [] 0 (VStr "tts-endpoint")
                   hello_world (VStr "cosyvoice") (VObj "dict")
                   (VStr "Hello world.") 12 hello_payload
                   (JDict {[ "s3_presign_url" := VStr "s3://audio/0" ]})
                   _ _ _ _ _ _) _ _);
    [vm_compute; reflexivity | vm_compute; reflexivity | vm_compute; reflexivity
    | vm_compute; reflexivity | reflexivity | vm_compute; reflexivity | lia
    | vm_compute; reflexivity].
Defined.
